(** * libuiohook, Windows back end: the hook-side trackers and the synthetic
    input composer.

    A shallow embedding of [src/windows/input_hook.c] and
    [src/windows/post_event.c].  The file-scope variables of
    [input_hook.c] become one record threaded through the processing
    functions; the injection requests of [post_event.c] are collected in a
    trace of the calls made to the operating system. *)

From Stdlib Require Import ZArith List Bool Lia String.
Import ListNotations.
Open Scope Z_scope.

Set Default Proof Using "Type".

(** * The embedding *)

(** ** Fixed-width integers of the C sources *)

Module CInt.

(** Conversion to an unsigned type of [w] bits: reduction modulo [2^w]. *)
Definition to_unsigned (w z : Z) : Z := z mod 2 ^ w.

(** Conversion to a signed type of [w] bits (two's complement). *)
Definition to_signed (w z : Z) : Z :=
  (z + 2 ^ (w - 1)) mod 2 ^ w - 2 ^ (w - 1).

Definition uint16_t := to_unsigned 16.
Definition uint64_t := to_unsigned 64.
Definition int16_t := to_signed 16.
Definition int_ := to_signed 32.

(** [long int] has 32 bits on every Windows target. *)
Definition long_bits : Z := 32.
Definition long_int := to_signed long_bits.

Definition USHRT_MAX : Z := 65535.
Definition INT_MAX : Z := 2147483647.

Definition HIWORD (l : Z) : Z := Z.shiftr l 16 mod 2 ^ 16.

Definition fits_signed (w z : Z) : Prop :=
  - 2 ^ (w - 1) <= z < 2 ^ (w - 1).

Definition fits_long (z : Z) : Prop := fits_signed long_bits z.

(** The elapsed time as the hook computes it: the difference of two
    [uint64_t] time stamps, converted to [long int]. *)
Definition elapsed (timestamp since : Z) : Z :=
  long_int (uint64_t (timestamp - since)).

End CInt.

(** ** Constants of the Windows API used by the two files *)

Module Win32.

(** Virtual-key codes. *)
Definition VK_LBUTTON : Z := 0x01.
Definition VK_RBUTTON : Z := 0x02.
Definition VK_MBUTTON : Z := 0x04.
Definition VK_XBUTTON1 : Z := 0x05.
Definition VK_XBUTTON2 : Z := 0x06.
Definition VK_CAPITAL : Z := 0x14.
Definition VK_PRIOR : Z := 0x21.
Definition VK_NEXT : Z := 0x22.
Definition VK_END : Z := 0x23.
Definition VK_HOME : Z := 0x24.
Definition VK_LEFT : Z := 0x25.
Definition VK_UP : Z := 0x26.
Definition VK_RIGHT : Z := 0x27.
Definition VK_DOWN : Z := 0x28.
Definition VK_INSERT : Z := 0x2D.
Definition VK_DELETE : Z := 0x2E.
Definition VK_LWIN : Z := 0x5B.
Definition VK_RWIN : Z := 0x5C.
Definition VK_NUMLOCK : Z := 0x90.
Definition VK_SCROLL : Z := 0x91.
Definition VK_LSHIFT : Z := 0xA0.
Definition VK_RSHIFT : Z := 0xA1.
Definition VK_LCONTROL : Z := 0xA2.
Definition VK_RCONTROL : Z := 0xA3.
Definition VK_LMENU : Z := 0xA4.
Definition VK_RMENU : Z := 0xA5.

(** Window messages delivered to the low-level hooks. *)
Definition WM_NCXBUTTONDOWN : Z := 0x00AB.
Definition WM_NCXBUTTONUP : Z := 0x00AC.
Definition WM_KEYDOWN : Z := 0x0100.
Definition WM_KEYUP : Z := 0x0101.
Definition WM_SYSKEYDOWN : Z := 0x0104.
Definition WM_SYSKEYUP : Z := 0x0105.
Definition WM_MOUSEMOVE : Z := 0x0200.
Definition WM_LBUTTONDOWN : Z := 0x0201.
Definition WM_LBUTTONUP : Z := 0x0202.
Definition WM_RBUTTONDOWN : Z := 0x0204.
Definition WM_RBUTTONUP : Z := 0x0205.
Definition WM_MBUTTONDOWN : Z := 0x0207.
Definition WM_MBUTTONUP : Z := 0x0208.
Definition WM_MOUSEWHEEL : Z := 0x020A.
Definition WM_XBUTTONDOWN : Z := 0x020B.
Definition WM_XBUTTONUP : Z := 0x020C.
Definition WM_MOUSEHWHEEL : Z := 0x020E.

Definition XBUTTON1 : Z := 0x0001.
Definition XBUTTON2 : Z := 0x0002.

Definition WHEEL_PAGESCROLL : Z := 0xFFFFFFFF.

(** [INPUT.type] and the flags of [MOUSEINPUT] and [KEYBDINPUT]. *)
Definition INPUT_MOUSE : Z := 0.
Definition INPUT_KEYBOARD : Z := 1.

Definition MOUSEEVENTF_MOVE : Z := 0x0001.
Definition MOUSEEVENTF_LEFTDOWN : Z := 0x0002.
Definition MOUSEEVENTF_LEFTUP : Z := 0x0004.
Definition MOUSEEVENTF_RIGHTDOWN : Z := 0x0008.
Definition MOUSEEVENTF_RIGHTUP : Z := 0x0010.
Definition MOUSEEVENTF_MIDDLEDOWN : Z := 0x0020.
Definition MOUSEEVENTF_MIDDLEUP : Z := 0x0040.
Definition MOUSEEVENTF_XDOWN : Z := 0x0080.
Definition MOUSEEVENTF_XUP : Z := 0x0100.
Definition MOUSEEVENTF_WHEEL : Z := 0x0800.
Definition MOUSEEVENTF_VIRTUALDESK : Z := 0x4000.
Definition MOUSEEVENTF_ABSOLUTE : Z := 0x8000.

Definition KEYEVENTF_KEYDOWN : Z := 0x0000.
Definition KEYEVENTF_EXTENDEDKEY : Z := 0x0001.
Definition KEYEVENTF_KEYUP : Z := 0x0002.

Record POINT := { pt_x : Z; pt_y : Z }.

Record MSLLHOOKSTRUCT := {
  ms_pt : POINT;
  ms_mouseData : Z;
  ms_flags : Z;
  ms_time : Z
}.

Record KBDLLHOOKSTRUCT := {
  kb_vkCode : Z;
  kb_scanCode : Z;
  kb_flags : Z;
  kb_time : Z
}.

(** [MulDiv(nNumber, nNumerator, nDenominator)]: the 64-bit product
    divided by the denominator and rounded to the nearest integer (halves
    away from zero); [-1] when the denominator is zero or the quotient does
    not fit an [int]. *)
Definition MulDiv (nNumber nNumerator nDenominator : Z) : Z :=
  if nDenominator =? 0 then -1
  else
    let p := nNumber * nNumerator in
    let q := (Z.abs p + Z.abs nDenominator / 2) / Z.abs nDenominator in
    if q >? CInt.INT_MAX then -1
    else if Z.sgn p * Z.sgn nDenominator <? 0 then - q else q.

End Win32.

(** ** The public header [uiohook.h] *)

Module Uiohook.

Definition UIOHOOK_SUCCESS : Z := 0x00.
Definition UIOHOOK_FAILURE : Z := 0x01.
Definition UIOHOOK_ERROR_OUT_OF_MEMORY : Z := 0x02.

Inductive log_level := LOG_LEVEL_DEBUG | LOG_LEVEL_INFO | LOG_LEVEL_WARN | LOG_LEVEL_ERROR.

Inductive event_type :=
| EVENT_HOOK_ENABLED
| EVENT_HOOK_DISABLED
| EVENT_KEY_TYPED
| EVENT_KEY_PRESSED
| EVENT_KEY_RELEASED
| EVENT_MOUSE_CLICKED
| EVENT_MOUSE_PRESSED
| EVENT_MOUSE_RELEASED
| EVENT_MOUSE_MOVED
| EVENT_MOUSE_DRAGGED
| EVENT_MOUSE_WHEEL.

Definition event_type_eqb (a b : event_type) : bool :=
  match a, b with
  | EVENT_HOOK_ENABLED, EVENT_HOOK_ENABLED
  | EVENT_HOOK_DISABLED, EVENT_HOOK_DISABLED
  | EVENT_KEY_TYPED, EVENT_KEY_TYPED
  | EVENT_KEY_PRESSED, EVENT_KEY_PRESSED
  | EVENT_KEY_RELEASED, EVENT_KEY_RELEASED
  | EVENT_MOUSE_CLICKED, EVENT_MOUSE_CLICKED
  | EVENT_MOUSE_PRESSED, EVENT_MOUSE_PRESSED
  | EVENT_MOUSE_RELEASED, EVENT_MOUSE_RELEASED
  | EVENT_MOUSE_MOVED, EVENT_MOUSE_MOVED
  | EVENT_MOUSE_DRAGGED, EVENT_MOUSE_DRAGGED
  | EVENT_MOUSE_WHEEL, EVENT_MOUSE_WHEEL => true
  | _, _ => false
  end.

(** Modelled from the spec: the modifier masks of [uiohook.h], which is not
    among the sources.  The mask is a [uint16_t] with one bit for each of
    the sixteen tracked keys, buttons and locks, at the positions the header
    gives them. *)
Definition MASK_SHIFT_L : Z := Z.shiftl 1 0.
Definition MASK_CTRL_L : Z := Z.shiftl 1 1.
Definition MASK_META_L : Z := Z.shiftl 1 2.
Definition MASK_ALT_L : Z := Z.shiftl 1 3.
Definition MASK_SHIFT_R : Z := Z.shiftl 1 4.
Definition MASK_CTRL_R : Z := Z.shiftl 1 5.
Definition MASK_META_R : Z := Z.shiftl 1 6.
Definition MASK_ALT_R : Z := Z.shiftl 1 7.
Definition MASK_SHIFT : Z := Z.lor MASK_SHIFT_L MASK_SHIFT_R.
Definition MASK_BUTTON1 : Z := Z.shiftl 1 8.
Definition MASK_BUTTON2 : Z := Z.shiftl 1 9.
Definition MASK_BUTTON3 : Z := Z.shiftl 1 10.
Definition MASK_BUTTON4 : Z := Z.shiftl 1 11.
Definition MASK_BUTTON5 : Z := Z.shiftl 1 12.
Definition MASK_NUM_LOCK : Z := Z.shiftl 1 13.
Definition MASK_CAPS_LOCK : Z := Z.shiftl 1 14.
Definition MASK_SCROLL_LOCK : Z := Z.shiftl 1 15.

(** Modelled from the spec: the button identifiers of [uiohook.h]
    ([button: uint16 (0 = none, 1..5)]). *)
Definition MOUSE_NOBUTTON : Z := 0.
Definition MOUSE_BUTTON1 : Z := 1.
Definition MOUSE_BUTTON2 : Z := 2.
Definition MOUSE_BUTTON3 : Z := 3.
Definition MOUSE_BUTTON4 : Z := 4.
Definition MOUSE_BUTTON5 : Z := 5.

Definition VC_UNDEFINED : Z := 0x0000.
Definition CHAR_UNDEFINED : Z := 0xFFFF.

Definition WHEEL_UNIT_SCROLL : Z := 1.
Definition WHEEL_BLOCK_SCROLL : Z := 2.
Definition WHEEL_VERTICAL_DIRECTION : Z := 3.
Definition WHEEL_HORIZONTAL_DIRECTION : Z := 4.

Record keyboard_event_data := {
  keycode : Z;
  rawcode : Z;
  keychar : Z
}.

Record mouse_event_data := {
  button : Z;
  clicks : Z;
  x : Z;
  y : Z
}.

Record mouse_wheel_event_data := {
  wheel_clicks : Z;
  wheel_x : Z;
  wheel_y : Z;
  wheel_type : Z;
  amount : Z;
  rotation : Z;
  direction : Z
}.

(** The payload is a C union: the variant last written. *)
Inductive event_data :=
| keyboard (k : keyboard_event_data)
| mouse (m : mouse_event_data)
| wheel (w : mouse_wheel_event_data).

Record uiohook_event := {
  type : event_type;
  time : Z;
  mask : Z;
  reserved : Z;
  data : event_data
}.

Definition set_type (t : event_type) (e : uiohook_event) : uiohook_event :=
  {| type := t; time := time e; mask := mask e; reserved := reserved e; data := data e |}.

(** The sink marks an event consumed by storing [0x01] in [reserved]; the
    hook tests [event.reserved ^ 0x01]. *)
Definition not_consumed (e : uiohook_event) : bool :=
  negb (Z.lxor (reserved e) 0x01 =? 0).

End Uiohook.

(** ** [src/windows/input_hook.c] *)

Module InputHook.
Import CInt Win32 Uiohook.

Section Hook.

(** Services of [input_helper.h] and of the operating system. *)
Variable hook_get_multi_click_time : Z.
Variable keycode_to_scancode : Z -> Z -> Z.
(** The characters [keycode_to_unicode] stores in [buffer]; their number
    is its result. *)
Variable keycode_to_unicode : Z -> list Z.
Variable GetKeyState : Z -> Z.
(** What [SystemParametersInfo(SPI_GETWHEELSCROLLLINES, ...)] stores. *)
Variable wheel_scroll_lines : Z.

(** The registered callback ([dispatch], [NULL] as [None]) works on the
    event it is handed and on the caller's [user_data]. *)
Variable user_data : Type.
Variable dispatch : option (uiohook_event -> user_data -> uiohook_event * user_data).

(** The file-scope variables, with the history of the calls to
    [dispatch_event] (the events it was handed, in order, whether or not a
    callback is set) and to [logger]. *)
Record hook_state := {
  current_modifiers : Z;
  click_count : Z;
  click_time : Z;
  click_button : Z;
  last_click : POINT;
  event : uiohook_event;
  dispatch_data : user_data;
  dispatched : list uiohook_event;
  logged : list (log_level * string)
}.

Definition with_current_modifiers (v : Z) (s : hook_state) : hook_state :=
  {| current_modifiers := v; click_count := click_count s;
     click_time := click_time s; click_button := click_button s;
     last_click := last_click s; event := event s;
     dispatch_data := dispatch_data s; dispatched := dispatched s;
     logged := logged s |}.

Definition with_click_count (v : Z) (s : hook_state) : hook_state :=
  {| current_modifiers := current_modifiers s; click_count := v;
     click_time := click_time s; click_button := click_button s;
     last_click := last_click s; event := event s;
     dispatch_data := dispatch_data s; dispatched := dispatched s;
     logged := logged s |}.

Definition with_click_time (v : Z) (s : hook_state) : hook_state :=
  {| current_modifiers := current_modifiers s; click_count := click_count s;
     click_time := v; click_button := click_button s;
     last_click := last_click s; event := event s;
     dispatch_data := dispatch_data s; dispatched := dispatched s;
     logged := logged s |}.

Definition with_click_button (v : Z) (s : hook_state) : hook_state :=
  {| current_modifiers := current_modifiers s; click_count := click_count s;
     click_time := click_time s; click_button := v;
     last_click := last_click s; event := event s;
     dispatch_data := dispatch_data s; dispatched := dispatched s;
     logged := logged s |}.

Definition with_last_click (v : POINT) (s : hook_state) : hook_state :=
  {| current_modifiers := current_modifiers s; click_count := click_count s;
     click_time := click_time s; click_button := click_button s;
     last_click := v; event := event s;
     dispatch_data := dispatch_data s; dispatched := dispatched s;
     logged := logged s |}.

Definition with_event (v : uiohook_event) (s : hook_state) : hook_state :=
  {| current_modifiers := current_modifiers s; click_count := click_count s;
     click_time := click_time s; click_button := click_button s;
     last_click := last_click s; event := v;
     dispatch_data := dispatch_data s; dispatched := dispatched s;
     logged := logged s |}.

Definition logger (l : log_level) (msg : string) (s : hook_state) : hook_state :=
  {| current_modifiers := current_modifiers s; click_count := click_count s;
     click_time := click_time s; click_button := click_button s;
     last_click := last_click s; event := event s;
     dispatch_data := dispatch_data s; dispatched := dispatched s;
     logged := logged s ++ [(l, msg)] |}.

(** [dispatch_event(&event)]: the callback, when one is set, runs on the
    static event and may write to it. *)
Definition dispatch_event (s : hook_state) : hook_state :=
  let handed := event s in
  let s :=
    match dispatch with
    | Some proc =>
        let s := logger LOG_LEVEL_DEBUG "Dispatching event type %u." s in
        let '(e, d) := proc (event s) (dispatch_data s) in
        {| current_modifiers := current_modifiers s; click_count := click_count s;
           click_time := click_time s; click_button := click_button s;
           last_click := last_click s; event := e;
           dispatch_data := d; dispatched := dispatched s;
           logged := logged s |}
    | None => logger LOG_LEVEL_WARN "No dispatch callback set!" s
    end in
  {| current_modifiers := current_modifiers s; click_count := click_count s;
     click_time := click_time s; click_button := click_button s;
     last_click := last_click s; event := event s;
     dispatch_data := dispatch_data s; dispatched := dispatched s ++ [handed];
     logged := logged s |}.

(** The time stamp is that of [GetMessageTime]. *)
Definition hook_start_proc (timestamp : Z) (s : hook_state) : hook_state :=
  let s := with_event
    {| time := timestamp; reserved := 0x00;
       type := EVENT_HOOK_ENABLED; mask := 0x00;
       data := data (event s) |} s in
  dispatch_event s.

Definition hook_stop_proc (timestamp : Z) (s : hook_state) : hook_state :=
  let s := with_event
    {| time := timestamp; reserved := 0x00;
       type := EVENT_HOOK_DISABLED; mask := 0x00;
       data := data (event s) |} s in
  dispatch_event s.

Definition set_modifier_mask (mask : Z) (s : hook_state) : hook_state :=
  with_current_modifiers (uint16_t (Z.lor (current_modifiers s) mask)) s.

Definition unset_modifier_mask (mask : Z) (s : hook_state) : hook_state :=
  with_current_modifiers (uint16_t (Z.land (current_modifiers s) (Z.lnot mask))) s.

Definition get_modifiers (s : hook_state) : Z := current_modifiers s.

(** The sixteen [GetKeyState] tests of [initialize_modifiers], in order. *)
Definition initial_keys : list (Z * Z) :=
  [ (VK_LSHIFT, MASK_SHIFT_L); (VK_RSHIFT, MASK_SHIFT_R);
    (VK_LCONTROL, MASK_CTRL_L); (VK_RCONTROL, MASK_CTRL_R);
    (VK_LMENU, MASK_ALT_L); (VK_RMENU, MASK_ALT_R);
    (VK_LWIN, MASK_META_L); (VK_RWIN, MASK_META_R);
    (VK_LBUTTON, MASK_BUTTON1); (VK_RBUTTON, MASK_BUTTON2);
    (VK_MBUTTON, MASK_BUTTON3); (VK_XBUTTON1, MASK_BUTTON4);
    (VK_XBUTTON2, MASK_BUTTON5);
    (VK_NUMLOCK, MASK_NUM_LOCK); (VK_CAPITAL, MASK_CAPS_LOCK);
    (VK_SCROLL, MASK_SCROLL_LOCK) ].

Definition initialize_modifiers (s : hook_state) : hook_state :=
  fold_left
    (fun s km => if GetKeyState (fst km) <? 0 then set_modifier_mask (snd km) s else s)
    initial_keys
    (with_current_modifiers 0x0000 s).

Definition get_scroll_wheel_type : Z :=
  if wheel_scroll_lines =? WHEEL_PAGESCROLL then WHEEL_BLOCK_SCROLL
  else WHEEL_UNIT_SCROLL.

Definition get_scroll_wheel_amount : Z :=
  if wheel_scroll_lines =? WHEEL_PAGESCROLL then 1
  else uint16_t wheel_scroll_lines.

(** The modifier keys of the keyboard, as the [if]/[else if] chains of
    [process_key_pressed] and [process_key_released] list them. *)
Definition key_modifiers : list (Z * Z) :=
  [ (VK_LSHIFT, MASK_SHIFT_L); (VK_RSHIFT, MASK_SHIFT_R);
    (VK_LCONTROL, MASK_CTRL_L); (VK_RCONTROL, MASK_CTRL_R);
    (VK_LMENU, MASK_ALT_L); (VK_RMENU, MASK_ALT_R);
    (VK_LWIN, MASK_META_L); (VK_RWIN, MASK_META_R);
    (VK_NUMLOCK, MASK_NUM_LOCK); (VK_CAPITAL, MASK_CAPS_LOCK);
    (VK_SCROLL, MASK_SCROLL_LOCK) ].

(** The first entry of the chain whose key is [vkCode]. *)
Fixpoint modifier_of (chain : list (Z * Z)) (vkCode : Z) : option Z :=
  match chain with
  | [] => None
  | (vk, m) :: rest => if vkCode =? vk then Some m else modifier_of rest vkCode
  end.

(** In the functions below [timestamp] is [kbhook->time] or
    [mshook->time], a [DWORD] widened to [uint64_t] (the build without
    [USE_EPOCH_TIME]). *)

Definition key_typed (kbhook : KBDLLHOOKSTRUCT) (timestamp : Z)
    (s : hook_state) (c : Z) : hook_state :=
  let s := with_event
    {| time := timestamp; reserved := 0x00;
       type := EVENT_KEY_TYPED; mask := get_modifiers s;
       data := keyboard {| keycode := VC_UNDEFINED;
                           rawcode := uint16_t (kb_vkCode kbhook);
                           keychar := c |} |} s in
  let s := logger LOG_LEVEL_DEBUG "Key %#X typed. (%lc)" s in
  dispatch_event s.

Definition process_key_pressed (kbhook : KBDLLHOOKSTRUCT) (s : hook_state) : hook_state :=
  let timestamp := kb_time kbhook in
  let s :=
    match modifier_of key_modifiers (kb_vkCode kbhook) with
    | Some m => set_modifier_mask m s
    | None => s
    end in
  let s := with_event
    {| time := timestamp; reserved := 0x00;
       type := EVENT_KEY_PRESSED; mask := get_modifiers s;
       data := keyboard {| keycode := keycode_to_scancode (kb_vkCode kbhook) (kb_flags kbhook);
                           rawcode := uint16_t (kb_vkCode kbhook);
                           keychar := CHAR_UNDEFINED |} |} s in
  let s := logger LOG_LEVEL_DEBUG "Key %#X pressed. (%#X)" s in
  let s := dispatch_event s in
  if not_consumed (event s) then
    fold_left (key_typed kbhook timestamp) (keycode_to_unicode (kb_vkCode kbhook)) s
  else s.

Definition process_key_released (kbhook : KBDLLHOOKSTRUCT) (s : hook_state) : hook_state :=
  let timestamp := kb_time kbhook in
  let s :=
    match modifier_of key_modifiers (kb_vkCode kbhook) with
    | Some m => unset_modifier_mask m s
    | None => s
    end in
  let s := with_event
    {| time := timestamp; reserved := 0x00;
       type := EVENT_KEY_RELEASED; mask := get_modifiers s;
       data := keyboard {| keycode := keycode_to_scancode (kb_vkCode kbhook) (kb_flags kbhook);
                           rawcode := uint16_t (kb_vkCode kbhook);
                           keychar := CHAR_UNDEFINED |} |} s in
  let s := logger LOG_LEVEL_DEBUG "Key %#X released. (%#X)" s in
  dispatch_event s.

(** Whether the procedure hands the notification to [CallNextHookEx]
    ([true]) or keeps [hook_result = -1] ([false]): the test on [nCode] and
    on the event left in the static buffer. *)
Definition hook_result (nCode : Z) (s : hook_state) : bool :=
  (nCode <? 0) || not_consumed (event s).

Definition keyboard_hook_event_proc (nCode wParam : Z) (kbhook : KBDLLHOOKSTRUCT)
    (s : hook_state) : hook_state * bool :=
  let s :=
    if (wParam =? WM_KEYDOWN) || (wParam =? WM_SYSKEYDOWN) then
      process_key_pressed kbhook s
    else if (wParam =? WM_KEYUP) || (wParam =? WM_SYSKEYUP) then
      process_key_released kbhook s
    else
      logger LOG_LEVEL_DEBUG "Unhandled Windows keyboard event: %#X." s in
  let propagate := hook_result nCode s in
  (if propagate then s
   else logger LOG_LEVEL_DEBUG "Consuming the current event. (%li)" s,
   propagate).

Definition process_button_pressed (mshook : MSLLHOOKSTRUCT) (button : Z)
    (s : hook_state) : hook_state :=
  let timestamp := ms_time mshook in
  let s :=
    if (button =? click_button s)
       && (elapsed timestamp (click_time s) <=? hook_get_multi_click_time)
    then
      if click_count s <? USHRT_MAX then
        with_click_count (click_count s + 1) s
      else
        logger LOG_LEVEL_WARN "Click count overflow detected!" s
    else
      with_click_button button (with_click_count 1 s) in
  let s := with_click_time timestamp s in
  let s := with_last_click {| pt_x := pt_x (ms_pt mshook); pt_y := pt_y (ms_pt mshook) |} s in
  let s := with_event
    {| time := timestamp; reserved := 0x00;
       type := EVENT_MOUSE_PRESSED; mask := get_modifiers s;
       data := mouse {| button := button; clicks := click_count s;
                        x := int16_t (pt_x (ms_pt mshook));
                        y := int16_t (pt_y (ms_pt mshook)) |} |} s in
  let s := logger LOG_LEVEL_DEBUG "Button %u  pressed %u time(s). (%u, %u)" s in
  dispatch_event s.

Definition process_button_released (mshook : MSLLHOOKSTRUCT) (button : Z)
    (s : hook_state) : hook_state :=
  let timestamp := ms_time mshook in
  let s := with_event
    {| time := timestamp; reserved := 0x00;
       type := EVENT_MOUSE_RELEASED; mask := get_modifiers s;
       data := mouse {| button := button; clicks := click_count s;
                        x := int16_t (pt_x (ms_pt mshook));
                        y := int16_t (pt_y (ms_pt mshook)) |} |} s in
  let s := logger LOG_LEVEL_DEBUG "Button %u released %u time(s). (%u, %u)" s in
  let s := dispatch_event s in
  let s :=
    if not_consumed (event s)
       && (pt_x (last_click s) =? pt_x (ms_pt mshook))
       && (pt_y (last_click s) =? pt_y (ms_pt mshook))
    then
      let s := with_event
        {| time := timestamp; reserved := 0x00;
           type := EVENT_MOUSE_CLICKED; mask := get_modifiers s;
           data := mouse {| button := button; clicks := click_count s;
                            x := int16_t (pt_x (ms_pt mshook));
                            y := int16_t (pt_y (ms_pt mshook)) |} |} s in
      let s := logger LOG_LEVEL_DEBUG "Button %u clicked %u time(s). (%u, %u)" s in
      dispatch_event s
    else s in
  if (button =? click_button s)
     && (elapsed timestamp (click_time s) >? hook_get_multi_click_time)
  then with_click_count 0 s
  else s.

Definition button_mask_range : Z :=
  Z.lor MASK_BUTTON1 (Z.lor MASK_BUTTON2 (Z.lor MASK_BUTTON3
    (Z.lor MASK_BUTTON4 MASK_BUTTON5))).

Definition process_mouse_moved (mshook : MSLLHOOKSTRUCT) (s : hook_state) : hook_state :=
  let timestamp := ms_time mshook in
  if negb (pt_x (last_click s) =? pt_x (ms_pt mshook))
     || negb (pt_y (last_click s) =? pt_y (ms_pt mshook))
  then
    let s :=
      if negb (click_count s =? 0)
         && (elapsed timestamp (click_time s) >? hook_get_multi_click_time)
      then with_click_count 0 s
      else s in
    let mask := get_modifiers s in
    let mouse_dragged := negb (Z.land mask button_mask_range =? 0) in
    let s := with_event
      {| time := timestamp; reserved := 0x00;
         mask := mask;
         type := if mouse_dragged then EVENT_MOUSE_DRAGGED else EVENT_MOUSE_MOVED;
         data := mouse {| button := MOUSE_NOBUTTON; clicks := click_count s;
                          x := int16_t (pt_x (ms_pt mshook));
                          y := int16_t (pt_y (ms_pt mshook)) |} |} s in
    let s := logger LOG_LEVEL_DEBUG "Mouse %s to %u, %u." s in
    dispatch_event s
  else s.

Definition process_mouse_wheel (mshook : MSLLHOOKSTRUCT) (direction : Z)
    (s : hook_state) : hook_state :=
  let timestamp := ms_time mshook in
  let s := with_click_count 1 s in
  let s := with_click_button MOUSE_NOBUTTON s in
  let rotation := int16_t (HIWORD (ms_mouseData mshook)) in
  let rotation :=
    if direction =? WHEEL_VERTICAL_DIRECTION then int16_t (rotation * -1)
    else rotation in
  let s := with_event
    {| time := timestamp; reserved := 0x00;
       type := EVENT_MOUSE_WHEEL; mask := get_modifiers s;
       data := wheel {| wheel_clicks := click_count s;
                        wheel_x := int16_t (pt_x (ms_pt mshook));
                        wheel_y := int16_t (pt_y (ms_pt mshook));
                        wheel_type := get_scroll_wheel_type;
                        amount := get_scroll_wheel_amount;
                        rotation := rotation;
                        direction := direction |} |} s in
  let s := logger LOG_LEVEL_DEBUG
    "Mouse wheel type %u, rotated %i units in the %u direction at %u, %u." s in
  dispatch_event s.

Definition mouse_hook_event_proc (nCode wParam : Z) (mshook : MSLLHOOKSTRUCT)
    (s : hook_state) : hook_state * bool :=
  let s :=
    if wParam =? WM_LBUTTONDOWN then
      process_button_pressed mshook MOUSE_BUTTON1 (set_modifier_mask MASK_BUTTON1 s)
    else if wParam =? WM_RBUTTONDOWN then
      process_button_pressed mshook MOUSE_BUTTON2 (set_modifier_mask MASK_BUTTON2 s)
    else if wParam =? WM_MBUTTONDOWN then
      process_button_pressed mshook MOUSE_BUTTON3 (set_modifier_mask MASK_BUTTON3 s)
    else if (wParam =? WM_XBUTTONDOWN) || (wParam =? WM_NCXBUTTONDOWN) then
      if HIWORD (ms_mouseData mshook) =? XBUTTON1 then
        process_button_pressed mshook MOUSE_BUTTON4 (set_modifier_mask MASK_BUTTON4 s)
      else if HIWORD (ms_mouseData mshook) =? XBUTTON2 then
        process_button_pressed mshook MOUSE_BUTTON5 (set_modifier_mask MASK_BUTTON5 s)
      else
        let button := uint16_t (HIWORD (ms_mouseData mshook)) in
        let s :=
          if button =? 4 then set_modifier_mask MOUSE_BUTTON4 s
          else if button =? 5 then set_modifier_mask MOUSE_BUTTON5 s
          else s in
        process_button_pressed mshook button s
    else if wParam =? WM_LBUTTONUP then
      process_button_released mshook MOUSE_BUTTON1 (unset_modifier_mask MASK_BUTTON1 s)
    else if wParam =? WM_RBUTTONUP then
      process_button_released mshook MOUSE_BUTTON2 (unset_modifier_mask MASK_BUTTON2 s)
    else if wParam =? WM_MBUTTONUP then
      process_button_released mshook MOUSE_BUTTON3 (unset_modifier_mask MASK_BUTTON3 s)
    else if (wParam =? WM_XBUTTONUP) || (wParam =? WM_NCXBUTTONUP) then
      if HIWORD (ms_mouseData mshook) =? XBUTTON1 then
        process_button_released mshook MOUSE_BUTTON4 (unset_modifier_mask MASK_BUTTON4 s)
      else if HIWORD (ms_mouseData mshook) =? XBUTTON2 then
        process_button_released mshook MOUSE_BUTTON5 (unset_modifier_mask MASK_BUTTON5 s)
      else
        let button := uint16_t (HIWORD (ms_mouseData mshook)) in
        let s :=
          if button =? 4 then unset_modifier_mask MOUSE_BUTTON4 s
          else if button =? 5 then unset_modifier_mask MOUSE_BUTTON5 s
          else s in
        process_button_released mshook MOUSE_BUTTON5 s
    else if wParam =? WM_MOUSEMOVE then
      process_mouse_moved mshook s
    else if wParam =? WM_MOUSEWHEEL then
      process_mouse_wheel mshook WHEEL_VERTICAL_DIRECTION s
    else if wParam =? WM_MOUSEHWHEEL then
      process_mouse_wheel mshook WHEEL_HORIZONTAL_DIRECTION s
    else
      logger LOG_LEVEL_DEBUG "Unhandled Windows mouse event: %#X." s in
  let propagate := hook_result nCode s in
  (if propagate then s
   else logger LOG_LEVEL_DEBUG "Consuming the current event. (%li)" s,
   propagate).

(** What the static buffer holds once the sink has seen event [e]. *)
Definition sink_response (e : uiohook_event) (d : user_data) : uiohook_event :=
  match dispatch with
  | Some proc => fst (proc e d)
  | None => e
  end.

(** The button event of type [t] that a notification populates: the
    modifier mask and the click count are the current ones. *)
Definition mouse_button_event (t : event_type) (mshook : MSLLHOOKSTRUCT) (button : Z)
    (s : hook_state) : uiohook_event :=
  {| type := t; time := ms_time mshook; mask := current_modifiers s; reserved := 0x00;
     data := mouse {| button := button; clicks := click_count s;
                      x := int16_t (pt_x (ms_pt mshook));
                      y := int16_t (pt_y (ms_pt mshook)) |} |}.

Definition same_position (p q : POINT) : bool :=
  (pt_x p =? pt_x q) && (pt_y p =? pt_y q).

(** One of the mask bits of the mouse buttons 1 to 5 (bits 8 to 12) is set. *)
Definition button_held (mask : Z) : Prop :=
  exists b, 8 <= b <= 12 /\ Z.testbit mask b = true.

(** The event a move notification populates, once its type is settled. *)
Definition mouse_motion_event (t : event_type) (mshook : MSLLHOOKSTRUCT) (count : Z)
    (s : hook_state) : uiohook_event :=
  {| type := t; time := ms_time mshook; mask := current_modifiers s; reserved := 0x00;
     data := mouse {| button := MOUSE_NOBUTTON; clicks := count;
                      x := int16_t (pt_x (ms_pt mshook));
                      y := int16_t (pt_y (ms_pt mshook)) |} |}.

(** The sixteen keys, buttons and locks that have a bit in the mask. *)
Inductive tracked_key :=
| SHIFT_L | SHIFT_R | CTRL_L | CTRL_R | ALT_L | ALT_R | META_L | META_R
| BUTTON1 | BUTTON2 | BUTTON3 | BUTTON4 | BUTTON5
| NUM_LOCK | CAPS_LOCK | SCROLL_LOCK.

Definition mask_bit (k : tracked_key) : Z :=
  match k with
  | SHIFT_L => 0 | CTRL_L => 1 | META_L => 2 | ALT_L => 3
  | SHIFT_R => 4 | CTRL_R => 5 | META_R => 6 | ALT_R => 7
  | BUTTON1 => 8 | BUTTON2 => 9 | BUTTON3 => 10 | BUTTON4 => 11 | BUTTON5 => 12
  | NUM_LOCK => 13 | CAPS_LOCK => 14 | SCROLL_LOCK => 15
  end.

Definition key_mask (k : tracked_key) : Z := Z.shiftl 1 (mask_bit k).

Definition virtual_key (k : tracked_key) : Z :=
  match k with
  | SHIFT_L => VK_LSHIFT | SHIFT_R => VK_RSHIFT
  | CTRL_L => VK_LCONTROL | CTRL_R => VK_RCONTROL
  | ALT_L => VK_LMENU | ALT_R => VK_RMENU
  | META_L => VK_LWIN | META_R => VK_RWIN
  | BUTTON1 => VK_LBUTTON | BUTTON2 => VK_RBUTTON | BUTTON3 => VK_MBUTTON
  | BUTTON4 => VK_XBUTTON1 | BUTTON5 => VK_XBUTTON2
  | NUM_LOCK => VK_NUMLOCK | CAPS_LOCK => VK_CAPITAL | SCROLL_LOCK => VK_SCROLL
  end.

Definition held (k : tracked_key) (s : hook_state) : bool :=
  Z.testbit (current_modifiers s) (mask_bit k).

(** A notification as the operating system delivers it to one of the two
    hook procedures. *)
Inductive notification :=
| keyboard_notification (nCode wParam : Z) (kbhook : KBDLLHOOKSTRUCT)
| mouse_notification (nCode wParam : Z) (mshook : MSLLHOOKSTRUCT).

Definition hook_event_proc (n : notification) (s : hook_state) : hook_state :=
  match n with
  | keyboard_notification nCode wParam kbhook =>
      fst (keyboard_hook_event_proc nCode wParam kbhook s)
  | mouse_notification nCode wParam mshook =>
      fst (mouse_hook_event_proc nCode wParam mshook s)
  end.

Definition process_all (ns : list notification) (s : hook_state) : hook_state :=
  fold_left (fun s n => hook_event_proc n s) ns s.

(** The tracked key a keyboard notification is about. *)
Definition keyboard_key (vkCode : Z) : option tracked_key :=
  find (fun k => vkCode =? virtual_key k)
    [ SHIFT_L; SHIFT_R; CTRL_L; CTRL_R; ALT_L; ALT_R; META_L; META_R;
      NUM_LOCK; CAPS_LOCK; SCROLL_LOCK ].

Definition is_x_button_message (wParam : Z) : bool :=
  (wParam =? WM_XBUTTONDOWN) || (wParam =? WM_NCXBUTTONDOWN)
  || (wParam =? WM_XBUTTONUP) || (wParam =? WM_NCXBUTTONUP).

(** The notifications that take one of the two extra-button branches. *)
Definition extra_button (n : notification) : bool :=
  match n with
  | keyboard_notification _ _ _ => false
  | mouse_notification _ wParam mshook =>
      is_x_button_message wParam
      && negb (HIWORD (ms_mouseData mshook) =? XBUTTON1)
      && negb (HIWORD (ms_mouseData mshook) =? XBUTTON2)
  end.

(** What a notification off the extra-button branches says about a tracked
    key: the key, and [true] for a press, [false] for a release. *)
Definition key_action (n : notification) : option (tracked_key * bool) :=
  match n with
  | keyboard_notification _ wParam kbhook =>
      if (wParam =? WM_KEYDOWN) || (wParam =? WM_SYSKEYDOWN) then
        option_map (fun k => (k, true)) (keyboard_key (kb_vkCode kbhook))
      else if (wParam =? WM_KEYUP) || (wParam =? WM_SYSKEYUP) then
        option_map (fun k => (k, false)) (keyboard_key (kb_vkCode kbhook))
      else None
  | mouse_notification _ wParam mshook =>
      let x_button :=
        if HIWORD (ms_mouseData mshook) =? XBUTTON1 then Some BUTTON4
        else if HIWORD (ms_mouseData mshook) =? XBUTTON2 then Some BUTTON5
        else None in
      if wParam =? WM_LBUTTONDOWN then Some (BUTTON1, true)
      else if wParam =? WM_RBUTTONDOWN then Some (BUTTON2, true)
      else if wParam =? WM_MBUTTONDOWN then Some (BUTTON3, true)
      else if (wParam =? WM_XBUTTONDOWN) || (wParam =? WM_NCXBUTTONDOWN) then
        option_map (fun k => (k, true)) x_button
      else if wParam =? WM_LBUTTONUP then Some (BUTTON1, false)
      else if wParam =? WM_RBUTTONUP then Some (BUTTON2, false)
      else if wParam =? WM_MBUTTONUP then Some (BUTTON3, false)
      else if (wParam =? WM_XBUTTONUP) || (wParam =? WM_NCXBUTTONUP) then
        option_map (fun k => (k, false)) x_button
      else None
  end.

(** Whether the last notification about [k] was a press; [before] when there
    was none. *)
Definition pressed_last (k : tracked_key) (ns : list notification) (before : bool) : bool :=
  fold_left
    (fun down n =>
       match key_action n with
       | Some (k', press) => if mask_bit k' =? mask_bit k then press else down
       | None => down
       end)
    ns before.

(** The keys [initialize_modifiers] asks about, in its order. *)
Definition initial_order : list tracked_key :=
  [ SHIFT_L; SHIFT_R; CTRL_L; CTRL_R; ALT_L; ALT_R; META_L; META_R;
    BUTTON1; BUTTON2; BUTTON3; BUTTON4; BUTTON5; NUM_LOCK; CAPS_LOCK; SCROLL_LOCK ].

(** The events a key notification populates. *)
Definition key_event (t : event_type) (kbhook : KBDLLHOOKSTRUCT) (modifiers : Z)
    : uiohook_event :=
  {| type := t; time := kb_time kbhook; mask := modifiers; reserved := 0x00;
     data := keyboard {| keycode := keycode_to_scancode (kb_vkCode kbhook) (kb_flags kbhook);
                         rawcode := uint16_t (kb_vkCode kbhook);
                         keychar := CHAR_UNDEFINED |} |}.

Definition key_typed_event (kbhook : KBDLLHOOKSTRUCT) (modifiers c : Z) : uiohook_event :=
  {| type := EVENT_KEY_TYPED; time := kb_time kbhook; mask := modifiers; reserved := 0x00;
     data := keyboard {| keycode := VC_UNDEFINED;
                         rawcode := uint16_t (kb_vkCode kbhook);
                         keychar := c |} |}.

(** The mask after the press of [vkCode]. *)
Definition pressed_modifiers (vkCode : Z) (s : hook_state) : Z :=
  match modifier_of key_modifiers vkCode with
  | Some m => uint16_t (Z.lor (current_modifiers s) m)
  | None => current_modifiers s
  end.

(** The mask after the release of [vkCode]. *)
Definition released_modifiers (vkCode : Z) (s : hook_state) : Z :=
  match modifier_of key_modifiers vkCode with
  | Some m => uint16_t (Z.land (current_modifiers s) (Z.lnot m))
  | None => current_modifiers s
  end.

Definition is_press_message (wParam : Z) : bool :=
  (wParam =? WM_LBUTTONDOWN) || (wParam =? WM_RBUTTONDOWN) || (wParam =? WM_MBUTTONDOWN)
  || (wParam =? WM_XBUTTONDOWN) || (wParam =? WM_NCXBUTTONDOWN).

Definition is_release_message (wParam : Z) : bool :=
  (wParam =? WM_LBUTTONUP) || (wParam =? WM_RBUTTONUP) || (wParam =? WM_MBUTTONUP)
  || (wParam =? WM_XBUTTONUP) || (wParam =? WM_NCXBUTTONUP).

Definition is_wheel_message (wParam : Z) : bool :=
  (wParam =? WM_MOUSEWHEEL) || (wParam =? WM_MOUSEHWHEEL).

Definition is_key_message (wParam : Z) : bool :=
  (wParam =? WM_KEYDOWN) || (wParam =? WM_SYSKEYDOWN)
  || (wParam =? WM_KEYUP) || (wParam =? WM_SYSKEYUP).

(** A notification that may come between two presses of one streak whose
    last press has the time stamp [since]: anything from the keyboard; from
    the mouse anything but a press or a wheel turn, as long as the time the
    code computes from [since] is within the multi-click interval. *)
Definition within_streak (since : Z) (n : notification) : bool :=
  match n with
  | keyboard_notification _ _ _ => true
  | mouse_notification _ wParam mshook =>
      negb (is_press_message wParam) && negb (is_wheel_message wParam)
      && (elapsed (ms_time mshook) since <=? hook_get_multi_click_time)
  end.

(** The unsigned short trackers hold values of their type. *)
Definition tracker_ranges (s : hook_state) : Prop :=
  0 <= click_count s <= USHRT_MAX /\ 0 <= current_modifiers s <= USHRT_MAX.

(** The notifications for which the hook procedures populate no event: a
    message outside their [switch], and a move reported at the position of
    the last click. *)
Definition silent (n : notification) (s : hook_state) : bool :=
  match n with
  | keyboard_notification _ wParam _ => negb (is_key_message wParam)
  | mouse_notification _ wParam mshook =>
      if wParam =? WM_MOUSEMOVE then same_position (last_click s) (ms_pt mshook)
      else negb (is_press_message wParam || is_release_message wParam
                 || is_wheel_message wParam)
  end.

Definition nCode_of (n : notification) : Z :=
  match n with
  | keyboard_notification nCode _ _ => nCode
  | mouse_notification nCode _ _ => nCode
  end.

(** Whether the hook procedure hands the notification on to the next hook. *)
Definition propagated (n : notification) (s : hook_state) : bool :=
  match n with
  | keyboard_notification nCode wParam kbhook =>
      snd (keyboard_hook_event_proc nCode wParam kbhook s)
  | mouse_notification nCode wParam mshook =>
      snd (mouse_hook_event_proc nCode wParam mshook s)
  end.

(** The verdicts on a sequence of notifications, each on the state its
    predecessors leave. *)
Fixpoint propagations (ns : list notification) (s : hook_state) : list bool :=
  match ns with
  | [] => []
  | n :: ns => propagated n s :: propagations ns (hook_event_proc n s)
  end.

(** The click tracker: count, time stamp, button and position. *)
Definition tracked_click (s : hook_state) : Z * Z * Z * POINT :=
  (click_count s, click_time s, click_button s, last_click s).

(** The events of the keyboard and of the mouse, as opposed to the two
    events of the hook's life cycle. *)
Definition input_event (e : uiohook_event) : bool :=
  negb (event_type_eqb (type e) EVENT_HOOK_ENABLED
        || event_type_eqb (type e) EVENT_HOOK_DISABLED).

End Hook.

Arguments current_modifiers {user_data} _.
Arguments click_count {user_data} _.
Arguments click_time {user_data} _.
Arguments click_button {user_data} _.
Arguments last_click {user_data} _.
Arguments event {user_data} _.
Arguments dispatch_data {user_data} _.
Arguments dispatched {user_data} _.
Arguments logged {user_data} _.
Arguments set_modifier_mask {user_data} _ _.
Arguments unset_modifier_mask {user_data} _ _.
Arguments initialize_modifiers _ {user_data} _.
Arguments process_key_pressed _ _ {user_data} _ _ _.
Arguments process_key_released _ {user_data} _ _ _.
Arguments keyboard_hook_event_proc _ _ {user_data} _ _ _ _ _.
Arguments process_button_pressed _ {user_data} _ _ _ _.
Arguments process_button_released _ {user_data} _ _ _ _.
Arguments process_mouse_moved _ {user_data} _ _ _.
Arguments process_mouse_wheel _ {user_data} _ _ _ _.
Arguments mouse_hook_event_proc _ _ {user_data} _ _ _ _ _.
Arguments mouse_button_event {user_data} _ _ _ _.
Arguments sink_response {user_data} _ _ _.
Arguments process_all _ _ _ _ {user_data} _ _ _.
Arguments held {user_data} _ _.

(** The file-scope variables when the first notification arrives: no key or
    button down, no click tracked, and the hook-enabled event of
    [hook_start_proc] in the static buffer.  The history starts empty here. *)
Definition hook_loaded : hook_state unit :=
  {| current_modifiers := 0x0000;
     click_count := 0;
     click_time := 0;
     click_button := MOUSE_NOBUTTON;
     last_click := {| pt_x := 0; pt_y := 0 |};
     event := {| type := EVENT_HOOK_ENABLED; time := 0; mask := 0; reserved := 0;
                 data := mouse {| button := 0; clicks := 0; x := 0; y := 0 |} |};
     dispatch_data := tt;
     dispatched := [];
     logged := [] |}.

(** A sink that lets every event pass, and one that consumes every event. *)
Definition passing_sink : option (uiohook_event -> unit -> uiohook_event * unit) :=
  Some (fun e d => (e, d)).

Definition consuming_sink : option (uiohook_event -> unit -> uiohook_event * unit) :=
  Some (fun e d =>
          ({| type := type e; time := time e; mask := mask e; reserved := 0x01;
              data := data e |}, d)).

Definition mouse_at (px py t : Z) : MSLLHOOKSTRUCT :=
  {| ms_pt := {| pt_x := px; pt_y := py |}; ms_mouseData := 0; ms_flags := 0;
     ms_time := t |}.

Definition x_button_at (px py t hiword : Z) : MSLLHOOKSTRUCT :=
  {| ms_pt := {| pt_x := px; pt_y := py |}; ms_mouseData := Z.shiftl hiword 16;
     ms_flags := 0; ms_time := t |}.

(** A streak of three clicks of button 1 at (10, 10), the last at time 100. *)
Definition streak_of_three : hook_state unit :=
  {| current_modifiers := 0x0000;
     click_count := 3;
     click_time := 100;
     click_button := MOUSE_BUTTON1;
     last_click := {| pt_x := 10; pt_y := 10 |};
     event := event hook_loaded;
     dispatch_data := tt;
     dispatched := [];
     logged := [] |}.

(** The seventh scenario of the specification: interval 400; button 1 pressed
    at 0, released at 10, pressed at 200, released at 210 and pressed at 700,
    always at the same position. *)
Definition five_notifications : list notification :=
  [ mouse_notification 0 WM_LBUTTONDOWN (mouse_at 10 10 0);
    mouse_notification 0 WM_LBUTTONUP (mouse_at 10 10 10);
    mouse_notification 0 WM_LBUTTONDOWN (mouse_at 10 10 200);
    mouse_notification 0 WM_LBUTTONUP (mouse_at 10 10 210);
    mouse_notification 0 WM_LBUTTONDOWN (mouse_at 10 10 700) ].

Definition type_and_clicks (e : uiohook_event) : event_type * Z :=
  (type e, match data e with mouse m => clicks m | _ => -1 end).

(** Three notifications: the left shift key goes down, button 1 goes down,
    the left shift key goes up. *)
Definition shift_click : list notification :=
  [ keyboard_notification 0 WM_KEYDOWN
      {| kb_vkCode := VK_LSHIFT; kb_scanCode := 0x2A; kb_flags := 0; kb_time := 0 |};
    mouse_notification 0 WM_LBUTTONDOWN (mouse_at 10 10 5);
    keyboard_notification 0 WM_KEYUP
      {| kb_vkCode := VK_LSHIFT; kb_scanCode := 0x2A; kb_flags := 0; kb_time := 9 |} ].

End InputHook.

(** ** [src/windows/input_hook.c]: the hook thread *)

Module HookThread.
Import CInt Win32 Uiohook InputHook.

Definition WH_KEYBOARD_LL : Z := 13.
Definition WH_MOUSE_LL : Z := 14.
Definition EVENT_OBJECT_NAMECHANGE : Z := 0x800C.
Definition WM_DESTROY : Z := 0x0002.
Definition WM_CLOSE : Z := 0x0010.
Definition WM_QUIT : Z := 0x0012.
Definition WM_DISPLAYCHANGE : Z := 0x007E.
Definition SW_HIDE : Z := 0.

(** The status codes of [uiohook.h] for the Windows hook.  The header is not
    among the sources; of the values the properties below use only that the
    codes differ from one another and from those above. *)
Definition UIOHOOK_ERROR_SET_WINDOWS_HOOK_EX : Z := 0x30.
Definition UIOHOOK_ERROR_GET_MODULE_HANDLE : Z := 0x31.
Definition UIOHOOK_ERROR_CREATE_INVISIBLE_WINDOW : Z := 0x32.

Record FILETIME := { dwLowDateTime : Z; dwHighDateTime : Z }.

(** [get_unix_timestamp] (the build with [USE_EPOCH_TIME]), on what
    [GetSystemTimeAsFileTime] stores in [system_time]: the two halves are
    joined in a [uint64_t], divided by 10000, and the milliseconds between
    1601 and 1970 are subtracted in [uint64_t]. *)
Definition get_unix_timestamp (system_time : FILETIME) : Z :=
  let timestamp :=
    uint64_t (Z.lor (uint64_t (Z.shiftl (uint64_t (dwHighDateTime system_time)) 32))
                (uint64_t (dwLowDateTime system_time)))
    / 10000 in
  uint64_t (timestamp - 11644473600000).

(** The calls by which the functions of the hook thread act on the operating
    system and on the helpers, each with what it was given and, where the
    code keeps it, what it gave back. *)
Inductive os_call :=
| load_input_helper
| unload_input_helper
| enumerate_displays
| RegisterClassEx (result : Z)
| CreateWindowEx (result : Z)
| ShowWindow (hwnd nCmdShow : Z)
| DestroyWindow (hwnd : Z)
| PostQuitMessage (nExitCode : Z)
| DefWindowProc (hwnd message wParam lParam result : Z)
| SetWindowsHookEx (idHook result : Z)
| UnhookWindowsHookEx (hhk : Z)
| SetWinEventHook (result : Z)
| UnhookWinEvent (hWinEventHook : Z)
| PostMessage (hwnd message result : Z)
| PostThreadMessage (idThread message result : Z).

(** What the operating system answers while [hook_run] sets the hook up and
    takes it down; an answer is looked at only when its call is made. *)
Record run_answers := {
  GetCurrentThreadId_result : Z;
  GetModuleHandle_result : Z;
  RegisterClassEx_result : Z;
  CreateWindowEx_result : Z;
  keyboard_hook_result : Z;
  mouse_hook_result : Z;
  SetWinEventHook_result : Z;
  GetKeyState_at_start : Z -> Z;
  start_time : Z;
  stop_time : Z
}.

(** What it answers during one call of [win_hook_event_proc]. *)
Record restart_answers := {
  keyboard_hook_again : Z;
  mouse_hook_again : Z;
  GetKeyState_again : Z -> Z
}.

(** What the thread is called back with while it waits in its message loop:
    a notification for one of the two low-level hooks, a window event for
    [win_hook_event_proc], a message for the window procedure [WndProc] (with
    the result of [DefWindowProc], should it be asked). *)
Inductive delivery :=
| to_hook (n : notification)
| to_win_hook (event : Z) (a : restart_answers)
| to_window (hwnd message wParam lParam DefWindowProc_result : Z).

Section Thread.

Variable hook_get_multi_click_time : Z.
Variable keycode_to_scancode : Z -> Z -> Z.
Variable keycode_to_unicode : Z -> list Z.
Variable wheel_scroll_lines : Z.
Variable user_data : Type.

Definition dispatcher_t : Type :=
  option (uiohook_event -> user_data -> uiohook_event * user_data).

(** The file-scope variables of the hook thread, a [NULL] handle as 0:
    [statics] holds the variables of the hook procedures, [os_calls] the calls
    made so far. *)
Record hook_globals := {
  hook_thread_id : Z;
  keyboard_event_hhook : Z;
  mouse_event_hhook : Z;
  win_event_hhook : Z;
  invisible_win_hwnd : Z;
  hInst : Z;
  dispatch : dispatcher_t;
  statics : hook_state user_data;
  os_calls : list os_call
}.

Definition with_hook_thread_id (v : Z) (g : hook_globals) : hook_globals :=
  {| hook_thread_id := v; keyboard_event_hhook := keyboard_event_hhook g;
     mouse_event_hhook := mouse_event_hhook g; win_event_hhook := win_event_hhook g;
     invisible_win_hwnd := invisible_win_hwnd g; hInst := hInst g;
     dispatch := dispatch g; statics := statics g; os_calls := os_calls g |}.

Definition with_keyboard_event_hhook (v : Z) (g : hook_globals) : hook_globals :=
  {| hook_thread_id := hook_thread_id g; keyboard_event_hhook := v;
     mouse_event_hhook := mouse_event_hhook g; win_event_hhook := win_event_hhook g;
     invisible_win_hwnd := invisible_win_hwnd g; hInst := hInst g;
     dispatch := dispatch g; statics := statics g; os_calls := os_calls g |}.

Definition with_mouse_event_hhook (v : Z) (g : hook_globals) : hook_globals :=
  {| hook_thread_id := hook_thread_id g; keyboard_event_hhook := keyboard_event_hhook g;
     mouse_event_hhook := v; win_event_hhook := win_event_hhook g;
     invisible_win_hwnd := invisible_win_hwnd g; hInst := hInst g;
     dispatch := dispatch g; statics := statics g; os_calls := os_calls g |}.

Definition with_win_event_hhook (v : Z) (g : hook_globals) : hook_globals :=
  {| hook_thread_id := hook_thread_id g; keyboard_event_hhook := keyboard_event_hhook g;
     mouse_event_hhook := mouse_event_hhook g; win_event_hhook := v;
     invisible_win_hwnd := invisible_win_hwnd g; hInst := hInst g;
     dispatch := dispatch g; statics := statics g; os_calls := os_calls g |}.

Definition with_invisible_win_hwnd (v : Z) (g : hook_globals) : hook_globals :=
  {| hook_thread_id := hook_thread_id g; keyboard_event_hhook := keyboard_event_hhook g;
     mouse_event_hhook := mouse_event_hhook g; win_event_hhook := win_event_hhook g;
     invisible_win_hwnd := v; hInst := hInst g;
     dispatch := dispatch g; statics := statics g; os_calls := os_calls g |}.

Definition with_hInst (v : Z) (g : hook_globals) : hook_globals :=
  {| hook_thread_id := hook_thread_id g; keyboard_event_hhook := keyboard_event_hhook g;
     mouse_event_hhook := mouse_event_hhook g; win_event_hhook := win_event_hhook g;
     invisible_win_hwnd := invisible_win_hwnd g; hInst := v;
     dispatch := dispatch g; statics := statics g; os_calls := os_calls g |}.

Definition with_dispatch (v : dispatcher_t) (g : hook_globals) : hook_globals :=
  {| hook_thread_id := hook_thread_id g; keyboard_event_hhook := keyboard_event_hhook g;
     mouse_event_hhook := mouse_event_hhook g; win_event_hhook := win_event_hhook g;
     invisible_win_hwnd := invisible_win_hwnd g; hInst := hInst g;
     dispatch := v; statics := statics g; os_calls := os_calls g |}.

Definition with_statics (v : hook_state user_data) (g : hook_globals) : hook_globals :=
  {| hook_thread_id := hook_thread_id g; keyboard_event_hhook := keyboard_event_hhook g;
     mouse_event_hhook := mouse_event_hhook g; win_event_hhook := win_event_hhook g;
     invisible_win_hwnd := invisible_win_hwnd g; hInst := hInst g;
     dispatch := dispatch g; statics := v; os_calls := os_calls g |}.

Definition call (c : os_call) (g : hook_globals) : hook_globals :=
  {| hook_thread_id := hook_thread_id g; keyboard_event_hhook := keyboard_event_hhook g;
     mouse_event_hhook := mouse_event_hhook g; win_event_hhook := win_event_hhook g;
     invisible_win_hwnd := invisible_win_hwnd g; hInst := hInst g;
     dispatch := dispatch g; statics := statics g; os_calls := os_calls g ++ [c] |}.

Definition logger (l : log_level) (msg : string) (g : hook_globals) : hook_globals :=
  with_statics (InputHook.logger user_data l msg (statics g)) g.

Definition with_dispatch_data (v : user_data) (s : hook_state user_data)
    : hook_state user_data :=
  {| current_modifiers := current_modifiers s; click_count := click_count s;
     click_time := click_time s; click_button := click_button s;
     last_click := last_click s; event := event s;
     dispatch_data := v; dispatched := dispatched s;
     logged := logged s |}.

Definition hook_set_dispatch_proc (dispatch_proc : dispatcher_t) (data : user_data)
    (g : hook_globals) : hook_globals :=
  let g := logger LOG_LEVEL_DEBUG "Setting new dispatch callback to %#p." g in
  let g := with_dispatch dispatch_proc g in
  with_statics (with_dispatch_data data (statics g)) g.

Definition unregister_running_hooks (g : hook_globals) : hook_globals :=
  let g :=
    if negb (win_event_hhook g =? 0) then
      with_win_event_hhook 0 (call (UnhookWinEvent (win_event_hhook g)) g)
    else g in
  let g :=
    if negb (keyboard_event_hhook g =? 0) then
      with_keyboard_event_hhook 0 (call (UnhookWindowsHookEx (keyboard_event_hhook g)) g)
    else g in
  if negb (mouse_event_hhook g =? 0) then
    with_mouse_event_hhook 0 (call (UnhookWindowsHookEx (mouse_event_hhook g)) g)
  else g.

(** [hook_start_proc] and [hook_stop_proc] with their calls to
    [input_helper.h]; [timestamp] is what [GetMessageTime] returns. *)
Definition hook_start_proc (timestamp : Z) (g : hook_globals) : hook_globals :=
  let g := call load_input_helper g in
  with_statics (InputHook.hook_start_proc user_data (dispatch g) timestamp (statics g)) g.

Definition hook_stop_proc (timestamp : Z) (g : hook_globals) : hook_globals :=
  let g :=
    with_statics (InputHook.hook_stop_proc user_data (dispatch g) timestamp (statics g)) g in
  call unload_input_helper g.

(** [win_hook_event_proc]; of its seven parameters the body reads [event]
    only. *)
Definition win_hook_event_proc (event : Z) (a : restart_answers) (g : hook_globals)
    : hook_globals :=
  if event =? EVENT_OBJECT_NAMECHANGE then
    let g := logger LOG_LEVEL_DEBUG
               "Restarting Windows input hook on window event: %#X." g in
    let g :=
      if negb (keyboard_event_hhook g =? 0) then
        call (UnhookWindowsHookEx (keyboard_event_hhook g)) g
      else g in
    let g :=
      if negb (mouse_event_hhook g =? 0) then
        call (UnhookWindowsHookEx (mouse_event_hhook g)) g
      else g in
    let g := with_keyboard_event_hhook (keyboard_hook_again a)
               (call (SetWindowsHookEx WH_KEYBOARD_LL (keyboard_hook_again a)) g) in
    let g := with_mouse_event_hhook (mouse_hook_again a)
               (call (SetWindowsHookEx WH_MOUSE_LL (mouse_hook_again a)) g) in
    let g := with_statics
               (initialize_modifiers (GetKeyState_again a) (statics g)) g in
    if (keyboard_event_hhook g =? 0) || (mouse_event_hhook g =? 0) then
      logger LOG_LEVEL_ERROR "SetWindowsHookEx() failed! (%#lX)" g
    else g
  else
    logger LOG_LEVEL_DEBUG "Unhandled Windows window event: %#X." g.

Definition WndProc (hwnd message wParam lParam DefWindowProc_result : Z)
    (g : hook_globals) : Z * hook_globals :=
  if message =? WM_CLOSE then (0, call (DestroyWindow hwnd) g)
  else if message =? WM_DESTROY then (0, call (PostQuitMessage 0) g)
  else if message =? WM_DISPLAYCHANGE then (0, call enumerate_displays g)
  else (DefWindowProc_result,
        call (DefWindowProc hwnd message wParam lParam DefWindowProc_result) g).

Definition create_invisible_window (a : run_answers) (g : hook_globals)
    : Z * hook_globals :=
  let g := call (RegisterClassEx (RegisterClassEx_result a)) g in
  if RegisterClassEx_result a =? 0 then (0, g)
  else
    let g := with_invisible_win_hwnd (CreateWindowEx_result a)
               (call (CreateWindowEx (CreateWindowEx_result a)) g) in
    if invisible_win_hwnd g =? 0 then (0, g)
    else (1, call (ShowWindow (invisible_win_hwnd g) SW_HIDE) g).

(** One callback made while the thread waits in [GetMessage] or runs
    [DispatchMessage]. *)
Definition deliver (g : hook_globals) (d : delivery) : hook_globals :=
  match d with
  | to_hook n =>
      with_statics
        (hook_event_proc hook_get_multi_click_time keycode_to_scancode keycode_to_unicode
           wheel_scroll_lines user_data (dispatch g) n (statics g)) g
  | to_win_hook event a => win_hook_event_proc event a g
  | to_window hwnd message wParam lParam result =>
      snd (WndProc hwnd message wParam lParam result g)
  end.

(** The message loop of [hook_run], over the callbacks made until
    [GetMessage] returns 0 or -1. *)
Definition message_loop (ds : list delivery) (g : hook_globals) : hook_globals :=
  fold_left deliver ds g.

Definition hook_run (a : run_answers) (ds : list delivery) (g : hook_globals)
    : Z * hook_globals :=
  let status := UIOHOOK_FAILURE in
  let g := with_hook_thread_id (GetCurrentThreadId_result a) g in
  let '(status, g) :=
    if hInst g =? 0 then
      let g := logger LOG_LEVEL_WARN "hInst was not set by DllMain()." g in
      let g := with_hInst (GetModuleHandle_result a) g in
      if negb (hInst g =? 0) then (status, call load_input_helper g)
      else
        (UIOHOOK_ERROR_GET_MODULE_HANDLE,
         logger LOG_LEVEL_ERROR
           "Could not determine hInst for SetWindowsHookEx()! (%#lX)" g)
    else (status, g) in
  let '(created, g) := create_invisible_window a g in
  let '(status, g) :=
    if (created =? 0) || (invisible_win_hwnd g =? 0) then
      (UIOHOOK_ERROR_CREATE_INVISIBLE_WINDOW,
       logger LOG_LEVEL_ERROR "Create invisible window failed! (%#lX)" g)
    else (status, g) in
  let g := with_keyboard_event_hhook (keyboard_hook_result a)
             (call (SetWindowsHookEx WH_KEYBOARD_LL (keyboard_hook_result a)) g) in
  let g := with_mouse_event_hhook (mouse_hook_result a)
             (call (SetWindowsHookEx WH_MOUSE_LL (mouse_hook_result a)) g) in
  let g := with_win_event_hhook (SetWinEventHook_result a)
             (call (SetWinEventHook (SetWinEventHook_result a)) g) in
  let '(status, g) :=
    if negb (keyboard_event_hhook g =? 0) && negb (mouse_event_hhook g =? 0) then
      let g :=
        if win_event_hhook g =? 0 then
          logger LOG_LEVEL_WARN "SetWinEventHook() failed!" g
        else g in
      let g := logger LOG_LEVEL_DEBUG "SetWindowsHookEx() successful." g in
      let g := with_statics
                 (initialize_modifiers (GetKeyState_at_start a) (statics g)) g in
      let status := UIOHOOK_SUCCESS in
      let g := hook_start_proc (start_time a) g in
      let g := message_loop ds g in
      (status, g)
    else
      (UIOHOOK_ERROR_SET_WINDOWS_HOOK_EX,
       logger LOG_LEVEL_ERROR "SetWindowsHookEx() failed! (%#lX)" g) in
  let g := unregister_running_hooks g in
  let g := hook_stop_proc (stop_time a) g in
  (status, g).

(** [hook_stop], on the results of [PostMessage] and of
    [PostThreadMessage]. *)
Definition hook_stop (PostMessage_result PostThreadMessage_result : Z)
    (g : hook_globals) : Z * hook_globals :=
  let status := UIOHOOK_FAILURE in
  let g := call (PostMessage (invisible_win_hwnd g) WM_CLOSE PostMessage_result) g in
  let '(status, g) :=
    if negb (PostMessage_result =? 0) then
      let g := call (PostThreadMessage (hook_thread_id g) WM_QUIT
                       PostThreadMessage_result) g in
      if negb (PostThreadMessage_result =? 0) then (UIOHOOK_SUCCESS, g)
      else (status, g)
    else (status, g) in
  (status, logger LOG_LEVEL_DEBUG "Status: %#X." g).

(** Whether [hook_run] gets both low-level hooks. *)
Definition hooks_installed (a : run_answers) : bool :=
  negb (keyboard_hook_result a =? 0) && negb (mouse_hook_result a =? 0).

(** The two kinds of hook handles, and what a call does to the number of
    installed hooks of kind [k] with handle [h]: [1] for an installation that
    returned [h], [-1] for its removal. *)
Inductive hook_kind := windows_hook | win_event_hook.

Definition hook_effect (k : hook_kind) (h : Z) (c : os_call) : Z :=
  match k, c with
  | windows_hook, SetWindowsHookEx _ result =>
      if (result =? h) && negb (result =? 0) then 1 else 0
  | windows_hook, UnhookWindowsHookEx hhk => if hhk =? h then -1 else 0
  | win_event_hook, SetWinEventHook result =>
      if (result =? h) && negb (result =? 0) then 1 else 0
  | win_event_hook, UnhookWinEvent hWinEventHook =>
      if hWinEventHook =? h then -1 else 0
  | _, _ => 0
  end.

(** The number of installed hooks [(k, h)] after [calls], from [n]; [None]
    when a removal finds none installed. *)
Fixpoint hook_balance (k : hook_kind) (h : Z) (calls : list os_call) (n : Z) : option Z :=
  match calls with
  | [] => Some n
  | c :: rest =>
      let n := n + hook_effect k h c in
      if n <? 0 then None else hook_balance k h rest n
  end.

(** How many of the handle variables hold the hook [(k, h)]. *)
Definition holding (k : hook_kind) (h : Z) (g : hook_globals) : Z :=
  if h =? 0 then 0
  else
    match k with
    | windows_hook =>
        (if keyboard_event_hhook g =? h then 1 else 0)
        + (if mouse_event_hhook g =? h then 1 else 0)
    | win_event_hook => if win_event_hhook g =? h then 1 else 0
    end.

(** From [g] to [g'] calls were added, and they install and remove hooks in
    step with the handle variables: counted from what [g] holds, no removal
    finds its hook missing, and the count ends at what [g'] holds. *)
Definition accounted (g g' : hook_globals) : Prop :=
  exists calls,
    os_calls g' = os_calls g ++ calls
    /\ forall k h, hook_balance k h calls (holding k h g) = Some (holding k h g').

(** The click tracker of the hook procedures. *)
Definition click_tracking (g : hook_globals) : Z * Z * Z * POINT :=
  (click_count (statics g), click_time (statics g), click_button (statics g),
   last_click (statics g)).

(** The two events of the life cycle: the type, the time of the message, an
    empty mask and no consumption mark. *)
Definition lifecycle_event (t : event_type) (timestamp : Z) (e : uiohook_event) : Prop :=
  type e = t /\ time e = timestamp /\ mask e = 0 /\ reserved e = 0.

End Thread.

Arguments hook_thread_id {user_data} _.
Arguments keyboard_event_hhook {user_data} _.
Arguments mouse_event_hhook {user_data} _.
Arguments win_event_hhook {user_data} _.
Arguments invisible_win_hwnd {user_data} _.
Arguments hInst {user_data} _.
Arguments dispatch {user_data} _.
Arguments statics {user_data} _.
Arguments os_calls {user_data} _.
Arguments hook_run _ _ _ _ {user_data} _ _ _.
Arguments message_loop _ _ _ _ {user_data} _ _.
Arguments hook_stop {user_data} _ _ _.
Arguments hook_set_dispatch_proc {user_data} _ _ _.
Arguments win_hook_event_proc {user_data} _ _ _.
Arguments holding {user_data} _ _ _.
Arguments click_tracking {user_data} _.

(** A run in which the operating system grants every request and reports no
    key down; a restart during which the left shift key is reported down; and
    the variables of the thread before its first run, with a sink that lets
    every event pass. *)
Definition every_request_granted : run_answers :=
  {| GetCurrentThreadId_result := 7;
     GetModuleHandle_result := 1;
     RegisterClassEx_result := 1;
     CreateWindowEx_result := 9;
     keyboard_hook_result := 11;
     mouse_hook_result := 12;
     SetWinEventHook_result := 13;
     GetKeyState_at_start := fun _ => 0;
     start_time := 0;
     stop_time := 50 |}.

Definition left_shift_down_again : restart_answers :=
  {| keyboard_hook_again := 21;
     mouse_hook_again := 22;
     GetKeyState_again := fun vk => if vk =? VK_LSHIFT then -128 else 0 |}.

Definition before_first_run : hook_globals unit :=
  {| hook_thread_id := 0;
     keyboard_event_hhook := 0;
     mouse_event_hhook := 0;
     win_event_hhook := 0;
     invisible_win_hwnd := 0;
     hInst := 0;
     dispatch := passing_sink;
     statics := hook_loaded;
     os_calls := [] |}.

(** The first of January 2020, 00:00 UTC, as [GetSystemTimeAsFileTime]
    stores it. *)
Definition new_year_2020 : FILETIME :=
  {| dwLowDateTime := 1761935360; dwHighDateTime := 30785590 |}.

End HookThread.

(** ** [src/windows/post_event.c] *)

Module PostEvent.
Import CInt Win32 Uiohook.

Definition MAPVK_VK_TO_VSC : Z := 0.
Definition SM_CXVIRTUALSCREEN : Z := 78.
Definition SM_CYVIRTUALSCREEN : Z := 79.

Definition MAX_WINDOWS_COORD_VALUE : Z := Z.shiftl 1 16.

Definition extend_key_table : list Z :=
  [ VK_UP; VK_DOWN; VK_LEFT; VK_RIGHT; VK_HOME; VK_END;
    VK_PRIOR; VK_NEXT; VK_INSERT; VK_DELETE ].

Definition LONG := to_signed 32.
Definition DWORD := to_unsigned 32.
Definition WORD := to_unsigned 16.

Record normalized_coordinate := { nc_x : Z; nc_y : Z }.

(** [monitor_helper.h]. *)
Record LARGESTNEGATIVECOORDINATES := { left : Z; top : Z }.

Record MOUSEINPUT := {
  dx : Z;
  dy : Z;
  mouseData : Z;
  mi_dwFlags : Z;
  mi_time : Z;
  mi_dwExtraInfo : Z
}.

Record KEYBDINPUT := {
  wVk : Z;
  wScan : Z;
  ki_dwFlags : Z;
  ki_time : Z;
  ki_dwExtraInfo : Z
}.

(** [INPUT]: the two views of its union that the file writes, kept side by
    side; each mapping function writes through one of them only. *)
Record INPUT := {
  input_type : Z;
  mi : MOUSEINPUT;
  ki : KEYBDINPUT
}.

(** [calloc(1, sizeof(INPUT))]. *)
Definition zeroed_INPUT : INPUT :=
  {| input_type := 0;
     mi := {| dx := 0; dy := 0; mouseData := 0; mi_dwFlags := 0; mi_time := 0;
              mi_dwExtraInfo := 0 |};
     ki := {| wVk := 0; wScan := 0; ki_dwFlags := 0; ki_time := 0;
              ki_dwExtraInfo := 0 |} |}.

Definition with_mi (f : MOUSEINPUT -> MOUSEINPUT) (i : INPUT) : INPUT :=
  {| input_type := input_type i; mi := f (mi i); ki := ki i |}.

Definition with_ki (f : KEYBDINPUT -> KEYBDINPUT) (i : INPUT) : INPUT :=
  {| input_type := input_type i; mi := mi i; ki := f (ki i) |}.

Definition with_input_type (t : Z) (i : INPUT) : INPUT :=
  {| input_type := t; mi := mi i; ki := ki i |}.

Definition with_dxdy (nc : normalized_coordinate) (m : MOUSEINPUT) : MOUSEINPUT :=
  {| dx := nc_x nc; dy := nc_y nc; mouseData := mouseData m; mi_dwFlags := mi_dwFlags m;
     mi_time := mi_time m; mi_dwExtraInfo := mi_dwExtraInfo m |}.

Definition with_mouseData (v : Z) (m : MOUSEINPUT) : MOUSEINPUT :=
  {| dx := dx m; dy := dy m; mouseData := v; mi_dwFlags := mi_dwFlags m;
     mi_time := mi_time m; mi_dwExtraInfo := mi_dwExtraInfo m |}.

Definition with_mi_dwFlags (v : Z) (m : MOUSEINPUT) : MOUSEINPUT :=
  {| dx := dx m; dy := dy m; mouseData := mouseData m; mi_dwFlags := v;
     mi_time := mi_time m; mi_dwExtraInfo := mi_dwExtraInfo m |}.

Definition with_mi_reset (m : MOUSEINPUT) : MOUSEINPUT :=
  {| dx := dx m; dy := dy m; mouseData := 0; mi_dwFlags := mi_dwFlags m;
     mi_time := 0; mi_dwExtraInfo := 0 |}.

Definition with_ki_dwFlags (v : Z) (k : KEYBDINPUT) : KEYBDINPUT :=
  {| wVk := wVk k; wScan := wScan k; ki_dwFlags := v; ki_time := ki_time k;
     ki_dwExtraInfo := ki_dwExtraInfo k |}.

Definition with_wVk (v : Z) (k : KEYBDINPUT) : KEYBDINPUT :=
  {| wVk := v; wScan := wScan k; ki_dwFlags := ki_dwFlags k; ki_time := ki_time k;
     ki_dwExtraInfo := ki_dwExtraInfo k |}.

Definition with_wScan (v : Z) (k : KEYBDINPUT) : KEYBDINPUT :=
  {| wVk := wVk k; wScan := v; ki_dwFlags := ki_dwFlags k; ki_time := ki_time k;
     ki_dwExtraInfo := ki_dwExtraInfo k |}.

(** What the composer has done so far: the requests handed to [SendInput],
    in order, the log, and the number of calls made to [calloc]. *)
Record world := {
  injected : list INPUT;
  logged : list (log_level * string);
  calloc_calls : nat
}.

Definition logger (l : log_level) (msg : string) (w : world) : world :=
  {| injected := injected w; logged := logged w ++ [(l, msg)];
     calloc_calls := calloc_calls w |}.

Definition inject (i : INPUT) (w : world) : world :=
  {| injected := injected w ++ [i]; logged := logged w;
     calloc_calls := calloc_calls w |}.

(** One more call to [calloc] has been made. *)
Definition allocate (w : world) : world :=
  {| injected := injected w; logged := logged w;
     calloc_calls := S (calloc_calls w) |}.

Definition get_absolute_coordinate (coordinate screen_size : Z) : Z :=
  LONG (MulDiv (int_ coordinate) MAX_WINDOWS_COORD_VALUE screen_size).

Definition normalize_coordinates (x y screen_width screen_height : Z)
    (lnc : LARGESTNEGATIVECOORDINATES) : normalized_coordinate :=
  let x := LONG (x + Z.abs (left lnc)) in
  let y := LONG (y + Z.abs (top lnc)) in
  let x := if x =? 0 then LONG (x + 1) else x in
  let y := if y =? 0 then LONG (y + 1) else y in
  {| nc_x := get_absolute_coordinate x screen_width;
     nc_y := get_absolute_coordinate y screen_height |}.

(** The loop of [map_keyboard_event] over [extend_key_table]: [table] is what
    is left of the table from index [i] on; the loop goes on while [i] is in
    range and the key equals entry [i]. *)
Fixpoint extend_key_loop (table : list Z) (wVk dwFlags : Z) : Z :=
  match table with
  | [] => dwFlags
  | entry :: rest =>
      if wVk =? entry
      then extend_key_loop rest wVk (Z.lor dwFlags KEYEVENTF_EXTENDEDKEY)
      else dwFlags
  end.

Section Composer.

(** Services of [input_helper.h], [monitor_helper.h] and the operating
    system.  The allocator and [SendInput] answer by what has happened so
    far, the earlier calls to [calloc] included: the allocation of a nested
    call is asked for in another world than that of the call around it, and
    either may fail without the other. *)
Variable scancode_to_keycode : Z -> Z.
Variable MapVirtualKeyW : Z -> Z -> Z.
Variable GetSystemMetrics : Z -> Z.
Variable get_largest_negative_coordinates : LARGESTNEGATIVECOORDINATES.
Variable calloc_succeeds : world -> bool.
Variable SendInput : world -> INPUT -> Z.

(** Reading the payload union through a member other than the one last
    written yields what the bytes spell in that member's layout. *)
Variable keyboard_overlay : event_data -> keyboard_event_data.
Variable mouse_overlay : event_data -> mouse_event_data.
Variable wheel_overlay : event_data -> mouse_wheel_event_data.

Definition data_keyboard (e : uiohook_event) : keyboard_event_data :=
  match data e with keyboard k => k | d => keyboard_overlay d end.

Definition data_mouse (e : uiohook_event) : mouse_event_data :=
  match data e with mouse m => m | d => mouse_overlay d end.

Definition data_wheel (e : uiohook_event) : mouse_wheel_event_data :=
  match data e with wheel w => w | d => wheel_overlay d end.

Definition map_keyboard_event (event : uiohook_event) (input : INPUT) (w : world)
    : Z * INPUT * world :=
  let input := with_input_type INPUT_KEYBOARD input in
  let flags :=
    match type event with
    | EVENT_KEY_PRESSED => Some KEYEVENTF_KEYDOWN
    | EVENT_KEY_RELEASED => Some KEYEVENTF_KEYUP
    | _ => None
    end in
  match flags with
  | None =>
      (UIOHOOK_FAILURE, input,
       logger LOG_LEVEL_DEBUG "Invalid event for keyboard event mapping: %#X." w)
  | Some flags =>
      let input := with_ki (with_ki_dwFlags flags) input in
      let input :=
        with_ki (with_wVk (WORD (scancode_to_keycode (keycode (data_keyboard event))))) input in
      if wVk (ki input) =? 0x0000 then
        (UIOHOOK_FAILURE, input,
         logger LOG_LEVEL_WARN "Unable to lookup scancode: %li" w)
      else
        let input :=
          with_ki (with_wScan (WORD (MapVirtualKeyW (wVk (ki input)) MAPVK_VK_TO_VSC))) input in
        let input :=
          if negb (Z.land (mask event) MASK_SHIFT =? 0) then
            with_ki (with_ki_dwFlags
                       (extend_key_loop extend_key_table (wVk (ki input))
                          (ki_dwFlags (ki input)))) input
          else input in
        (UIOHOOK_SUCCESS, input, w)
  end.

(** The [if]/[else if] chain over the button that the press and the release
    branch of [map_mouse_event] share, over the four flags of the branch. *)
Definition map_button (b : Z) (left_f right_f middle_f x_f : Z) (input : INPUT) : INPUT :=
  if b =? MOUSE_BUTTON1 then with_mi (with_mi_dwFlags left_f) input
  else if b =? MOUSE_BUTTON2 then with_mi (with_mi_dwFlags right_f) input
  else if b =? MOUSE_BUTTON3 then with_mi (with_mi_dwFlags middle_f) input
  else
    let input := with_mi (with_mi_dwFlags x_f) input in
    if b =? MOUSE_BUTTON4 then with_mi (with_mouseData XBUTTON1) input
    else if b =? MOUSE_BUTTON5 then with_mi (with_mouseData XBUTTON2) input
    else with_mi (with_mouseData (DWORD (b - 3))) input.

(** [map_mouse_event]; [hook_post_event] is the entry point it calls for
    the preliminary move, on the caller's event.  The result is [None] only
    when that call gives none. *)
Definition map_mouse_event
    (hook_post_event : uiohook_event -> world -> option (Z * uiohook_event * world))
    (event : uiohook_event) (input : INPUT) (move_mouse : bool) (w : world)
    : option (Z * uiohook_event * INPUT * world) :=
  let input := with_input_type INPUT_MOUSE input in
  let input := with_mi with_mi_reset input in
  let input :=
    if move_mouse then
      let screen_width := uint16_t (GetSystemMetrics SM_CXVIRTUALSCREEN) in
      let screen_height := uint16_t (GetSystemMetrics SM_CYVIRTUALSCREEN) in
      let lnc := get_largest_negative_coordinates in
      let nc := normalize_coordinates (x (data_mouse event)) (y (data_mouse event))
                  screen_width screen_height lnc in
      with_mi (with_dxdy nc) input
    else input in
  match type event with
  | EVENT_MOUSE_PRESSED =>
      if button (data_mouse event) =? MOUSE_NOBUTTON then
        Some (UIOHOOK_FAILURE, event, input,
              logger LOG_LEVEL_WARN "No button specified for mouse pressed event!" w)
      else
        let input := map_button (button (data_mouse event))
                       MOUSEEVENTF_LEFTDOWN MOUSEEVENTF_RIGHTDOWN
                       MOUSEEVENTF_MIDDLEDOWN MOUSEEVENTF_XDOWN input in
        if move_mouse then
          match hook_post_event (set_type EVENT_MOUSE_MOVED event) w with
          | Some (_, event, w) =>
              Some (UIOHOOK_SUCCESS, set_type EVENT_MOUSE_PRESSED event, input, w)
          | None => None
          end
        else Some (UIOHOOK_SUCCESS, event, input, w)
  | EVENT_MOUSE_RELEASED =>
      if button (data_mouse event) =? MOUSE_NOBUTTON then
        Some (UIOHOOK_FAILURE, event, input,
              logger LOG_LEVEL_WARN "No button specified for mouse released event!" w)
      else
        let input := map_button (button (data_mouse event))
                       MOUSEEVENTF_LEFTUP MOUSEEVENTF_RIGHTUP
                       MOUSEEVENTF_MIDDLEUP MOUSEEVENTF_XUP input in
        if move_mouse then
          match hook_post_event (set_type EVENT_MOUSE_MOVED event) w with
          | Some (_, event, w) =>
              Some (UIOHOOK_SUCCESS, set_type EVENT_MOUSE_PRESSED event, input, w)
          | None => None
          end
        else Some (UIOHOOK_SUCCESS, event, input, w)
  | EVENT_MOUSE_WHEEL =>
      let input := with_mi (with_mi_dwFlags MOUSEEVENTF_WHEEL) input in
      let input :=
        with_mi (with_mouseData
                   (DWORD (int_ (amount (data_wheel event) * rotation (data_wheel event)))))
          input in
      Some (UIOHOOK_SUCCESS, event, input, w)
  | EVENT_MOUSE_DRAGGED
  | EVENT_MOUSE_MOVED =>
      let input :=
        with_mi (with_mi_dwFlags
                   (Z.lor MOUSEEVENTF_ABSOLUTE
                      (Z.lor MOUSEEVENTF_MOVE MOUSEEVENTF_VIRTUALDESK))) input in
      Some (UIOHOOK_SUCCESS, event, input, w)
  | _ =>
      Some (UIOHOOK_FAILURE, event, input,
            logger LOG_LEVEL_DEBUG "Invalid event for mouse event mapping: %#X." w)
  end.

(** The body of [do_hook_post_event], over the entry point
    [hook_post_event] that [map_mouse_event] calls back.  Each call asks
    [calloc] for its own [INPUT]. *)
Definition do_hook_post_event_body
    (hook_post_event : uiohook_event -> world -> option (Z * uiohook_event * world))
    (event : uiohook_event) (move_mouse : bool) (w : world)
    : option (Z * uiohook_event * world) :=
  let allocated := calloc_succeeds w in
  let w := allocate w in
  if negb allocated then
    Some (UIOHOOK_ERROR_OUT_OF_MEMORY, event,
          logger LOG_LEVEL_ERROR "failed to allocate memory: calloc!" w)
  else
    let input := zeroed_INPUT in
    let mapped :=
      match type event with
      | EVENT_KEY_PRESSED
      | EVENT_KEY_RELEASED =>
          let '(status, input, w) := map_keyboard_event event input w in
          Some (status, event, input, w)
      | EVENT_MOUSE_PRESSED
      | EVENT_MOUSE_RELEASED
      | EVENT_MOUSE_WHEEL
      | EVENT_MOUSE_MOVED
      | EVENT_MOUSE_DRAGGED =>
          map_mouse_event hook_post_event event input move_mouse w
      | _ =>
          Some (UIOHOOK_FAILURE, event, input,
                logger LOG_LEVEL_DEBUG "Ignoring post event: %#X." w)
      end in
    match mapped with
    | None => None
    | Some (status, event, input, w) =>
        if status =? UIOHOOK_SUCCESS then
          let sent := SendInput w input in
          let w := inject input w in
          if sent =? 0 then
            Some (UIOHOOK_FAILURE, event,
                  logger LOG_LEVEL_ERROR "SendInput() failed! (%#lX)" w)
          else Some (status, event, w)
        else Some (status, event, w)
    end.

(** [do_hook_post_event]: [hook_post_event] is [do_hook_post_event(event,
    true)]; [depth] bounds the nesting of these calls ([None] when it is used
    up). *)
Fixpoint do_hook_post_event (depth : nat) (event : uiohook_event) (move_mouse : bool)
    (w : world) : option (Z * uiohook_event * world) :=
  match depth with
  | O => None
  | S depth =>
      do_hook_post_event_body (fun e w => do_hook_post_event depth e true w)
        event move_mouse w
  end.

(** A posted event nests two calls at most: the preliminary move of a button
    event maps without a further call. *)
Definition call_depth : nat := 2.

Definition hook_post_event (event : uiohook_event) (w : world)
    : option (Z * uiohook_event * world) :=
  do_hook_post_event call_depth event true w.

Definition hook_post_event_dont_move_mouse (event : uiohook_event) (w : world)
    : option (Z * uiohook_event * world) :=
  do_hook_post_event call_depth event false w.

(** The [SendInput] step of [do_hook_post_event]: the request is handed
    over, and a zero result is logged and turned into [UIOHOOK_FAILURE]. *)
Definition checked_injection (input : INPUT) (w : world) : Z * world :=
  if SendInput w input =? 0 then
    (UIOHOOK_FAILURE, logger LOG_LEVEL_ERROR "SendInput() failed! (%#lX)" (inject input w))
  else (UIOHOOK_SUCCESS, inject input w).

(** The coordinates [map_mouse_event] stores when it is asked to move. *)
Definition target_position (event : uiohook_event) : normalized_coordinate :=
  normalize_coordinates (x (data_mouse event)) (y (data_mouse event))
    (uint16_t (GetSystemMetrics SM_CXVIRTUALSCREEN))
    (uint16_t (GetSystemMetrics SM_CYVIRTUALSCREEN))
    get_largest_negative_coordinates.

(** The request of an absolute move to the position of [event]. *)
Definition move_request (event : uiohook_event) : INPUT :=
  {| input_type := INPUT_MOUSE;
     mi := {| dx := nc_x (target_position event); dy := nc_y (target_position event);
              mouseData := 0;
              mi_dwFlags := Z.lor MOUSEEVENTF_ABSOLUTE
                              (Z.lor MOUSEEVENTF_MOVE MOUSEEVENTF_VIRTUALDESK);
              mi_time := 0; mi_dwExtraInfo := 0 |};
     ki := ki zeroed_INPUT |}.

(** The nested call for the preliminary move of a button event, made in the
    world [w]: it asks [calloc] for an [INPUT] of its own; with it the move is
    handed to [SendInput], without it the failure is logged and nothing is
    injected. *)
Definition preliminary_move (event : uiohook_event) (w : world) : world :=
  if calloc_succeeds w then snd (checked_injection (move_request event) (allocate w))
  else logger LOG_LEVEL_ERROR "failed to allocate memory: calloc!" (allocate w).

(** The flag of a button request: by direction and button. *)
Definition button_flag (t : event_type) (b : Z) : Z :=
  match t with
  | EVENT_MOUSE_PRESSED =>
      if b =? MOUSE_BUTTON1 then MOUSEEVENTF_LEFTDOWN
      else if b =? MOUSE_BUTTON2 then MOUSEEVENTF_RIGHTDOWN
      else if b =? MOUSE_BUTTON3 then MOUSEEVENTF_MIDDLEDOWN
      else MOUSEEVENTF_XDOWN
  | _ =>
      if b =? MOUSE_BUTTON1 then MOUSEEVENTF_LEFTUP
      else if b =? MOUSE_BUTTON2 then MOUSEEVENTF_RIGHTUP
      else if b =? MOUSE_BUTTON3 then MOUSEEVENTF_MIDDLEUP
      else MOUSEEVENTF_XUP
  end.

Definition button_data (b : Z) : Z :=
  if (b =? MOUSE_BUTTON1) || (b =? MOUSE_BUTTON2) || (b =? MOUSE_BUTTON3) then 0
  else if b =? MOUSE_BUTTON4 then XBUTTON1
  else if b =? MOUSE_BUTTON5 then XBUTTON2
  else DWORD (b - 3).

(** The request of the press or release of the button of [event], as it is
    composed when the cursor is moved first. *)
Definition button_request (event : uiohook_event) : INPUT :=
  {| input_type := INPUT_MOUSE;
     mi := {| dx := nc_x (target_position event); dy := nc_y (target_position event);
              mouseData := button_data (button (data_mouse event));
              mi_dwFlags := button_flag (type event) (button (data_mouse event));
              mi_time := 0; mi_dwExtraInfo := 0 |};
     ki := ki zeroed_INPUT |}.

(** The request [map_mouse_event] has composed when it reaches the
    preliminary move of a press or of a release. *)
Definition positioned_INPUT (event : uiohook_event) : INPUT :=
  with_mi (with_dxdy (target_position event))
    (with_mi with_mi_reset (with_input_type INPUT_MOUSE zeroed_INPUT)).

(** Whether posting [event] goes through the preliminary move. *)
Definition moves_first (event : uiohook_event) (move_mouse : bool) : bool :=
  move_mouse
  && (event_type_eqb (type event) EVENT_MOUSE_PRESSED
      || event_type_eqb (type event) EVENT_MOUSE_RELEASED)
  && negb (button (data_mouse event) =? MOUSE_NOBUTTON).

(** The events the composer refuses: a press or a release without a button,
    and the types that are never posted. *)
Definition unsupported_event (event : uiohook_event) : Prop :=
  ((type event = EVENT_MOUSE_PRESSED \/ type event = EVENT_MOUSE_RELEASED)
   /\ button (data_mouse event) = MOUSE_NOBUTTON)
  \/ type event = EVENT_HOOK_ENABLED
  \/ type event = EVENT_HOOK_DISABLED
  \/ type event = EVENT_KEY_TYPED
  \/ type event = EVENT_MOUSE_CLICKED.

(** The warning or the note the composer logs for a refused event. *)
Definition refusal (event : uiohook_event) : log_level * string :=
  match type event with
  | EVENT_MOUSE_PRESSED =>
      (LOG_LEVEL_WARN, "No button specified for mouse pressed event!"%string)
  | EVENT_MOUSE_RELEASED =>
      (LOG_LEVEL_WARN, "No button specified for mouse released event!"%string)
  | _ => (LOG_LEVEL_DEBUG, "Ignoring post event: %#X."%string)
  end.

(** The three steps of [normalize_coordinates], one coordinate at a time. *)
Definition away_from_zero (v : Z) : Z := if v =? 0 then v + 1 else v.

Definition normalized (logical offset screen_size : Z) : Z :=
  MulDiv (away_from_zero (logical + Z.abs offset)) MAX_WINDOWS_COORD_VALUE screen_size.

(** The request of a press or release composed without the preliminary move:
    the coordinates stay as [calloc] left them. *)
Definition button_request_in_place (event : uiohook_event) : INPUT :=
  {| input_type := INPUT_MOUSE;
     mi := {| dx := 0; dy := 0;
              mouseData := button_data (button (data_mouse event));
              mi_dwFlags := button_flag (type event) (button (data_mouse event));
              mi_time := 0; mi_dwExtraInfo := 0 |};
     ki := ki zeroed_INPUT |}.

(** The request of a move or drag composed without coordinates. *)
Definition move_request_in_place : INPUT :=
  {| input_type := INPUT_MOUSE;
     mi := {| dx := 0; dy := 0; mouseData := 0;
              mi_dwFlags := Z.lor MOUSEEVENTF_ABSOLUTE
                              (Z.lor MOUSEEVENTF_MOVE MOUSEEVENTF_VIRTUALDESK);
              mi_time := 0; mi_dwExtraInfo := 0 |};
     ki := ki zeroed_INPUT |}.

(** The request of a wheel event composed without coordinates. *)
Definition wheel_request_in_place (event : uiohook_event) : INPUT :=
  {| input_type := INPUT_MOUSE;
     mi := {| dx := 0; dy := 0;
              mouseData :=
                DWORD (int_ (amount (data_wheel event) * rotation (data_wheel event)));
              mi_dwFlags := MOUSEEVENTF_WHEEL;
              mi_time := 0; mi_dwExtraInfo := 0 |};
     ki := ki zeroed_INPUT |}.

(** The request composed for a key event whose code has a native key. *)
Definition key_request_of (event : uiohook_event) : INPUT :=
  let vk := WORD (scancode_to_keycode (keycode (data_keyboard event))) in
  let base := match type event with
              | EVENT_KEY_PRESSED => KEYEVENTF_KEYDOWN
              | _ => KEYEVENTF_KEYUP
              end in
  {| input_type := INPUT_KEYBOARD; mi := mi zeroed_INPUT;
     ki := {| wVk := vk; wScan := WORD (MapVirtualKeyW vk MAPVK_VK_TO_VSC);
              ki_dwFlags := if negb (Z.land (mask event) MASK_SHIFT =? 0) && (vk =? VK_UP)
                            then Z.lor base KEYEVENTF_EXTENDEDKEY else base;
              ki_time := 0; ki_dwExtraInfo := 0 |} |}.

End Composer.

(** One display of 1920 by 1080 at the origin, a two-key layout, no
    allocation failure and no injection failure. *)
Definition VC_UP : Z := 0xE048.
Definition VC_DOWN : Z := 0xE050.

Definition arrows_to_keycode (scancode : Z) : Z :=
  if scancode =? VC_UP then VK_UP
  else if scancode =? VC_DOWN then VK_DOWN
  else 0x0000.

Definition arrows_to_scan (vk map_type : Z) : Z :=
  if vk =? VK_UP then 0x48 else if vk =? VK_DOWN then 0x50 else 0.

Definition one_display (index : Z) : Z :=
  if index =? SM_CXVIRTUALSCREEN then 1920
  else if index =? SM_CYVIRTUALSCREEN then 1080
  else 0.

Definition at_origin : LARGESTNEGATIVECOORDINATES := {| left := 0; top := 0 |}.

Definition always_allocates (w : world) : bool := true.
Definition always_injects (w : world) (input : INPUT) : Z := 1.

Definition never_allocates (w : world) : bool := false.

(** An allocator with room for one request: the first call to [calloc]
    succeeds and every later call fails. *)
Definition allocates_once (w : world) : bool := Nat.eqb (calloc_calls w) 0.

Definition no_keyboard (d : event_data) : keyboard_event_data :=
  {| keycode := 0; rawcode := 0; keychar := 0 |}.
Definition no_mouse (d : event_data) : mouse_event_data :=
  {| button := 0; clicks := 0; x := 0; y := 0 |}.
Definition no_wheel (d : event_data) : mouse_wheel_event_data :=
  {| wheel_clicks := 0; wheel_x := 0; wheel_y := 0; wheel_type := 0; amount := 0;
     rotation := 0; direction := 0 |}.

Definition post (event : uiohook_event) (w : world)
    : option (Z * uiohook_event * world) :=
  hook_post_event arrows_to_keycode arrows_to_scan one_display at_origin
    always_allocates always_injects no_keyboard no_mouse no_wheel event w.

Definition post_dont_move (event : uiohook_event) (w : world)
    : option (Z * uiohook_event * world) :=
  hook_post_event_dont_move_mouse arrows_to_keycode arrows_to_scan one_display
    at_origin always_allocates always_injects no_keyboard no_mouse no_wheel event w.

Definition nothing_done : world :=
  {| injected := []; logged := []; calloc_calls := 0 |}.

Definition key_event (t : event_type) (modifiers code : Z) : uiohook_event :=
  {| type := t; time := 0; mask := modifiers; reserved := 0;
     data := keyboard {| keycode := code; rawcode := 0; keychar := CHAR_UNDEFINED |} |}.

Definition button_event (t : event_type) (b px py : Z) : uiohook_event :=
  {| type := t; time := 0; mask := 0; reserved := 0;
     data := mouse {| button := b; clicks := 1; x := px; y := py |} |}.

Definition key_request (vk scan flags : Z) : INPUT :=
  {| input_type := INPUT_KEYBOARD; mi := mi zeroed_INPUT;
     ki := {| wVk := vk; wScan := scan; ki_dwFlags := flags; ki_time := 0;
              ki_dwExtraInfo := 0 |} |}.

End PostEvent.

(** ** The two files together: events of the hook posted back *)

Module Replay.
Import CInt Win32 Uiohook InputHook.

(** The flag and the data of the injection request that stands for one of
    the five buttons of the mask going down ([press]) or up. *)
Definition button_request_of (k : tracked_key) (press : bool) : option (Z * Z) :=
  match k with
  | BUTTON1 => Some (if press then MOUSEEVENTF_LEFTDOWN else MOUSEEVENTF_LEFTUP, 0)
  | BUTTON2 => Some (if press then MOUSEEVENTF_RIGHTDOWN else MOUSEEVENTF_RIGHTUP, 0)
  | BUTTON3 => Some (if press then MOUSEEVENTF_MIDDLEDOWN else MOUSEEVENTF_MIDDLEUP, 0)
  | BUTTON4 => Some (if press then MOUSEEVENTF_XDOWN else MOUSEEVENTF_XUP, XBUTTON1)
  | BUTTON5 => Some (if press then MOUSEEVENTF_XDOWN else MOUSEEVENTF_XUP, XBUTTON2)
  | _ => None
  end.

End Replay.

(** * Properties

    The lemmas follow the embedding module by module; in the sections the
    functions of a source file are taken at the section's services. *)

Module CIntFacts.

Import CInt.

Lemma to_signed_exact w z :
  0 < w -> fits_signed w z -> to_signed w z = z.
Proof.
  unfold fits_signed, to_signed. intros Hw Hz.
  assert (Hp : 2 ^ w = 2 * 2 ^ (w - 1)).
  { replace w with (Z.succ (w - 1)) at 1 by lia.
    rewrite Z.pow_succ_r by lia. reflexivity. }
  rewrite Z.mod_small by lia. lia.
Qed.

Lemma to_signed_range w z :
  0 < w -> fits_signed w (to_signed w z).
Proof.
  unfold fits_signed, to_signed. intros Hw.
  assert (Hp : 2 ^ w = 2 * 2 ^ (w - 1)).
  { replace w with (Z.succ (w - 1)) at 1 by lia.
    rewrite Z.pow_succ_r by lia. reflexivity. }
  assert (Hpos : 0 < 2 ^ (w - 1)) by (apply Z.pow_pos_nonneg; lia).
  pose proof (Z.mod_pos_bound (z + 2 ^ (w - 1)) (2 ^ w)). lia.
Qed.

Lemma to_signed_of_unsigned w z :
  0 < w -> to_signed w (to_unsigned w z) = to_signed w z.
Proof.
  unfold to_signed, to_unsigned. intros Hw.
  assert (Hpos : 0 < 2 ^ w) by (apply Z.pow_pos_nonneg; lia).
  rewrite Zplus_mod_idemp_l. reflexivity.
Qed.

Lemma elapsed_exact timestamp since :
  fits_long (timestamp - since) -> elapsed timestamp since = timestamp - since.
Proof.
  intros H. unfold elapsed, long_int, uint64_t, to_signed, to_unsigned, long_bits.
  unfold fits_long, fits_signed, long_bits in H.
  change (2 ^ 64) with (2 ^ 32 * 2 ^ 32).
  rewrite <- (Zplus_mod_idemp_l ((timestamp - since) mod (2 ^ 32 * 2 ^ 32))).
  rewrite Z.rem_mul_r by (apply Z.pow_nonzero || apply Z.pow_pos_nonneg; lia).
  rewrite Z.mul_comm, Z.mod_add by (apply Z.pow_nonzero; lia).
  rewrite Z.mod_mod by (apply Z.pow_nonzero; lia).
  rewrite Zplus_mod_idemp_l.
  change (2 ^ (32 - 1)) with 2147483648 in *. change (2 ^ 32) with 4294967296.
  rewrite Z.mod_small; lia.
Qed.

End CIntFacts.

Module UiohookFacts.

Import CInt Win32 Uiohook.

Lemma not_consumed_iff e : not_consumed e = false <-> reserved e = 1.
Proof.
  unfold not_consumed. rewrite negb_false_iff, Z.eqb_eq, Z.lxor_eq_0_iff.
  reflexivity.
Qed.

End UiohookFacts.

Module InputHookFacts.

Import CInt CIntFacts Win32 Uiohook UiohookFacts InputHook.

Section Hook.

Variable hook_get_multi_click_time : Z.
Variable keycode_to_scancode : Z -> Z -> Z.
Variable keycode_to_unicode : Z -> list Z.
Variable GetKeyState : Z -> Z.
Variable wheel_scroll_lines : Z.
Variable user_data : Type.
Variable dispatch : option (uiohook_event -> user_data -> uiohook_event * user_data).

(** The state and the functions of [input_hook.c] at these services. *)
Local Abbreviation hook_state := (@InputHook.hook_state user_data).
Local Abbreviation current_modifiers := (@InputHook.current_modifiers user_data).
Local Abbreviation click_count := (@InputHook.click_count user_data).
Local Abbreviation click_time := (@InputHook.click_time user_data).
Local Abbreviation click_button := (@InputHook.click_button user_data).
Local Abbreviation last_click := (@InputHook.last_click user_data).
Local Abbreviation event := (@InputHook.event user_data).
Local Abbreviation dispatch_data := (@InputHook.dispatch_data user_data).
Local Abbreviation dispatched := (@InputHook.dispatched user_data).
Local Abbreviation logged := (@InputHook.logged user_data).
Local Abbreviation Build_hook_state := (@InputHook.Build_hook_state user_data).
Local Abbreviation with_current_modifiers := (@InputHook.with_current_modifiers user_data).
Local Abbreviation with_click_count := (@InputHook.with_click_count user_data).
Local Abbreviation with_click_time := (@InputHook.with_click_time user_data).
Local Abbreviation with_click_button := (@InputHook.with_click_button user_data).
Local Abbreviation with_last_click := (@InputHook.with_last_click user_data).
Local Abbreviation with_event := (@InputHook.with_event user_data).
Local Abbreviation logger := (@InputHook.logger user_data).
Local Abbreviation dispatch_event := (@InputHook.dispatch_event user_data dispatch).
Local Abbreviation set_modifier_mask := (@InputHook.set_modifier_mask user_data).
Local Abbreviation unset_modifier_mask := (@InputHook.unset_modifier_mask user_data).
Local Abbreviation get_modifiers := (@InputHook.get_modifiers user_data).
Local Abbreviation initialize_modifiers := (@InputHook.initialize_modifiers GetKeyState user_data).
Local Abbreviation get_scroll_wheel_type := (@InputHook.get_scroll_wheel_type wheel_scroll_lines).
Local Abbreviation get_scroll_wheel_amount := (@InputHook.get_scroll_wheel_amount wheel_scroll_lines).
Local Abbreviation key_typed := (@InputHook.key_typed user_data dispatch).
Local Abbreviation process_key_pressed := (@InputHook.process_key_pressed keycode_to_scancode keycode_to_unicode user_data dispatch).
Local Abbreviation process_key_released := (@InputHook.process_key_released keycode_to_scancode user_data dispatch).
Local Abbreviation hook_result := (@InputHook.hook_result user_data).
Local Abbreviation keyboard_hook_event_proc := (@InputHook.keyboard_hook_event_proc keycode_to_scancode keycode_to_unicode user_data dispatch).
Local Abbreviation process_button_pressed := (@InputHook.process_button_pressed hook_get_multi_click_time user_data dispatch).
Local Abbreviation process_button_released := (@InputHook.process_button_released hook_get_multi_click_time user_data dispatch).
Local Abbreviation process_mouse_moved := (@InputHook.process_mouse_moved hook_get_multi_click_time user_data dispatch).
Local Abbreviation process_mouse_wheel := (@InputHook.process_mouse_wheel wheel_scroll_lines user_data dispatch).
Local Abbreviation mouse_hook_event_proc := (@InputHook.mouse_hook_event_proc hook_get_multi_click_time wheel_scroll_lines user_data dispatch).
Local Abbreviation sink_response := (@InputHook.sink_response user_data dispatch).
Local Abbreviation mouse_button_event := (@InputHook.mouse_button_event user_data).
Local Abbreviation mouse_motion_event := (@InputHook.mouse_motion_event user_data).
Local Abbreviation held := (@InputHook.held user_data).
Local Abbreviation hook_event_proc := (@InputHook.hook_event_proc hook_get_multi_click_time keycode_to_scancode keycode_to_unicode wheel_scroll_lines user_data dispatch).
Local Abbreviation process_all := (@InputHook.process_all hook_get_multi_click_time keycode_to_scancode keycode_to_unicode wheel_scroll_lines user_data dispatch).
Local Abbreviation key_event := (@InputHook.key_event keycode_to_scancode).
Local Abbreviation pressed_modifiers := (@InputHook.pressed_modifiers user_data).
Local Abbreviation released_modifiers := (@InputHook.released_modifiers user_data).
Local Abbreviation within_streak := (@InputHook.within_streak hook_get_multi_click_time).
Local Abbreviation tracker_ranges := (@InputHook.tracker_ranges user_data).
Local Abbreviation silent := (@InputHook.silent user_data).
Local Abbreviation propagated := (@InputHook.propagated hook_get_multi_click_time keycode_to_scancode keycode_to_unicode wheel_scroll_lines user_data dispatch).
Local Abbreviation propagations := (@InputHook.propagations hook_get_multi_click_time keycode_to_scancode keycode_to_unicode wheel_scroll_lines user_data dispatch).
Local Abbreviation tracked_click := (@InputHook.tracked_click user_data).

(** *** What a call to [dispatch_event] leaves untouched *)

Lemma dispatch_event_current_modifiers s :
  current_modifiers (dispatch_event s) = current_modifiers s.
Proof.
  unfold dispatch_event. destruct dispatch as [proc|]; simpl; trivial.
  destruct (proc (event s) (dispatch_data s)); reflexivity.
Qed.

Lemma dispatch_event_click_count s :
  click_count (dispatch_event s) = click_count s.
Proof.
  unfold dispatch_event. destruct dispatch as [proc|]; simpl; trivial.
  destruct (proc (event s) (dispatch_data s)); reflexivity.
Qed.

Lemma dispatch_event_click_time s :
  click_time (dispatch_event s) = click_time s.
Proof.
  unfold dispatch_event. destruct dispatch as [proc|]; simpl; trivial.
  destruct (proc (event s) (dispatch_data s)); reflexivity.
Qed.

Lemma dispatch_event_click_button s :
  click_button (dispatch_event s) = click_button s.
Proof.
  unfold dispatch_event. destruct dispatch as [proc|]; simpl; trivial.
  destruct (proc (event s) (dispatch_data s)); reflexivity.
Qed.

Lemma dispatch_event_last_click s :
  last_click (dispatch_event s) = last_click s.
Proof.
  unfold dispatch_event. destruct dispatch as [proc|]; simpl; trivial.
  destruct (proc (event s) (dispatch_data s)); reflexivity.
Qed.

Lemma dispatch_event_dispatched s :
  dispatched (dispatch_event s) = dispatched s ++ [event s].
Proof.
  unfold dispatch_event. destruct dispatch as [proc|]; simpl.
  - destruct (proc (event s) (dispatch_data s)); reflexivity.
  - reflexivity.
Qed.

Lemma dispatch_event_logged s entry :
  In entry (logged s) -> In entry (logged (dispatch_event s)).
Proof.
  unfold dispatch_event. destruct dispatch as [proc|]; simpl.
  - destruct (proc (event s) (dispatch_data s)); simpl.
    intros H. apply in_or_app. now left.
  - intros H. apply in_or_app. now left.
Qed.

(** Without a callback the event comes back as it was handed over. *)
Lemma dispatch_event_no_callback s :
  dispatch = None -> event (dispatch_event s) = event s.
Proof. unfold dispatch_event. intros ->. reflexivity. Qed.

Ltac hook_frame :=
  repeat progress
    (rewrite ?dispatch_event_current_modifiers, ?dispatch_event_click_count,
       ?dispatch_event_click_time, ?dispatch_event_click_button,
       ?dispatch_event_last_click, ?dispatch_event_dispatched;
     cbn [current_modifiers click_count click_time click_button last_click event
          dispatched dispatch_data
          with_current_modifiers with_click_count with_click_time with_click_button
          with_last_click with_event logger get_modifiers]).

(** *** The click classifier *)

(** The press path, on the elapsed time as the code computes it. *)
Lemma process_button_pressed_tracking mshook button s :
  let s' := process_button_pressed mshook button s in
  click_time s' = ms_time mshook
  /\ pt_x (last_click s') = pt_x (ms_pt mshook)
  /\ pt_y (last_click s') = pt_y (ms_pt mshook)
  /\ current_modifiers s' = current_modifiers s
  /\ (if (button =? click_button s)
         && (elapsed (ms_time mshook) (click_time s) <=? hook_get_multi_click_time)
      then click_button s' = click_button s
           /\ click_count s' =
                (if click_count s <? USHRT_MAX then click_count s + 1 else click_count s)
           /\ (USHRT_MAX <= click_count s ->
               In (LOG_LEVEL_WARN, "Click count overflow detected!"%string) (logged s'))
      else click_button s' = button /\ click_count s' = 1).
Proof.
  unfold process_button_pressed. cbv zeta.
  destruct ((button =? click_button s)
            && (elapsed (ms_time mshook) (click_time s) <=? hook_get_multi_click_time)).
  - destruct (click_count s <? USHRT_MAX) eqn:E;
      hook_frame; repeat split; try reflexivity.
    + intros Hmax. apply Z.ltb_lt in E. lia.
    + intros _. apply dispatch_event_logged. simpl.
      apply in_or_app. left. apply in_or_app. right. now left.
  - hook_frame. repeat split.
Qed.

(** C1, as the code has it.  On every button press: when the button is the
    tracked button and the time elapsed since the tracked press is at most
    the multi-click interval, the click count goes up by one, stopping at
    [USHRT_MAX] (where the overflow warning is logged and the count is kept);
    otherwise the count becomes 1 and the button becomes the tracked button.
    The time stamp and the position of the press are recorded either way.  The elapsed time is
    the one the code computes, [gap]: the difference of the two time stamps
    converted to [long int], which is that difference whenever it fits 32
    bits, and wraps around from 2^31 milliseconds on. *)
Theorem process_button_pressed_click_count mshook button s :
  let s' := process_button_pressed mshook button s in
  let gap := elapsed (ms_time mshook) (click_time s) in
  (button = click_button s
   /\ gap <= hook_get_multi_click_time ->
   click_count s' =
     (if click_count s <? USHRT_MAX then click_count s + 1 else click_count s)
   /\ (0 <= click_count s <= USHRT_MAX ->
       click_count s' = Z.min (click_count s + 1) USHRT_MAX)
   /\ click_button s' = click_button s
   /\ (USHRT_MAX <= click_count s ->
       In (LOG_LEVEL_WARN, "Click count overflow detected!"%string) (logged s')))
  /\ (button <> click_button s
      \/ gap > hook_get_multi_click_time ->
      click_count s' = 1 /\ click_button s' = button)
  /\ click_time s' = ms_time mshook
  /\ last_click s' = ms_pt mshook
  /\ (fits_long (ms_time mshook - click_time s) ->
      gap = ms_time mshook - click_time s).
Proof.
  intros s' gap.
  destruct (process_button_pressed_tracking mshook button s)
    as (Ht & Hx & Hy & _ & Hbranch).
  fold s' in Ht, Hx, Hy, Hbranch. fold gap in Hbranch.
  split; [| split; [| split; [| split]]]; [| | | | apply elapsed_exact].
  - intros [Hb Hle].
    apply Z.eqb_eq in Hb. apply Z.leb_le in Hle.
    rewrite Hb, Hle in Hbranch. cbn [andb] in Hbranch.
    destruct Hbranch as (Hbutton & Hcount & Hlog).
    split; [exact Hcount |]. split; [| split; [exact Hbutton | exact Hlog]].
    intros Hcc. rewrite Hcount. destruct (click_count s <? USHRT_MAX) eqn:E.
    + apply Z.ltb_lt in E. lia.
    + apply Z.ltb_ge in E. lia.
  - intros Hother.
    assert (E : (button =? click_button s)
                && (gap <=? hook_get_multi_click_time) = false).
    { apply andb_false_iff. destruct Hother as [Hne | Hgt].
      - left. now apply Z.eqb_neq.
      - right. apply Z.leb_gt. lia. }
    rewrite E in Hbranch. destruct Hbranch as [Hbutton Hcount]. now split.
  - exact Ht.
  - destruct (last_click s') as [lx ly], (ms_pt mshook) as [mx my].
    simpl in Hx, Hy. congruence.
Qed.

Lemma dispatch_event_event s :
  event (dispatch_event s) = sink_response (event s) (dispatch_data s).
Proof.
  unfold dispatch_event, sink_response. destruct dispatch as [proc|]; simpl; trivial.
  destruct (proc (event s) (dispatch_data s)); reflexivity.
Qed.

Lemma same_position_eq p q : same_position p q = true <-> p = q.
Proof.
  unfold same_position. rewrite andb_true_iff, !Z.eqb_eq.
  destruct p, q; simpl. split.
  - intros [-> ->]. reflexivity.
  - intros H. injection H. auto.
Qed.

(** The release path, on the elapsed time as the code computes it. *)
Lemma process_button_released_trace mshook button s :
  let s' := process_button_released mshook button s in
  let released := mouse_button_event EVENT_MOUSE_RELEASED mshook button s in
  let clicked := mouse_button_event EVENT_MOUSE_CLICKED mshook button s in
  dispatched s' =
    dispatched s ++ released ::
      (if not_consumed (sink_response released (dispatch_data s))
          && same_position (last_click s) (ms_pt mshook)
       then [clicked] else [])
  /\ click_count s' =
       (if (button =? click_button s)
           && (elapsed (ms_time mshook) (click_time s) >? hook_get_multi_click_time)
        then 0 else click_count s)
  /\ current_modifiers s' = current_modifiers s
  /\ click_button s' = click_button s
  /\ click_time s' = click_time s
  /\ last_click s' = last_click s.
Proof.
  unfold process_button_released, same_position. cbv zeta.
  rewrite dispatch_event_event. hook_frame.
  fold (mouse_button_event EVENT_MOUSE_RELEASED mshook button s).
  rewrite andb_assoc.
  destruct (not_consumed _ && _ && _); hook_frame;
    destruct ((button =? click_button s)
              && (elapsed (ms_time mshook) (click_time s) >? hook_get_multi_click_time));
    hook_frame; rewrite <- ?app_assoc; repeat split.
Qed.

(** C2, as the code has it.  On every button release a
    [EVENT_MOUSE_RELEASED] event carrying the click count held at that moment
    is dispatched first; a
    [EVENT_MOUSE_CLICKED] event with the same count follows exactly when the
    sink left the released event unconsumed and the release is at the position
    of the last press; nothing else is dispatched.  Afterwards the click count
    is 0 when the tracked press is of this button and lies further back than
    the multi-click interval, and unchanged otherwise: a release without a
    tracked press reports the count that is held.  The elapsed time is the
    one the code computes, [gap]: the difference of the two time stamps
    converted to [long int], which is that difference whenever it fits 32
    bits, and wraps around from 2^31 milliseconds on. *)
Theorem process_button_released_events mshook button s :
  let s' := process_button_released mshook button s in
  let released := mouse_button_event EVENT_MOUSE_RELEASED mshook button s in
  let clicked := mouse_button_event EVENT_MOUSE_CLICKED mshook button s in
  let consumed := reserved (sink_response released (dispatch_data s)) = 1 in
  let gap := elapsed (ms_time mshook) (click_time s) in
  (exists rest, dispatched s' = dispatched s ++ released :: rest
     /\ (~ consumed /\ ms_pt mshook = last_click s -> rest = [clicked])
     /\ (consumed \/ ms_pt mshook <> last_click s -> rest = []))
  /\ data released = mouse {| button := button; clicks := click_count s;
                              x := int16_t (pt_x (ms_pt mshook));
                              y := int16_t (pt_y (ms_pt mshook)) |}
  /\ data clicked = data released
  /\ (button = click_button s ->
      gap > hook_get_multi_click_time ->
      click_count s' = 0)
  /\ (button <> click_button s
      \/ gap <= hook_get_multi_click_time ->
      click_count s' = click_count s)
  /\ (fits_long (ms_time mshook - click_time s) ->
      gap = ms_time mshook - click_time s).
Proof.
  intros s' released clicked consumed gap.
  destruct (process_button_released_trace mshook button s) as (Htrace & Hcount & _).
  fold s' released clicked in Htrace, Hcount. fold gap in Hcount.
  split; [| split; [| split; [| split; [| split]]]]; [| | | | | apply elapsed_exact].
  - eexists. split; [exact Htrace |]. split.
    + intros [Hnc Hpos].
      assert (E1 : not_consumed (sink_response released (dispatch_data s)) = true).
      { destruct (not_consumed _) eqn:E; trivial.
        apply not_consumed_iff in E. contradiction. }
      assert (E2 : same_position (last_click s) (ms_pt mshook) = true)
        by (apply same_position_eq; congruence).
      rewrite E1, E2. reflexivity.
    + intros [Hc | Hpos].
      * apply not_consumed_iff in Hc. rewrite Hc. reflexivity.
      * destruct (same_position (last_click s) (ms_pt mshook)) eqn:E.
        -- apply same_position_eq in E. congruence.
        -- rewrite andb_false_r. reflexivity.
  - reflexivity.
  - reflexivity.
  - intros Hb Hgt. rewrite Hcount.
    apply Z.eqb_eq in Hb. rewrite Hb.
    assert (E : (gap >? hook_get_multi_click_time) = true)
      by (apply Z.gtb_lt; lia).
    rewrite E. reflexivity.
  - intros Hother. rewrite Hcount.
    assert (E : (button =? click_button s)
                && (gap >? hook_get_multi_click_time) = false).
    { apply andb_false_iff. destruct Hother as [Hne | Hle].
      - left. now apply Z.eqb_neq.
      - right. rewrite Z.gtb_ltb. apply Z.ltb_ge. lia. }
    rewrite E. reflexivity.
Qed.

Lemma button_mask_range_bits n :
  0 <= n -> Z.testbit button_mask_range n = (8 <=? n) && (n <=? 12).
Proof.
  intros Hn. change button_mask_range with 7936.
  destruct (Z_lt_le_dec n 13) as [Hlt | Hge].
  - assert (Hlow : forallb
                     (fun k => Bool.eqb (Z.testbit 7936 k) ((8 <=? k) && (k <=? 12)))
                     (map Z.of_nat (seq 0 13)) = true) by reflexivity.
    rewrite forallb_forall in Hlow. apply eqb_prop. apply Hlow.
    apply in_map_iff. exists (Z.to_nat n). split; [lia |].
    apply in_seq. lia.
  - rewrite Z.bits_above_log2 by (change (Z.log2 7936) with 12; lia).
    symmetry. apply andb_false_iff. right. apply Z.leb_gt. lia.
Qed.

Lemma button_held_iff mask :
  negb (Z.land mask button_mask_range =? 0) = true <-> button_held mask.
Proof.
  rewrite negb_true_iff, Z.eqb_neq. split.
  - intros Hne.
    destruct (Z.testbit mask 8) eqn:E8; [exists 8; split; [lia | exact E8] |].
    destruct (Z.testbit mask 9) eqn:E9; [exists 9; split; [lia | exact E9] |].
    destruct (Z.testbit mask 10) eqn:E10; [exists 10; split; [lia | exact E10] |].
    destruct (Z.testbit mask 11) eqn:E11; [exists 11; split; [lia | exact E11] |].
    destruct (Z.testbit mask 12) eqn:E12; [exists 12; split; [lia | exact E12] |].
    exfalso. apply Hne. apply Z.bits_inj'. intros n Hn.
    rewrite Z.land_spec, Z.bits_0, button_mask_range_bits by exact Hn.
    destruct (8 <=? n) eqn:Lo; [| apply andb_false_r].
    destruct (n <=? 12) eqn:Hi; [| apply andb_false_r].
    apply Z.leb_le in Lo. apply Z.leb_le in Hi.
    assert (Hcases : n = 8 \/ n = 9 \/ n = 10 \/ n = 11 \/ n = 12) by lia.
    destruct Hcases as [-> | [-> | [-> | [-> | ->]]]];
      rewrite ?E8, ?E9, ?E10, ?E11, ?E12; reflexivity.
  - intros (b & Hb & Hbit) Hzero.
    assert (Hland : Z.testbit (Z.land mask button_mask_range) b = true).
    { rewrite Z.land_spec, Hbit, button_mask_range_bits by lia.
      assert (Lo : (8 <=? b) = true) by (apply Z.leb_le; lia).
      assert (Hi : (b <=? 12) = true) by (apply Z.leb_le; lia).
      rewrite Lo, Hi. reflexivity. }
    rewrite Hzero, Z.bits_0 in Hland. discriminate.
Qed.

(** The move path, on the elapsed time as the code computes it. *)
Lemma process_mouse_moved_trace mshook s :
  let s' := process_mouse_moved mshook s in
  if same_position (last_click s) (ms_pt mshook) then s' = s
  else
    click_count s' =
      (if negb (click_count s =? 0)
          && (elapsed (ms_time mshook) (click_time s) >? hook_get_multi_click_time)
       then 0 else click_count s)
    /\ dispatched s' =
         dispatched s ++
           [mouse_motion_event
              (if negb (Z.land (current_modifiers s) button_mask_range =? 0)
               then EVENT_MOUSE_DRAGGED else EVENT_MOUSE_MOVED)
              mshook (click_count s') s]
    /\ current_modifiers s' = current_modifiers s
    /\ click_button s' = click_button s
    /\ click_time s' = click_time s
    /\ last_click s' = last_click s.
Proof.
  unfold process_mouse_moved, same_position. cbv zeta.
  rewrite <- negb_andb.
  destruct ((pt_x (last_click s) =? pt_x (ms_pt mshook))
            && (pt_y (last_click s) =? pt_y (ms_pt mshook))); cbn [negb]; trivial.
  destruct (negb (click_count s =? 0)
            && (elapsed (ms_time mshook) (click_time s) >? hook_get_multi_click_time));
    hook_frame; repeat split.
Qed.

(** C3, as the code has it.  On every move notification: at the position of
    the last click nothing is dispatched and nothing changes; anywhere else
    exactly one event
    is dispatched, [EVENT_MOUSE_DRAGGED] when one of the button bits 1 to 5 is
    set in the modifier mask and [EVENT_MOUSE_MOVED] when none is, and before
    it is populated a click count other than 0 whose press lies further back
    than the multi-click interval is reset to 0 (the event carries the count
    after that reset).  The elapsed time is the one the code computes,
    [gap]: the difference of the two time stamps converted to [long int],
    which is that difference whenever it fits 32 bits, and wraps around from
    2^31 milliseconds on. *)
Theorem process_mouse_moved_events mshook s :
  let s' := process_mouse_moved mshook s in
  let gap := elapsed (ms_time mshook) (click_time s) in
  (ms_pt mshook = last_click s -> s' = s)
  /\ (ms_pt mshook <> last_click s ->
      (exists e, dispatched s' = dispatched s ++ [e]
         /\ (type e = EVENT_MOUSE_DRAGGED <-> button_held (current_modifiers s))
         /\ (type e = EVENT_MOUSE_MOVED <-> ~ button_held (current_modifiers s))
         /\ data e = mouse {| button := MOUSE_NOBUTTON; clicks := click_count s';
                              x := int16_t (pt_x (ms_pt mshook));
                              y := int16_t (pt_y (ms_pt mshook)) |})
      /\ (click_count s <> 0 ->
          gap > hook_get_multi_click_time ->
          click_count s' = 0)
      /\ (gap <= hook_get_multi_click_time ->
          click_count s' = click_count s))
  /\ (fits_long (ms_time mshook - click_time s) ->
      gap = ms_time mshook - click_time s).
Proof.
  intros s' gap.
  pose proof (process_mouse_moved_trace mshook s) as Htrace.
  fold s' in Htrace. cbv zeta in Htrace. fold gap in Htrace.
  split; [| split; [| apply elapsed_exact]].
  - intros Hpos.
    assert (E : same_position (last_click s) (ms_pt mshook) = true)
      by (apply same_position_eq; congruence).
    rewrite E in Htrace. exact Htrace.
  - intros Hpos.
    destruct (same_position (last_click s) (ms_pt mshook)) eqn:E.
    { apply same_position_eq in E. congruence. }
    destruct Htrace as (Hcount & Hdisp & _).
    split; [| split].
    + eexists. split; [exact Hdisp |].
      pose proof (button_held_iff (current_modifiers s)) as Hheld.
      cbn [mouse_motion_event type data].
      destruct (negb (Z.land (current_modifiers s) button_mask_range =? 0)).
      * assert (Hh : button_held (current_modifiers s)) by now apply Hheld.
        split; [split; trivial |]. split; [| reflexivity].
        split; [discriminate | intros Hn; contradiction].
      * assert (Hh : ~ button_held (current_modifiers s)).
        { intros Hh. apply Hheld in Hh. discriminate. }
        split; [| split; [split; trivial | reflexivity]].
        split; [discriminate | intros Hn; contradiction].
    + intros Hnz Hgt. rewrite Hcount.
      apply Z.eqb_neq in Hnz. rewrite Hnz.
      assert (E2 : (gap >? hook_get_multi_click_time) = true)
        by (apply Z.gtb_lt; lia).
      rewrite E2. reflexivity.
    + intros Hle. rewrite Hcount.
      assert (E2 : (gap >? hook_get_multi_click_time) = false)
        by (rewrite Z.gtb_ltb; apply Z.ltb_ge; lia).
      rewrite E2, andb_false_r. reflexivity.
Qed.

(** *** Wheel notifications and the click streak *)

Lemma process_mouse_wheel_tracking mshook direction s :
  let s' := process_mouse_wheel mshook direction s in
  click_count s' = 1
  /\ click_button s' = MOUSE_NOBUTTON
  /\ click_time s' = click_time s
  /\ last_click s' = last_click s
  /\ current_modifiers s' = current_modifiers s.
Proof.
  unfold process_mouse_wheel. cbv zeta. hook_frame. repeat split.
Qed.

(** C5, as the code has it.  A move away from the last click position
    resets the click count to 0 only when a streak is active and its press
    lies further back than the multi-click interval; within the interval the
    count is kept.  A wheel notification sets the click count to 1 and the
    tracked button to [MOUSE_NOBUTTON], so that the next press of a real
    button, whenever it comes, starts a streak of one.  The elapsed time is
    the one the code computes, [gap]: the difference of the two time stamps
    converted to [long int], which is that difference whenever it fits 32
    bits, and wraps around from 2^31 milliseconds on. *)
Theorem motion_and_wheel_click_count mshook direction s :
  let gap := elapsed (ms_time mshook) (click_time s) in
  (ms_pt mshook <> last_click s ->
   (click_count s <> 0 ->
    gap > hook_get_multi_click_time ->
    click_count (process_mouse_moved mshook s) = 0)
   /\ (gap <= hook_get_multi_click_time ->
       click_count (process_mouse_moved mshook s) = click_count s)
   /\ (click_count s = 0 -> click_count (process_mouse_moved mshook s) = 0))
  /\ (fits_long (ms_time mshook - click_time s) ->
      gap = ms_time mshook - click_time s)
  /\ click_count (process_mouse_wheel mshook direction s) = 1
  /\ click_button (process_mouse_wheel mshook direction s) = MOUSE_NOBUTTON
  /\ (forall press button,
        button <> MOUSE_NOBUTTON ->
        let s' := process_button_pressed press button
                    (process_mouse_wheel mshook direction s) in
        click_count s' = 1 /\ click_button s' = button).
Proof.
  intros gap.
  destruct (process_mouse_wheel_tracking mshook direction s) as (Hc & Hb & _).
  split; [| split; [apply elapsed_exact | split; [exact Hc | split; [exact Hb |]]]].
  - intros Hpos.
    pose proof (process_mouse_moved_trace mshook s) as Htrace.
    cbv zeta in Htrace. fold gap in Htrace.
    destruct (same_position (last_click s) (ms_pt mshook)) eqn:E.
    { apply same_position_eq in E. congruence. }
    destruct Htrace as (Hcount & _). rewrite Hcount. split; [| split].
    + intros Hnz Hgt. apply Z.eqb_neq in Hnz. rewrite Hnz.
      assert (E2 : (gap >? hook_get_multi_click_time) = true)
        by (apply Z.gtb_lt; lia).
      rewrite E2. reflexivity.
    + intros Hle.
      assert (E2 : (gap >? hook_get_multi_click_time) = false)
        by (rewrite Z.gtb_ltb; apply Z.ltb_ge; lia).
      rewrite E2, andb_false_r. reflexivity.
    + intros Hzero. rewrite Hzero. reflexivity.
  - intros press button Hbutton s'.
    destruct (process_button_pressed_tracking press button
                (process_mouse_wheel mshook direction s)) as (_ & _ & _ & _ & Hbranch).
    fold s' in Hbranch. rewrite Hb in Hbranch.
    apply Z.eqb_neq in Hbutton. rewrite Hbutton in Hbranch.
    cbn [andb] in Hbranch. destruct Hbranch as [Hnew Hone]. now split.
Qed.

Lemma mask_bit_range k : 0 <= mask_bit k < 16.
Proof. destruct k; cbn; lia. Qed.

Lemma uint16_t_bit v j : 0 <= j < 16 -> Z.testbit (uint16_t v) j = Z.testbit v j.
Proof.
  intros Hj. unfold uint16_t, to_unsigned. apply Z.mod_pow2_bits_low. lia.
Qed.

Lemma set_modifier_mask_held k k' s :
  held k (set_modifier_mask (key_mask k') s) =
    if mask_bit k' =? mask_bit k then true else held k s.
Proof.
  pose proof (mask_bit_range k) as Hk. pose proof (mask_bit_range k') as Hk'.
  unfold held, set_modifier_mask, key_mask. cbn [current_modifiers with_current_modifiers].
  rewrite uint16_t_bit, Z.lor_spec, Z.shiftl_1_l, Z.pow2_bits_eqb by lia.
  destruct (mask_bit k' =? mask_bit k); [apply orb_true_r | apply orb_false_r].
Qed.

Lemma unset_modifier_mask_held k k' s :
  held k (unset_modifier_mask (key_mask k') s) =
    if mask_bit k' =? mask_bit k then false else held k s.
Proof.
  pose proof (mask_bit_range k) as Hk. pose proof (mask_bit_range k') as Hk'.
  unfold held, unset_modifier_mask, key_mask.
  cbn [current_modifiers with_current_modifiers].
  rewrite uint16_t_bit, Z.land_spec, Z.lnot_spec, Z.shiftl_1_l, Z.pow2_bits_eqb by lia.
  destruct (mask_bit k' =? mask_bit k); [apply andb_false_r | apply andb_true_r].
Qed.

Lemma modifier_of_keyboard_key vkCode :
  modifier_of key_modifiers vkCode = option_map key_mask (keyboard_key vkCode).
Proof.
  unfold keyboard_key, key_modifiers. cbn [modifier_of find virtual_key].
  repeat match goal with
         | |- context [vkCode =? ?c] => destruct (vkCode =? c); [reflexivity |]
         end.
  reflexivity.
Qed.

Lemma key_typed_current_modifiers kbhook timestamp chars s :
  current_modifiers (fold_left (key_typed kbhook timestamp) chars s) = current_modifiers s.
Proof.
  revert s. induction chars as [| c chars IH]; intros s; [reflexivity |].
  cbn [fold_left]. rewrite IH. unfold key_typed. hook_frame. reflexivity.
Qed.

Lemma process_key_pressed_held k kbhook s :
  held k (process_key_pressed kbhook s) =
    match keyboard_key (kb_vkCode kbhook) with
    | Some k' => if mask_bit k' =? mask_bit k then true else held k s
    | None => held k s
    end.
Proof.
  unfold process_key_pressed. cbv zeta.
  rewrite modifier_of_keyboard_key.
  assert (Hframe : forall t,
            held k (if not_consumed (event (dispatch_event t))
                    then fold_left (key_typed kbhook (kb_time kbhook))
                           (keycode_to_unicode (kb_vkCode kbhook)) (dispatch_event t)
                    else dispatch_event t)
            = Z.testbit (current_modifiers t) (mask_bit k)).
  { intros t. unfold held.
    destruct (not_consumed (event (dispatch_event t)));
      rewrite ?key_typed_current_modifiers; hook_frame; reflexivity. }
  rewrite Hframe. hook_frame.
  destruct (keyboard_key (kb_vkCode kbhook)) as [k' |]; cbn [option_map].
  - apply set_modifier_mask_held.
  - reflexivity.
Qed.

Lemma process_key_released_held k kbhook s :
  held k (process_key_released kbhook s) =
    match keyboard_key (kb_vkCode kbhook) with
    | Some k' => if mask_bit k' =? mask_bit k then false else held k s
    | None => held k s
    end.
Proof.
  unfold process_key_released, held. cbv zeta.
  rewrite modifier_of_keyboard_key. hook_frame.
  destruct (keyboard_key (kb_vkCode kbhook)) as [k' |]; cbn [option_map].
  - apply unset_modifier_mask_held.
  - reflexivity.
Qed.

Lemma process_button_pressed_held k mshook button s :
  held k (process_button_pressed mshook button s) = held k s.
Proof.
  unfold held.
  destruct (process_button_pressed_tracking mshook button s) as (_ & _ & _ & Hm & _).
  now rewrite Hm.
Qed.

Lemma process_button_released_held k mshook button s :
  held k (process_button_released mshook button s) = held k s.
Proof.
  unfold held.
  destruct (process_button_released_trace mshook button s) as (_ & _ & Hm & _).
  now rewrite Hm.
Qed.

Lemma process_mouse_moved_held k mshook s :
  held k (process_mouse_moved mshook s) = held k s.
Proof.
  unfold held. pose proof (process_mouse_moved_trace mshook s) as Htrace.
  cbv zeta in Htrace.
  destruct (same_position (last_click s) (ms_pt mshook)).
  - now rewrite Htrace.
  - destruct Htrace as (_ & _ & Hm & _). now rewrite Hm.
Qed.

Lemma process_mouse_wheel_held k mshook direction s :
  held k (process_mouse_wheel mshook direction s) = held k s.
Proof.
  unfold held.
  destruct (process_mouse_wheel_tracking mshook direction s) as (_ & _ & _ & _ & Hm).
  now rewrite Hm.
Qed.

Lemma hook_result_held k (s : hook_state) (propagate : bool) msg :
  held k (if propagate then s else logger LOG_LEVEL_DEBUG msg s) = held k s.
Proof. destruct propagate; reflexivity. Qed.

(** One notification off the extra-button branches moves the bit of [k] as
    its press or release says, and leaves it alone otherwise. *)
Lemma hook_event_proc_held k n s :
  extra_button n = false ->
  held k (hook_event_proc n s) =
    match key_action n with
    | Some (k', press) => if mask_bit k' =? mask_bit k then press else held k s
    | None => held k s
    end.
Proof.
  destruct n as [nCode wParam kbhook | nCode wParam mshook];
    cbn [extra_button hook_event_proc key_action]; intros Hstd.
  - unfold keyboard_hook_event_proc. cbv zeta. cbn [fst].
    rewrite hook_result_held.
    destruct ((wParam =? WM_KEYDOWN) || (wParam =? WM_SYSKEYDOWN)).
    + rewrite process_key_pressed_held.
      destruct (keyboard_key (kb_vkCode kbhook)); reflexivity.
    + destruct ((wParam =? WM_KEYUP) || (wParam =? WM_SYSKEYUP)).
      * rewrite process_key_released_held.
        destruct (keyboard_key (kb_vkCode kbhook)); reflexivity.
      * reflexivity.
  - unfold mouse_hook_event_proc. cbv zeta. cbn [fst].
    rewrite hook_result_held. unfold is_x_button_message in Hstd.
    destruct (wParam =? WM_LBUTTONDOWN).
    { rewrite process_button_pressed_held. apply (set_modifier_mask_held k BUTTON1). }
    destruct (wParam =? WM_RBUTTONDOWN).
    { rewrite process_button_pressed_held. apply (set_modifier_mask_held k BUTTON2). }
    destruct (wParam =? WM_MBUTTONDOWN).
    { rewrite process_button_pressed_held. apply (set_modifier_mask_held k BUTTON3). }
    destruct ((wParam =? WM_XBUTTONDOWN) || (wParam =? WM_NCXBUTTONDOWN)) eqn:Edown.
    { destruct (HIWORD (ms_mouseData mshook) =? XBUTTON1) eqn:E1.
      { rewrite process_button_pressed_held. apply (set_modifier_mask_held k BUTTON4). }
      destruct (HIWORD (ms_mouseData mshook) =? XBUTTON2) eqn:E2.
      { rewrite process_button_pressed_held. apply (set_modifier_mask_held k BUTTON5). }
      discriminate Hstd. }
    cbn [orb] in Hstd.
    destruct (wParam =? WM_LBUTTONUP).
    { rewrite process_button_released_held. apply (unset_modifier_mask_held k BUTTON1). }
    destruct (wParam =? WM_RBUTTONUP).
    { rewrite process_button_released_held. apply (unset_modifier_mask_held k BUTTON2). }
    destruct (wParam =? WM_MBUTTONUP).
    { rewrite process_button_released_held. apply (unset_modifier_mask_held k BUTTON3). }
    destruct ((wParam =? WM_XBUTTONUP) || (wParam =? WM_NCXBUTTONUP)) eqn:Eup.
    { destruct (HIWORD (ms_mouseData mshook) =? XBUTTON1) eqn:E1.
      { rewrite process_button_released_held. apply (unset_modifier_mask_held k BUTTON4). }
      destruct (HIWORD (ms_mouseData mshook) =? XBUTTON2) eqn:E2.
      { rewrite process_button_released_held. apply (unset_modifier_mask_held k BUTTON5). }
      discriminate Hstd. }
    destruct (wParam =? WM_MOUSEMOVE); [apply process_mouse_moved_held |].
    destruct (wParam =? WM_MOUSEWHEEL); [apply process_mouse_wheel_held |].
    destruct (wParam =? WM_MOUSEHWHEEL); [apply process_mouse_wheel_held |].
    reflexivity.
Qed.

(** Off the extra-button branches, after any sequence of notifications the
    mask bit of every tracked key says whether the last notification about the
    key was a press (the bit it had before, when there was none). *)
Theorem modifier_mask_tracks_keys k ns s :
  forallb (fun n => negb (extra_button n)) ns = true ->
  held k (process_all ns s) = pressed_last k ns (held k s).
Proof.
  revert s. induction ns as [| n ns IH]; intros s Hstd; [reflexivity |].
  cbn [forallb] in Hstd. apply andb_true_iff in Hstd. destruct Hstd as [Hn Hns].
  apply negb_true_iff in Hn.
  unfold process_all, pressed_last. cbn [fold_left].
  fold (process_all ns (hook_event_proc n s)).
  rewrite (IH _ Hns), (hook_event_proc_held k n s Hn).
  unfold pressed_last. destruct (key_action n) as [[k' press] |]; reflexivity.
Qed.

Lemma initial_keys_order :
  initial_keys = map (fun k => (virtual_key k, key_mask k)) initial_order.
Proof. reflexivity. Qed.

Lemma initialize_fold_held k ks s :
  held k
    (fold_left
       (fun s km => if GetKeyState (fst km) <? 0 then set_modifier_mask (snd km) s else s)
       (map (fun k' => (virtual_key k', key_mask k')) ks) s)
  = held k s
    || existsb (fun k' => (mask_bit k' =? mask_bit k) && (GetKeyState (virtual_key k') <? 0))
         ks.
Proof.
  revert s. induction ks as [| k' ks IH]; intros s; cbn [map fold_left existsb fst snd].
  - now rewrite orb_false_r.
  - rewrite IH. destruct (GetKeyState (virtual_key k') <? 0).
    + rewrite set_modifier_mask_held.
      destruct (mask_bit k' =? mask_bit k); cbn [andb orb];
        [now rewrite orb_true_r | reflexivity].
    + now rewrite andb_false_r.
Qed.

(** After [initialize_modifiers] the bit of each tracked key says whether
    [GetKeyState] reported the key down. *)
Lemma initialize_modifiers_held k s :
  held k (initialize_modifiers s) = (GetKeyState (virtual_key k) <? 0).
Proof.
  unfold initialize_modifiers. rewrite initial_keys_order, initialize_fold_held.
  assert (Hzero : held k (with_current_modifiers 0 s) = false).
  { unfold held. cbn [current_modifiers with_current_modifiers]. apply Z.bits_0. }
  rewrite Hzero. cbn [orb].
  destruct k; cbn [initial_order existsb mask_bit Z.eqb Pos.eqb andb orb];
    rewrite ?orb_false_r; reflexivity.
Qed.

(** The mask invariant on the paths that keep it: from initialization on,
    through any notifications off the extra-button branches, the bit of each
    tracked key is set exactly when the last notification about the key was a
    press (when the key was down at initialization, if there was none). *)
Theorem modifier_mask_invariant k ns s :
  forallb (fun n => negb (extra_button n)) ns = true ->
  held k (process_all ns (initialize_modifiers s)) =
    pressed_last k ns (GetKeyState (virtual_key k) <? 0).
Proof.
  intros Hstd. rewrite (modifier_mask_tracks_keys k ns _ Hstd).
  now rewrite initialize_modifiers_held.
Qed.

Lemma key_typed_dispatched kbhook chars s :
  dispatched (fold_left (key_typed kbhook (kb_time kbhook)) chars s)
  = dispatched s ++ map (key_typed_event kbhook (current_modifiers s)) chars.
Proof.
  revert s. induction chars as [| c chars IH]; intros s; cbn [fold_left map].
  - now rewrite app_nil_r.
  - rewrite IH. unfold key_typed. hook_frame.
    rewrite <- app_assoc. reflexivity.
Qed.

Lemma process_key_pressed_trace kbhook s :
  let modifiers := pressed_modifiers (kb_vkCode kbhook) s in
  let pressed := key_event EVENT_KEY_PRESSED kbhook modifiers in
  dispatched (process_key_pressed kbhook s) =
    dispatched s ++ pressed ::
      (if not_consumed (sink_response pressed (dispatch_data s))
       then map (key_typed_event kbhook modifiers) (keycode_to_unicode (kb_vkCode kbhook))
       else []).
Proof.
  unfold process_key_pressed, pressed_modifiers. cbv zeta.
  rewrite dispatch_event_event.
  assert (Hmod : forall t : hook_state,
            current_modifiers
              match modifier_of key_modifiers (kb_vkCode kbhook) with
              | Some m => set_modifier_mask m t
              | None => t
              end
            = match modifier_of key_modifiers (kb_vkCode kbhook) with
              | Some m => uint16_t (Z.lor (current_modifiers t) m)
              | None => current_modifiers t
              end).
  { intros t. destruct (modifier_of key_modifiers (kb_vkCode kbhook)); reflexivity. }
  assert (Hdisp : forall t : hook_state,
            dispatched
              match modifier_of key_modifiers (kb_vkCode kbhook) with
              | Some m => set_modifier_mask m t
              | None => t
              end = dispatched t).
  { intros t. destruct (modifier_of key_modifiers (kb_vkCode kbhook)); reflexivity. }
  assert (Hdata : forall t : hook_state,
            dispatch_data
              match modifier_of key_modifiers (kb_vkCode kbhook) with
              | Some m => set_modifier_mask m t
              | None => t
              end = dispatch_data t).
  { intros t. destruct (modifier_of key_modifiers (kb_vkCode kbhook)); reflexivity. }
  hook_frame. rewrite Hmod, Hdata.
  fold (key_event EVENT_KEY_PRESSED kbhook
          match modifier_of key_modifiers (kb_vkCode kbhook) with
          | Some m => uint16_t (Z.lor (current_modifiers s) m)
          | None => current_modifiers s
          end).
  destruct (not_consumed _).
  - rewrite key_typed_dispatched. hook_frame. rewrite Hmod, Hdisp.
    rewrite <- app_assoc. reflexivity.
  - hook_frame. rewrite Hdisp. reflexivity.
Qed.

(** A key press is dispatched as one pressed event with the mask as the
    press leaves it; when the sink does not consume it, one typed event
    follows for each character of the key, in order, and none otherwise. *)
Theorem process_key_pressed_events kbhook s :
  let modifiers := pressed_modifiers (kb_vkCode kbhook) s in
  let pressed := key_event EVENT_KEY_PRESSED kbhook modifiers in
  dispatched (process_key_pressed kbhook s) =
    dispatched s ++ pressed ::
      (if not_consumed (sink_response pressed (dispatch_data s))
       then map (key_typed_event kbhook modifiers) (keycode_to_unicode (kb_vkCode kbhook))
       else []).
Proof. apply process_key_pressed_trace. Qed.

(** Both hook procedures hand the notification on to the next hook unless
    [nCode] is non-negative and the last event they dispatched came back
    consumed. *)
Theorem hook_procedures_propagation nCode wParam kbhook mshook s :
  snd (keyboard_hook_event_proc nCode wParam kbhook s) =
    ((nCode <? 0)
     || not_consumed (event (fst (keyboard_hook_event_proc nCode wParam kbhook s))))
  /\ snd (mouse_hook_event_proc nCode wParam mshook s) =
       ((nCode <? 0)
        || not_consumed (event (fst (mouse_hook_event_proc nCode wParam mshook s)))).
Proof.
  assert (Hevent : forall (b : bool) msg (t : hook_state),
            event (if b then t else logger LOG_LEVEL_DEBUG msg t) = event t)
    by (intros [] msg t; reflexivity).
  unfold keyboard_hook_event_proc, mouse_hook_event_proc, hook_result. cbv zeta.
  cbn [fst snd]. rewrite !Hevent. split; reflexivity.
Qed.

(** *** The wheel event *)

(** A wheel notification is dispatched as one wheel event: block scrolling
    with amount 1 when the system scrolls by pages, unit scrolling with the
    configured number of lines otherwise; the rotation is the signed high word
    of [mouseData], negated on the vertical axis. *)
Theorem process_mouse_wheel_event mshook direction s :
  let delta := int16_t (HIWORD (ms_mouseData mshook)) in
  exists w,
    dispatched (process_mouse_wheel mshook direction s) =
      dispatched s ++
        [ {| type := EVENT_MOUSE_WHEEL; time := ms_time mshook;
             mask := current_modifiers s; reserved := 0x00; data := wheel w |} ]
    /\ wheel_type w = (if wheel_scroll_lines =? WHEEL_PAGESCROLL
                       then WHEEL_BLOCK_SCROLL else WHEEL_UNIT_SCROLL)
    /\ amount w = (if wheel_scroll_lines =? WHEEL_PAGESCROLL
                   then 1 else uint16_t wheel_scroll_lines)
    /\ rotation w = (if direction =? WHEEL_VERTICAL_DIRECTION
                     then int16_t (- delta) else delta)
    /\ Uiohook.direction w = direction
    /\ wheel_clicks w = 1
    /\ wheel_x w = int16_t (pt_x (ms_pt mshook))
    /\ wheel_y w = int16_t (pt_y (ms_pt mshook)).
Proof.
  intros delta. unfold process_mouse_wheel. cbv zeta. hook_frame.
  eexists. split; [reflexivity |].
  cbn [wheel_type amount rotation Uiohook.direction wheel_clicks wheel_x wheel_y].
  unfold get_scroll_wheel_type, get_scroll_wheel_amount.
  repeat split.
  fold delta. destruct (direction =? WHEEL_VERTICAL_DIRECTION); [| reflexivity].
  f_equal. lia.
Qed.

(** On the extra-button branch of a press, the number of the button is
    or-ed into the mask as if it were a mask. *)
Lemma extra_button_press_modifiers nCode wParam mshook s :
  (wParam =? WM_XBUTTONDOWN) || (wParam =? WM_NCXBUTTONDOWN) = true ->
  HIWORD (ms_mouseData mshook) = 4 \/ HIWORD (ms_mouseData mshook) = 5 ->
  current_modifiers (fst (mouse_hook_event_proc nCode wParam mshook s)) =
    uint16_t (Z.lor (current_modifiers s) (HIWORD (ms_mouseData mshook))).
Proof.
  intros Hdown Hhi. unfold mouse_hook_event_proc. cbv zeta. cbn [fst].
  assert (Hframe : forall (b : bool) msg (t : hook_state),
            current_modifiers (if b then t else logger LOG_LEVEL_DEBUG msg t)
            = current_modifiers t) by (intros [] msg t; reflexivity).
  rewrite Hframe.
  assert (Hl : (wParam =? WM_LBUTTONDOWN) = false).
  { apply Z.eqb_neq. intros ->. discriminate Hdown. }
  assert (Hr : (wParam =? WM_RBUTTONDOWN) = false).
  { apply Z.eqb_neq. intros ->. discriminate Hdown. }
  assert (Hm : (wParam =? WM_MBUTTONDOWN) = false).
  { apply Z.eqb_neq. intros ->. discriminate Hdown. }
  rewrite Hl, Hr, Hm, Hdown.
  assert (Hword : uint16_t (HIWORD (ms_mouseData mshook)) = HIWORD (ms_mouseData mshook)).
  { destruct Hhi as [-> | ->]; reflexivity. }
  rewrite Hword.
  destruct Hhi as [Hhi | Hhi]; rewrite Hhi; cbn [Z.eqb Pos.eqb XBUTTON1 XBUTTON2];
    match goal with
    | |- context [process_button_pressed ?m ?b ?t] =>
        destruct (process_button_pressed_tracking m b t) as (_ & _ & _ & Hmod & _);
        rewrite Hmod
    end; reflexivity.
Qed.

(** *** The click tracker across notifications *)

Lemma tracked_click_eq (s t : hook_state) :
  tracked_click s = tracked_click t ->
  click_count s = click_count t /\ click_time s = click_time t
  /\ click_button s = click_button t /\ last_click s = last_click t.
Proof. unfold tracked_click. intros H. injection H. auto. Qed.

Lemma key_typed_tracked_click kbhook timestamp chars s :
  tracked_click (fold_left (key_typed kbhook timestamp) chars s) = tracked_click s.
Proof.
  revert s. induction chars as [| c chars IH]; intros s; [reflexivity |].
  cbn [fold_left]. rewrite IH. unfold key_typed, tracked_click. hook_frame. reflexivity.
Qed.

Lemma process_key_pressed_tracked_click kbhook s :
  tracked_click (process_key_pressed kbhook s) = tracked_click s.
Proof.
  unfold process_key_pressed. cbv zeta.
  assert (Hframe : forall t,
            tracked_click (if not_consumed (event (dispatch_event t))
                           then fold_left (key_typed kbhook (kb_time kbhook))
                                  (keycode_to_unicode (kb_vkCode kbhook)) (dispatch_event t)
                           else dispatch_event t)
            = tracked_click t).
  { intros t. destruct (not_consumed (event (dispatch_event t)));
      rewrite ?key_typed_tracked_click; unfold tracked_click; hook_frame; reflexivity. }
  rewrite Hframe.
  destruct (modifier_of key_modifiers (kb_vkCode kbhook)); reflexivity.
Qed.

Lemma process_key_released_tracked_click kbhook s :
  tracked_click (process_key_released kbhook s) = tracked_click s.
Proof.
  unfold process_key_released, tracked_click. cbv zeta. hook_frame.
  destruct (modifier_of key_modifiers (kb_vkCode kbhook)); reflexivity.
Qed.

Lemma verdict_tracked_click (propagate : bool) msg (s : hook_state) :
  tracked_click (if propagate then s else logger LOG_LEVEL_DEBUG msg s) = tracked_click s.
Proof. destruct propagate; reflexivity. Qed.

Lemma process_button_released_tracked_click mshook button s :
  elapsed (ms_time mshook) (click_time s) <= hook_get_multi_click_time ->
  tracked_click (process_button_released mshook button s) = tracked_click s.
Proof.
  intros Hle.
  destruct (process_button_released_trace mshook button s) as (_ & Hc & _ & Hb & Ht & Hl).
  unfold tracked_click. rewrite Hc, Hb, Ht, Hl.
  assert (E : (elapsed (ms_time mshook) (click_time s) >? hook_get_multi_click_time) = false)
    by (rewrite Z.gtb_ltb; apply Z.ltb_ge; exact Hle).
  rewrite E, andb_false_r. reflexivity.
Qed.

Lemma process_mouse_moved_tracked_click mshook s :
  elapsed (ms_time mshook) (click_time s) <= hook_get_multi_click_time ->
  tracked_click (process_mouse_moved mshook s) = tracked_click s.
Proof.
  intros Hle. pose proof (process_mouse_moved_trace mshook s) as Htrace.
  cbv zeta in Htrace.
  destruct (same_position (last_click s) (ms_pt mshook)); [now rewrite Htrace |].
  destruct Htrace as (Hc & _ & _ & Hb & Ht & Hl).
  unfold tracked_click. rewrite Hc, Hb, Ht, Hl.
  assert (E : (elapsed (ms_time mshook) (click_time s) >? hook_get_multi_click_time) = false)
    by (rewrite Z.gtb_ltb; apply Z.ltb_ge; exact Hle).
  rewrite E, andb_false_r. reflexivity.
Qed.

(** Between the presses of a streak the tracker stays as the last press
    left it. *)
Lemma within_streak_tracked_click n s :
  within_streak (click_time s) n = true ->
  tracked_click (hook_event_proc n s) = tracked_click s.
Proof.
  destruct n as [nCode wParam kbhook | nCode wParam mshook];
    cbn [within_streak hook_event_proc]; intros Hin.
  - unfold keyboard_hook_event_proc. cbv zeta. cbn [fst].
    rewrite verdict_tracked_click.
    destruct ((wParam =? WM_KEYDOWN) || (wParam =? WM_SYSKEYDOWN));
      [apply process_key_pressed_tracked_click |].
    destruct ((wParam =? WM_KEYUP) || (wParam =? WM_SYSKEYUP));
      [apply process_key_released_tracked_click | reflexivity].
  - apply andb_true_iff in Hin. destruct Hin as [Hin Hle].
    apply andb_true_iff in Hin. destruct Hin as [Hpress Hwheel].
    apply Z.leb_le in Hle.
    apply negb_true_iff in Hpress. apply negb_true_iff in Hwheel.
    unfold is_press_message in Hpress. unfold is_wheel_message in Hwheel.
    apply orb_false_iff in Hpress. destruct Hpress as [Hpress Hncx].
    apply orb_false_iff in Hpress. destruct Hpress as [Hpress Hx].
    apply orb_false_iff in Hpress. destruct Hpress as [Hpress Hm].
    apply orb_false_iff in Hpress. destruct Hpress as [Hl Hr].
    apply orb_false_iff in Hwheel. destruct Hwheel as [Hv Hh].
    unfold mouse_hook_event_proc. cbv zeta. cbn [fst].
    rewrite verdict_tracked_click.
    rewrite Hl, Hr, Hm, Hx, Hncx, Hv, Hh. cbn [orb].
    assert (Hunset : forall m,
              elapsed (ms_time mshook) (click_time (unset_modifier_mask m s))
              <= hook_get_multi_click_time) by (intros m; exact Hle).
    destruct (wParam =? WM_LBUTTONUP);
      [now rewrite process_button_released_tracked_click |].
    destruct (wParam =? WM_RBUTTONUP);
      [now rewrite process_button_released_tracked_click |].
    destruct (wParam =? WM_MBUTTONUP);
      [now rewrite process_button_released_tracked_click |].
    destruct ((wParam =? WM_XBUTTONUP) || (wParam =? WM_NCXBUTTONUP)).
    { destruct (HIWORD (ms_mouseData mshook) =? XBUTTON1);
        [now rewrite process_button_released_tracked_click |].
      destruct (HIWORD (ms_mouseData mshook) =? XBUTTON2);
        [now rewrite process_button_released_tracked_click |].
      cbv zeta.
      destruct (uint16_t (HIWORD (ms_mouseData mshook)) =? 4);
        [now rewrite process_button_released_tracked_click |].
      destruct (uint16_t (HIWORD (ms_mouseData mshook)) =? 5);
        now rewrite process_button_released_tracked_click. }
    destruct (wParam =? WM_MOUSEMOVE);
      [now apply process_mouse_moved_tracked_click | reflexivity].
Qed.

Lemma within_streak_process_all ns s :
  forallb (within_streak (click_time s)) ns = true ->
  tracked_click (process_all ns s) = tracked_click s.
Proof.
  revert s. induction ns as [| n ns IH]; intros s Hns; [reflexivity |].
  cbn [forallb] in Hns. apply andb_true_iff in Hns. destruct Hns as [Hn Hns].
  pose proof (within_streak_tracked_click n s Hn) as Hstep.
  unfold process_all. cbn [fold_left]. fold (process_all ns (hook_event_proc n s)).
  assert (Ht : click_time (hook_event_proc n s) = click_time s)
    by apply (tracked_click_eq _ _ Hstep).
  rewrite IH by (rewrite Ht; exact Hns). exact Hstep.
Qed.

(** A second press of the button of a streak, within the multi-click
    interval of the first, reports one click more than the first (the count
    stays at [USHRT_MAX] once it is there), whatever keyboard notifications,
    releases and moves arrived in between within the interval. *)
Theorem click_streak_continues first ns second button s0 :
  let s := process_button_pressed first button s0 in
  let s1 := process_all ns s in
  let s2 := process_button_pressed second button s1 in
  forallb (within_streak (ms_time first)) ns = true ->
  elapsed (ms_time second) (ms_time first) <= hook_get_multi_click_time ->
  click_count s2 = (if click_count s <? USHRT_MAX then click_count s + 1 else click_count s)
  /\ click_button s2 = button
  /\ click_time s2 = ms_time second
  /\ dispatched s2 =
       dispatched s1 ++ [mouse_button_event EVENT_MOUSE_PRESSED second button s2].
Proof.
  intros s s1 s2 Hns Hle.
  destruct (process_button_pressed_tracking first button s0) as (Ht & _ & _ & _ & Hfirst).
  fold s in Ht, Hfirst.
  assert (Hb : click_button s = button).
  { destruct ((button =? click_button s0)
              && (elapsed (ms_time first) (click_time s0) <=? hook_get_multi_click_time))
      eqn:E.
    - apply andb_true_iff in E. destruct E as [E _]. apply Z.eqb_eq in E.
      destruct Hfirst as [Hsame _]. congruence.
    - destruct Hfirst as [Hnew _]. exact Hnew. }
  assert (Hkeep : tracked_click s1 = tracked_click s).
  { apply within_streak_process_all. rewrite Ht. exact Hns. }
  destruct (tracked_click_eq _ _ Hkeep) as (Hc1 & Ht1 & Hb1 & _).
  destruct (process_button_pressed_tracking second button s1)
    as (Ht2 & _ & _ & _ & Hsecond).
  fold s2 in Ht2, Hsecond.
  assert (E : (button =? click_button s1)
              && (elapsed (ms_time second) (click_time s1) <=? hook_get_multi_click_time)
              = true).
  { apply andb_true_iff. split.
    - apply Z.eqb_eq. congruence.
    - apply Z.leb_le. rewrite Ht1, Ht. exact Hle. }
  rewrite E in Hsecond. destruct Hsecond as (Hb2 & Hc2 & _).
  split; [rewrite Hc2, Hc1; reflexivity |].
  split; [congruence |]. split; [exact Ht2 |].
  unfold s2, process_button_pressed. cbv zeta. rewrite E.
  unfold mouse_button_event.
  destruct (click_count s1 <? USHRT_MAX); hook_frame; reflexivity.
Qed.

(** *** The ranges of the trackers *)

Lemma uint16_t_range v : 0 <= uint16_t v <= USHRT_MAX.
Proof.
  unfold uint16_t, to_unsigned, USHRT_MAX.
  pose proof (Z.mod_pos_bound v (2 ^ 16) eq_refl) as H.
  change (2 ^ 16) with 65536 in *. lia.
Qed.

Lemma set_modifier_mask_ranges m s :
  tracker_ranges s -> tracker_ranges (set_modifier_mask m s).
Proof. intros [Hc _]. split; [exact Hc | apply uint16_t_range]. Qed.

Lemma unset_modifier_mask_ranges m s :
  tracker_ranges s -> tracker_ranges (unset_modifier_mask m s).
Proof. intros [Hc _]. split; [exact Hc | apply uint16_t_range]. Qed.

Lemma key_typed_ranges kbhook timestamp chars s :
  tracker_ranges s -> tracker_ranges (fold_left (key_typed kbhook timestamp) chars s).
Proof.
  unfold tracker_ranges. rewrite key_typed_current_modifiers.
  destruct (tracked_click_eq _ _ (key_typed_tracked_click kbhook timestamp chars s))
    as (-> & _). trivial.
Qed.

Lemma process_key_pressed_current_modifiers kbhook s :
  current_modifiers (process_key_pressed kbhook s) = pressed_modifiers (kb_vkCode kbhook) s.
Proof.
  unfold process_key_pressed, pressed_modifiers. cbv zeta.
  assert (Hframe : forall t,
            current_modifiers (if not_consumed (event (dispatch_event t))
                               then fold_left (key_typed kbhook (kb_time kbhook))
                                      (keycode_to_unicode (kb_vkCode kbhook))
                                      (dispatch_event t)
                               else dispatch_event t)
            = current_modifiers t).
  { intros t. destruct (not_consumed (event (dispatch_event t)));
      rewrite ?key_typed_current_modifiers; hook_frame; reflexivity. }
  rewrite Hframe. hook_frame.
  destruct (modifier_of key_modifiers (kb_vkCode kbhook)); reflexivity.
Qed.

Lemma process_key_released_current_modifiers kbhook s :
  current_modifiers (process_key_released kbhook s)
  = released_modifiers (kb_vkCode kbhook) s.
Proof.
  unfold process_key_released, released_modifiers. cbv zeta. hook_frame.
  destruct (modifier_of key_modifiers (kb_vkCode kbhook)); reflexivity.
Qed.

Lemma process_key_pressed_ranges kbhook s :
  tracker_ranges s -> tracker_ranges (process_key_pressed kbhook s).
Proof.
  intros [Hc Hm]. unfold tracker_ranges.
  rewrite process_key_pressed_current_modifiers.
  destruct (tracked_click_eq _ _ (process_key_pressed_tracked_click kbhook s)) as (-> & _).
  split; [exact Hc |]. unfold pressed_modifiers.
  destruct (modifier_of key_modifiers (kb_vkCode kbhook));
    [apply uint16_t_range | exact Hm].
Qed.

Lemma process_key_released_ranges kbhook s :
  tracker_ranges s -> tracker_ranges (process_key_released kbhook s).
Proof.
  intros [Hc Hm]. unfold tracker_ranges.
  rewrite process_key_released_current_modifiers.
  destruct (tracked_click_eq _ _ (process_key_released_tracked_click kbhook s))
    as (-> & _).
  split; [exact Hc |]. unfold released_modifiers.
  destruct (modifier_of key_modifiers (kb_vkCode kbhook));
    [apply uint16_t_range | exact Hm].
Qed.

Lemma process_button_pressed_ranges mshook button s :
  tracker_ranges s -> tracker_ranges (process_button_pressed mshook button s).
Proof.
  intros [Hc Hm]. unfold tracker_ranges.
  destruct (process_button_pressed_tracking mshook button s)
    as (_ & _ & _ & -> & Hbranch).
  split; [| exact Hm].
  destruct ((button =? click_button s)
            && (elapsed (ms_time mshook) (click_time s) <=? hook_get_multi_click_time)).
  - destruct Hbranch as (_ & -> & _).
    destruct (click_count s <? USHRT_MAX) eqn:E; [apply Z.ltb_lt in E |]; lia.
  - destruct Hbranch as (_ & ->). unfold USHRT_MAX. lia.
Qed.

Lemma process_button_released_ranges mshook button s :
  tracker_ranges s -> tracker_ranges (process_button_released mshook button s).
Proof.
  intros [Hc Hm]. unfold tracker_ranges.
  destruct (process_button_released_trace mshook button s) as (_ & -> & -> & _).
  split; [| exact Hm].
  destruct ((button =? click_button s)
            && (elapsed (ms_time mshook) (click_time s) >? hook_get_multi_click_time));
    [unfold USHRT_MAX; lia | exact Hc].
Qed.

Lemma process_mouse_moved_ranges mshook s :
  tracker_ranges s -> tracker_ranges (process_mouse_moved mshook s).
Proof.
  intros [Hc Hm]. unfold tracker_ranges.
  pose proof (process_mouse_moved_trace mshook s) as Htrace. cbv zeta in Htrace.
  destruct (same_position (last_click s) (ms_pt mshook)).
  - rewrite Htrace. now split.
  - destruct Htrace as (-> & _ & -> & _). split; [| exact Hm].
    destruct (negb (click_count s =? 0)
              && (elapsed (ms_time mshook) (click_time s) >? hook_get_multi_click_time));
      [unfold USHRT_MAX; lia | exact Hc].
Qed.

Lemma process_mouse_wheel_ranges mshook direction s :
  tracker_ranges s -> tracker_ranges (process_mouse_wheel mshook direction s).
Proof.
  intros [Hc Hm]. unfold tracker_ranges.
  destruct (process_mouse_wheel_tracking mshook direction s) as (-> & _ & _ & _ & ->).
  split; [unfold USHRT_MAX; lia | exact Hm].
Qed.

Lemma verdict_ranges (propagate : bool) msg (s : hook_state) :
  tracker_ranges s ->
  tracker_ranges (if propagate then s else logger LOG_LEVEL_DEBUG msg s).
Proof. destruct propagate; trivial. Qed.

Lemma hook_event_proc_ranges n s :
  tracker_ranges s -> tracker_ranges (hook_event_proc n s).
Proof.
  intros Hs. destruct n as [nCode wParam kbhook | nCode wParam mshook];
    cbn [hook_event_proc].
  - unfold keyboard_hook_event_proc. cbv zeta. cbn [fst]. apply verdict_ranges.
    destruct ((wParam =? WM_KEYDOWN) || (wParam =? WM_SYSKEYDOWN));
      [now apply process_key_pressed_ranges |].
    destruct ((wParam =? WM_KEYUP) || (wParam =? WM_SYSKEYUP));
      [now apply process_key_released_ranges | exact Hs].
  - unfold mouse_hook_event_proc. cbv zeta. cbn [fst]. apply verdict_ranges.
    repeat match goal with
           | |- tracker_ranges (if ?c then _ else _) => destruct c
           | |- tracker_ranges (process_button_pressed _ _ _) =>
               apply process_button_pressed_ranges
           | |- tracker_ranges (process_button_released _ _ _) =>
               apply process_button_released_ranges
           | |- tracker_ranges (process_mouse_moved _ _) =>
               apply process_mouse_moved_ranges
           | |- tracker_ranges (process_mouse_wheel _ _ _) =>
               apply process_mouse_wheel_ranges
           | |- tracker_ranges (set_modifier_mask _ _) => apply set_modifier_mask_ranges
           | |- tracker_ranges (unset_modifier_mask _ _) =>
               apply unset_modifier_mask_ranges
           | |- tracker_ranges _ => exact Hs
           end.
Qed.

(** The click count and the modifier mask stay values of [unsigned short]
    through every sequence of notifications, the extra-button branches
    included: the count never passes [USHRT_MAX] and never wraps to 0. *)
Theorem trackers_stay_in_range ns s :
  tracker_ranges s -> tracker_ranges (process_all ns s).
Proof.
  revert s. induction ns as [| n ns IH]; intros s Hs; [exact Hs |].
  unfold process_all. cbn [fold_left]. apply IH. now apply hook_event_proc_ranges.
Qed.

(** *** The verdict on a notification *)

Lemma propagated_verdict n s :
  propagated n s = (nCode_of n <? 0) || not_consumed (event (hook_event_proc n s)).
Proof.
  assert (Hevent : forall (b : bool) msg (t : hook_state),
            event (if b then t else logger LOG_LEVEL_DEBUG msg t) = event t)
    by (intros [] msg t; reflexivity).
  destruct n as [nCode wParam kbhook | nCode wParam mshook];
    cbn [propagated nCode_of hook_event_proc];
    unfold keyboard_hook_event_proc, mouse_hook_event_proc, hook_result; cbv zeta;
    cbn [fst snd]; rewrite Hevent; reflexivity.
Qed.

(** A notification for which no event is populated dispatches nothing and
    leaves the static event, the click tracker and the mask alone; the verdict
    on it is the verdict on the event that is still in the static buffer: it is
    handed on exactly when [nCode] is negative or that earlier event was not
    consumed. *)
Theorem silent_notification_verdict n s :
  silent n s = true ->
  dispatched (hook_event_proc n s) = dispatched s
  /\ event (hook_event_proc n s) = event s
  /\ tracked_click (hook_event_proc n s) = tracked_click s
  /\ current_modifiers (hook_event_proc n s) = current_modifiers s
  /\ propagated n s = ((nCode_of n <? 0) || not_consumed (event s)).
Proof.
  intros Hsilent.
  assert (Hverdict : forall (b : bool) msg (t : hook_state),
            dispatched t = dispatched s /\ event t = event s
            /\ tracked_click t = tracked_click s
            /\ current_modifiers t = current_modifiers s ->
            let t' := if b then t else logger LOG_LEVEL_DEBUG msg t in
            dispatched t' = dispatched s /\ event t' = event s
            /\ tracked_click t' = tracked_click s
            /\ current_modifiers t' = current_modifiers s)
    by (intros [] msg t Ht; exact Ht).
  assert (Hstep : dispatched (hook_event_proc n s) = dispatched s
                  /\ event (hook_event_proc n s) = event s
                  /\ tracked_click (hook_event_proc n s) = tracked_click s
                  /\ current_modifiers (hook_event_proc n s) = current_modifiers s).
  { destruct n as [nCode wParam kbhook | nCode wParam mshook];
      cbn [silent hook_event_proc] in *.
    - apply negb_true_iff in Hsilent. unfold is_key_message in Hsilent.
      rewrite <- orb_assoc in Hsilent.
      apply orb_false_iff in Hsilent. destruct Hsilent as [Hdown Hup].
      unfold keyboard_hook_event_proc. cbv zeta. cbn [fst].
      rewrite Hdown, Hup.
      apply Hverdict. repeat split.
    - unfold mouse_hook_event_proc. cbv zeta. cbn [fst].
      destruct (wParam =? WM_MOUSEMOVE) eqn:Emove.
      + apply Z.eqb_eq in Emove. subst wParam.
        cbn [Z.eqb Pos.eqb WM_MOUSEMOVE WM_LBUTTONDOWN WM_RBUTTONDOWN WM_MBUTTONDOWN
             WM_XBUTTONDOWN WM_NCXBUTTONDOWN WM_LBUTTONUP WM_RBUTTONUP WM_MBUTTONUP
             WM_XBUTTONUP WM_NCXBUTTONUP orb].
        pose proof (process_mouse_moved_trace mshook s) as Htrace. cbv zeta in Htrace.
        rewrite Hsilent in Htrace. rewrite Htrace.
        apply Hverdict. repeat split.
      + apply negb_true_iff in Hsilent.
        apply orb_false_iff in Hsilent. destruct Hsilent as [Hsilent Hwheel].
        apply orb_false_iff in Hsilent. destruct Hsilent as [Hpress Hrelease].
        unfold is_press_message in Hpress. unfold is_release_message in Hrelease.
        unfold is_wheel_message in Hwheel.
        apply orb_false_iff in Hpress. destruct Hpress as [Hpress Hncx].
        apply orb_false_iff in Hpress. destruct Hpress as [Hpress Hx].
        apply orb_false_iff in Hpress. destruct Hpress as [Hpress Hm].
        apply orb_false_iff in Hpress. destruct Hpress as [Hl Hr].
        apply orb_false_iff in Hrelease. destruct Hrelease as [Hrelease Hncxu].
        apply orb_false_iff in Hrelease. destruct Hrelease as [Hrelease Hxu].
        apply orb_false_iff in Hrelease. destruct Hrelease as [Hrelease Hmu].
        apply orb_false_iff in Hrelease. destruct Hrelease as [Hlu Hru].
        apply orb_false_iff in Hwheel. destruct Hwheel as [Hv Hh].
        rewrite Hl, Hr, Hm, Hx, Hncx, Hlu, Hru, Hmu, Hxu, Hncxu, Hv, Hh. cbn [orb].
        apply Hverdict. repeat split. }
  destruct Hstep as (Hd & He & Ht & Hm).
  rewrite propagated_verdict, He. repeat split; assumption.
Qed.

Lemma dispatch_event_unconsumed s :
  (forall e d, reserved e = 0 -> not_consumed (sink_response e d) = true) ->
  reserved (event s) = 0 ->
  not_consumed (event (dispatch_event s)) = true.
Proof. intros Hsink Hr. rewrite dispatch_event_event. now apply Hsink. Qed.

Lemma key_typed_unconsumed kbhook timestamp chars s :
  (forall e d, reserved e = 0 -> not_consumed (sink_response e d) = true) ->
  not_consumed (event s) = true ->
  not_consumed (event (fold_left (key_typed kbhook timestamp) chars s)) = true.
Proof.
  intros Hsink. revert s. induction chars as [| c chars IH]; intros s Hs; [exact Hs |].
  cbn [fold_left]. apply IH. unfold key_typed.
  apply dispatch_event_unconsumed; [exact Hsink | reflexivity].
Qed.

Lemma hook_event_proc_unconsumed n s :
  (forall e d, reserved e = 0 -> not_consumed (sink_response e d) = true) ->
  not_consumed (event s) = true ->
  not_consumed (event (hook_event_proc n s)) = true.
Proof.
  intros Hsink Hs.
  assert (Hevent : forall (b : bool) msg (t : hook_state),
            event (if b then t else logger LOG_LEVEL_DEBUG msg t) = event t)
    by (intros [] msg t; reflexivity).
  assert (Hpress : forall mshook button t,
            not_consumed (event (process_button_pressed mshook button t)) = true).
  { intros mshook button t. unfold process_button_pressed. cbv zeta.
    apply dispatch_event_unconsumed; [exact Hsink | reflexivity]. }
  assert (Hrelease : forall mshook button t,
            not_consumed (event (process_button_released mshook button t)) = true).
  { intros mshook button t. unfold process_button_released. cbv zeta.
    assert (Hcount : forall (b : bool) (u : hook_state),
              event (if b then with_click_count 0 u else u) = event u)
      by (intros [] u; reflexivity).
    rewrite Hcount.
    match goal with
    | |- context [if ?c then _ else _] => destruct c
    end; apply dispatch_event_unconsumed; solve [exact Hsink | reflexivity]. }
  assert (Hmove : forall mshook t,
            not_consumed (event t) = true ->
            not_consumed (event (process_mouse_moved mshook t)) = true).
  { intros mshook t Ht. unfold process_mouse_moved. cbv zeta.
    match goal with
    | |- context [if ?c then dispatch_event _ else _] => destruct c
    end; [| exact Ht].
    apply dispatch_event_unconsumed; [exact Hsink | reflexivity]. }
  assert (Hwheel : forall mshook direction t,
            not_consumed (event (process_mouse_wheel mshook direction t)) = true).
  { intros mshook direction t. unfold process_mouse_wheel. cbv zeta.
    apply dispatch_event_unconsumed; [exact Hsink | reflexivity]. }
  destruct n as [nCode wParam kbhook | nCode wParam mshook]; cbn [hook_event_proc].
  - unfold keyboard_hook_event_proc. cbv zeta. cbn [fst]. rewrite Hevent.
    destruct ((wParam =? WM_KEYDOWN) || (wParam =? WM_SYSKEYDOWN)).
    { unfold process_key_pressed. cbv zeta.
      match goal with
      | |- context [if not_consumed (event ?t) then _ else _] =>
          assert (Ht : not_consumed (event t) = true)
            by (apply dispatch_event_unconsumed; [exact Hsink | reflexivity]);
          rewrite Ht; apply key_typed_unconsumed; [exact Hsink | exact Ht]
      end. }
    destruct ((wParam =? WM_KEYUP) || (wParam =? WM_SYSKEYUP)); [| exact Hs].
    unfold process_key_released. cbv zeta.
    apply dispatch_event_unconsumed; [exact Hsink | reflexivity].
  - unfold mouse_hook_event_proc. cbv zeta. cbn [fst]. rewrite Hevent.
    repeat match goal with
           | |- not_consumed (event (if ?c then _ else _)) = true => destruct c
           | |- not_consumed (event (process_button_pressed _ _ _)) = true =>
               apply Hpress
           | |- not_consumed (event (process_button_released _ _ _)) = true =>
               apply Hrelease
           | |- not_consumed (event (process_mouse_wheel _ _ _)) = true => apply Hwheel
           | |- not_consumed (event (process_mouse_moved _ _)) = true => apply Hmove
           | |- not_consumed (event _) = true => exact Hs
           end.
Qed.

Lemma propagations_unconsumed ns s :
  (forall e d, reserved e = 0 -> not_consumed (sink_response e d) = true) ->
  not_consumed (event s) = true ->
  forallb (fun verdict => verdict) (propagations ns s) = true.
Proof.
  intros Hsink. revert s. induction ns as [| n ns IH]; intros s Hs; [reflexivity |].
  cbn [propagations forallb].
  pose proof (hook_event_proc_unconsumed n s Hsink Hs) as Hn.
  rewrite propagated_verdict, Hn, orb_true_r. cbn [andb]. now apply IH.
Qed.

(** With a sink that consumes nothing (in particular with no callback
    registered), and nothing consumed in the static buffer to begin with,
    no notification is ever withheld from the next hook. *)
Theorem unconsumed_events_are_passed_on ns s :
  (forall e d, reserved e = 0 -> not_consumed (sink_response e d) = true) ->
  not_consumed (event s) = true ->
  forallb (fun verdict => verdict) (propagations ns s) = true.
Proof. apply propagations_unconsumed. Qed.

(** *** Key releases *)

Lemma process_key_released_trace kbhook s :
  dispatched (process_key_released kbhook s) =
    dispatched s
    ++ [key_event EVENT_KEY_RELEASED kbhook (released_modifiers (kb_vkCode kbhook) s)].
Proof.
  unfold process_key_released, released_modifiers. cbv zeta. hook_frame.
  unfold key_event.
  destruct (modifier_of key_modifiers (kb_vkCode kbhook)); reflexivity.
Qed.

(** A key release is dispatched as one released event and nothing else; its
    mask is the mask as the release leaves it, in which the bit of a released
    modifier key is already clear and every other bit is as before. *)
Theorem process_key_released_event kbhook s :
  let modifiers := released_modifiers (kb_vkCode kbhook) s in
  dispatched (process_key_released kbhook s) =
    dispatched s ++ [key_event EVENT_KEY_RELEASED kbhook modifiers]
  /\ current_modifiers (process_key_released kbhook s) = modifiers
  /\ forall k,
       Z.testbit modifiers (mask_bit k) =
         match keyboard_key (kb_vkCode kbhook) with
         | Some k' => if mask_bit k' =? mask_bit k then false else held k s
         | None => held k s
         end.
Proof.
  intros modifiers. split; [| split].
  - apply process_key_released_trace.
  - apply process_key_released_current_modifiers.
  - intros k. unfold modifiers. rewrite <- process_key_released_current_modifiers.
    apply process_key_released_held.
Qed.

(** *** The buttons of the extra-button branches *)

(** An X-button notification whose high word is neither [XBUTTON1] nor
    [XBUTTON2] is dispatched, when it is a press, as a press of the button
    numbered by the high word, and when it is a release, as a release of
    [MOUSE_BUTTON5] whatever the high word. *)
Theorem extra_button_events nCode wParam mshook s :
  let number := HIWORD (ms_mouseData mshook) in
  let s' := fst (mouse_hook_event_proc nCode wParam mshook s) in
  number <> XBUTTON1 -> number <> XBUTTON2 ->
  ((wParam =? WM_XBUTTONDOWN) || (wParam =? WM_NCXBUTTONDOWN) = true ->
   exists e m,
     dispatched s' = dispatched s ++ [e]
     /\ type e = EVENT_MOUSE_PRESSED /\ data e = mouse m /\ button m = number)
  /\ ((wParam =? WM_XBUTTONUP) || (wParam =? WM_NCXBUTTONUP) = true ->
      exists e m rest,
        dispatched s' = dispatched s ++ e :: rest
        /\ type e = EVENT_MOUSE_RELEASED /\ data e = mouse m
        /\ button m = MOUSE_BUTTON5).
Proof.
  intros number s' H1 H2.
  apply Z.eqb_neq in H1. apply Z.eqb_neq in H2.
  assert (Hframe : forall (b : bool) msg (t : hook_state),
            dispatched (if b then t else logger LOG_LEVEL_DEBUG msg t) = dispatched t)
    by (intros [] msg t; reflexivity).
  assert (Hword : uint16_t number = number).
  { unfold number, uint16_t, to_unsigned, HIWORD. apply Z.mod_mod. discriminate. }
  assert (Hmask : forall (b c : bool) m m' (t : hook_state),
            dispatched (if b then set_modifier_mask m t
                        else if c then set_modifier_mask m' t else t) = dispatched t)
    by (intros [] [] m m' t; reflexivity).
  assert (Hunmask : forall (b c : bool) m m' (t : hook_state),
            dispatched (if b then unset_modifier_mask m t
                        else if c then unset_modifier_mask m' t else t) = dispatched t
            /\ click_count (if b then unset_modifier_mask m t
                            else if c then unset_modifier_mask m' t else t)
               = click_count t)
    by (intros [] [] m m' t; split; reflexivity).
  split; intros Hmsg.
  - assert (Hl : (wParam =? WM_LBUTTONDOWN) = false)
      by (apply Z.eqb_neq; intros ->; discriminate Hmsg).
    assert (Hr : (wParam =? WM_RBUTTONDOWN) = false)
      by (apply Z.eqb_neq; intros ->; discriminate Hmsg).
    assert (Hm : (wParam =? WM_MBUTTONDOWN) = false)
      by (apply Z.eqb_neq; intros ->; discriminate Hmsg).
    unfold s', mouse_hook_event_proc. cbv zeta. cbn [fst].
    rewrite Hframe, Hl, Hr, Hm, Hmsg. fold number. rewrite H1, H2, Hword.
    unfold process_button_pressed. cbv zeta.
    rewrite dispatch_event_dispatched.
    eexists _, _. split; [| split; [| split]].
    + cbn [dispatched with_event logger event]. f_equal.
      match goal with
      | |- dispatched ?t = _ =>
          assert (Hd : dispatched t = dispatched s); [| exact Hd]
      end.
      match goal with
      | |- context [if ?c then _ else with_click_button _ _] => destruct c
      end.
      * match goal with
        | |- context [if ?c then with_click_count _ _ else _] => destruct c
        end; cbn [dispatched with_last_click with_click_time with_click_count logger];
          apply Hmask.
      * cbn [dispatched with_last_click with_click_time with_click_count
             with_click_button]. apply Hmask.
    + reflexivity.
    + reflexivity.
    + reflexivity.
  - assert (Hl : (wParam =? WM_LBUTTONDOWN) = false)
      by (apply Z.eqb_neq; intros ->; discriminate Hmsg).
    assert (Hr : (wParam =? WM_RBUTTONDOWN) = false)
      by (apply Z.eqb_neq; intros ->; discriminate Hmsg).
    assert (Hm : (wParam =? WM_MBUTTONDOWN) = false)
      by (apply Z.eqb_neq; intros ->; discriminate Hmsg).
    assert (Hx : (wParam =? WM_XBUTTONDOWN) || (wParam =? WM_NCXBUTTONDOWN) = false).
    { apply orb_false_iff. split; apply Z.eqb_neq; intros ->; discriminate Hmsg. }
    assert (Hlu : (wParam =? WM_LBUTTONUP) = false)
      by (apply Z.eqb_neq; intros ->; discriminate Hmsg).
    assert (Hru : (wParam =? WM_RBUTTONUP) = false)
      by (apply Z.eqb_neq; intros ->; discriminate Hmsg).
    assert (Hmu : (wParam =? WM_MBUTTONUP) = false)
      by (apply Z.eqb_neq; intros ->; discriminate Hmsg).
    unfold s', mouse_hook_event_proc. cbv zeta. cbn [fst].
    rewrite Hframe, Hl, Hr, Hm, Hx, Hlu, Hru, Hmu, Hmsg. fold number.
    rewrite H1, H2, Hword.
    match goal with
    | |- context [process_button_released mshook MOUSE_BUTTON5 ?t] =>
        destruct (process_button_released_trace mshook MOUSE_BUTTON5 t) as (Htrace & _);
        rewrite Htrace; destruct (Hunmask (number =? 4) (number =? 5)
                                    MOUSE_BUTTON4 MOUSE_BUTTON5 s) as [Hd _];
        rewrite Hd
    end.
    eexists _, _, _. split; [reflexivity |]. repeat split.
Qed.

(** *** The types of the dispatched events *)

Lemma key_typed_events_input kbhook modifiers chars :
  forallb input_event (map (key_typed_event kbhook modifiers) chars) = true.
Proof. induction chars as [| c chars IH]; [reflexivity | exact IH]. Qed.

Lemma process_key_pressed_input_events kbhook s :
  exists evs,
    dispatched (process_key_pressed kbhook s) = dispatched s ++ evs
    /\ forallb input_event evs = true.
Proof.
  unfold process_key_pressed. cbv zeta.
  assert (Hdisp : forall t : hook_state,
            dispatched
              match modifier_of key_modifiers (kb_vkCode kbhook) with
              | Some m => set_modifier_mask m t
              | None => t
              end = dispatched t).
  { intros t. destruct (modifier_of key_modifiers (kb_vkCode kbhook)); reflexivity. }
  destruct (not_consumed _).
  - rewrite key_typed_dispatched. hook_frame. rewrite Hdisp, <- app_assoc.
    eexists. split; [reflexivity |].
    cbn [app forallb]. apply key_typed_events_input.
  - hook_frame. rewrite Hdisp. eexists. split; reflexivity.
Qed.

Lemma process_key_released_input_events kbhook s :
  exists evs,
    dispatched (process_key_released kbhook s) = dispatched s ++ evs
    /\ forallb input_event evs = true.
Proof.
  unfold process_key_released. cbv zeta. hook_frame.
  assert (Hdisp : forall t : hook_state,
            dispatched
              match modifier_of key_modifiers (kb_vkCode kbhook) with
              | Some m => unset_modifier_mask m t
              | None => t
              end = dispatched t).
  { intros t. destruct (modifier_of key_modifiers (kb_vkCode kbhook)); reflexivity. }
  rewrite Hdisp. eexists. split; reflexivity.
Qed.

Lemma process_button_pressed_input_events mshook button s :
  exists evs,
    dispatched (process_button_pressed mshook button s) = dispatched s ++ evs
    /\ forallb input_event evs = true.
Proof.
  unfold process_button_pressed. cbv zeta. hook_frame.
  match goal with
  | |- context [if ?c then _ else with_click_button _ _] => destruct c
  end.
  - destruct (click_count s <? USHRT_MAX); hook_frame; eexists; split; reflexivity.
  - hook_frame. eexists. split; reflexivity.
Qed.

Lemma process_button_released_input_events mshook button s :
  exists evs,
    dispatched (process_button_released mshook button s) = dispatched s ++ evs
    /\ forallb input_event evs = true.
Proof.
  destruct (process_button_released_trace mshook button s) as (Htrace & _).
  rewrite Htrace. eexists. split; [reflexivity |].
  destruct (not_consumed _ && _); reflexivity.
Qed.

Lemma process_mouse_moved_input_events mshook s :
  exists evs,
    dispatched (process_mouse_moved mshook s) = dispatched s ++ evs
    /\ forallb input_event evs = true.
Proof.
  pose proof (process_mouse_moved_trace mshook s) as Htrace. cbv zeta in Htrace.
  destruct (same_position (last_click s) (ms_pt mshook)).
  - rewrite Htrace. exists []. now rewrite app_nil_r.
  - destruct Htrace as (_ & Hd & _). rewrite Hd. eexists. split; [reflexivity |].
    destruct (negb (Z.land (current_modifiers s) button_mask_range =? 0)); reflexivity.
Qed.

Lemma process_mouse_wheel_input_events mshook direction s :
  exists evs,
    dispatched (process_mouse_wheel mshook direction s) = dispatched s ++ evs
    /\ forallb input_event evs = true.
Proof.
  unfold process_mouse_wheel. cbv zeta. hook_frame. eexists. split; reflexivity.
Qed.

(** A hook procedure dispatches events of the keyboard and of the mouse
    only, after those dispatched before. *)
Lemma hook_event_proc_input_events n s :
  exists evs,
    dispatched (hook_event_proc n s) = dispatched s ++ evs
    /\ forallb input_event evs = true.
Proof.
  assert (Hframe : forall (b : bool) msg (t : hook_state),
            dispatched (if b then t else logger LOG_LEVEL_DEBUG msg t) = dispatched t)
    by (intros [] msg t; reflexivity).
  assert (Hnone : exists evs : list uiohook_event,
            dispatched s = dispatched s ++ evs /\ forallb input_event evs = true)
    by (exists []; now rewrite app_nil_r).
  destruct n as [nCode wParam kbhook | nCode wParam mshook]; cbn [hook_event_proc].
  - unfold keyboard_hook_event_proc. cbv zeta. cbn [fst]. rewrite Hframe.
    destruct ((wParam =? WM_KEYDOWN) || (wParam =? WM_SYSKEYDOWN));
      [apply process_key_pressed_input_events |].
    destruct ((wParam =? WM_KEYUP) || (wParam =? WM_SYSKEYUP));
      [apply process_key_released_input_events | exact Hnone].
  - unfold mouse_hook_event_proc. cbv zeta. cbn [fst]. rewrite Hframe.
    assert (Hset : forall m,
              dispatched (set_modifier_mask m s) = dispatched s) by reflexivity.
    assert (Hunset : forall m,
              dispatched (unset_modifier_mask m s) = dispatched s) by reflexivity.
    assert (Hpress : forall button t,
              dispatched t = dispatched s ->
              exists evs,
                dispatched (process_button_pressed mshook button t) = dispatched s ++ evs
                /\ forallb input_event evs = true).
    { intros button t <-. apply process_button_pressed_input_events. }
    assert (Hrelease : forall button t,
              dispatched t = dispatched s ->
              exists evs,
                dispatched (process_button_released mshook button t) = dispatched s ++ evs
                /\ forallb input_event evs = true).
    { intros button t <-. apply process_button_released_input_events. }
    repeat match goal with
           | |- context [if ?c then _ else _] => destruct c
           end;
      first [ exact Hnone
            | apply Hpress; reflexivity
            | apply Hrelease; reflexivity
            | apply process_mouse_moved_input_events
            | apply process_mouse_wheel_input_events ].
Qed.

Lemma process_all_input_events ns s :
  exists evs,
    dispatched (process_all ns s) = dispatched s ++ evs
    /\ forallb input_event evs = true.
Proof.
  revert s. induction ns as [| n ns IH]; intros s.
  - exists []. now rewrite app_nil_r.
  - unfold process_all. cbn [fold_left]. fold (process_all ns (hook_event_proc n s)).
    destruct (IH (hook_event_proc n s)) as (evs2 & -> & H2).
    destruct (hook_event_proc_input_events n s) as (evs1 & -> & H1).
    exists (evs1 ++ evs2). rewrite app_assoc. split; [reflexivity |].
    rewrite forallb_app, H1, H2. reflexivity.
Qed.

(** [initialize_modifiers] writes the modifier mask and nothing else. *)
Lemma initialize_modifiers_frame s :
  dispatched (initialize_modifiers s) = dispatched s
  /\ event (initialize_modifiers s) = event s
  /\ tracked_click (initialize_modifiers s) = tracked_click s
  /\ dispatch_data (initialize_modifiers s) = dispatch_data s
  /\ logged (initialize_modifiers s) = logged s.
Proof.
  unfold initialize_modifiers.
  assert (Hfold : forall keys (t : hook_state),
            let t' := fold_left
                        (fun s km => if GetKeyState (fst km) <? 0
                                     then set_modifier_mask (snd km) s else s)
                        keys t in
            dispatched t' = dispatched t /\ event t' = event t
            /\ tracked_click t' = tracked_click t
            /\ dispatch_data t' = dispatch_data t /\ logged t' = logged t).
  { induction keys as [| km keys IH]; intros t; [repeat split |].
    cbn [fold_left]. cbv zeta in IH.
    destruct (IH (if GetKeyState (fst km) <? 0 then set_modifier_mask (snd km) t else t))
      as (-> & -> & -> & -> & ->).
    destruct (GetKeyState (fst km) <? 0); repeat split. }
  apply (Hfold initial_keys (with_current_modifiers 0 s)).
Qed.

(** *** The event of a button notification *)

Lemma process_button_pressed_event mshook button s :
  let s' := process_button_pressed mshook button s in
  dispatched s' = dispatched s ++ [mouse_button_event EVENT_MOUSE_PRESSED mshook button s'].
Proof.
  unfold process_button_pressed, mouse_button_event. cbv zeta.
  match goal with
  | |- context [if ?c then _ else with_click_button _ _] => destruct c
  end.
  - destruct (click_count s <? USHRT_MAX); hook_frame; reflexivity.
  - hook_frame. reflexivity.
Qed.

(** A notification about one of the five buttons of the mask is dispatched
    first as a press, or a release, of the button with that number. *)
Lemma button_notification_event nCode wParam mshook k press s :
  key_action (mouse_notification nCode wParam mshook) = Some (k, press) ->
  exists e m rest,
    dispatched (fst (mouse_hook_event_proc nCode wParam mshook s))
    = dispatched s ++ e :: rest
    /\ type e = (if press then EVENT_MOUSE_PRESSED else EVENT_MOUSE_RELEASED)
    /\ data e = mouse m
    /\ button m = mask_bit k - 7.
Proof.
  assert (Hframe : forall (b : bool) msg (t : hook_state),
            dispatched (if b then t else logger LOG_LEVEL_DEBUG msg t) = dispatched t)
    by (intros [] msg t; reflexivity).
  assert (Hpress : forall b t,
            dispatched t = dispatched s ->
            exists e m rest,
              dispatched (process_button_pressed mshook b t) = dispatched s ++ e :: rest
              /\ type e = EVENT_MOUSE_PRESSED /\ data e = mouse m /\ button m = b).
  { intros b t Ht. pose proof (process_button_pressed_event mshook b t) as Hev.
    cbv zeta in Hev. rewrite Hev, Ht. eexists _, _, _. split; [reflexivity |].
    repeat split. }
  assert (Hrelease : forall b t,
            dispatched t = dispatched s ->
            exists e m rest,
              dispatched (process_button_released mshook b t) = dispatched s ++ e :: rest
              /\ type e = EVENT_MOUSE_RELEASED /\ data e = mouse m /\ button m = b).
  { intros b t Ht.
    destruct (process_button_released_trace mshook b t) as (Hev & _).
    rewrite Hev, Ht. eexists _, _, _. split; [reflexivity |]. repeat split. }
  unfold key_action, mouse_hook_event_proc. cbv zeta. cbn [fst]. rewrite Hframe.
  intros Hact.
  destruct (wParam =? WM_LBUTTONDOWN).
  { injection Hact as <- <-. now apply Hpress. }
  destruct (wParam =? WM_RBUTTONDOWN).
  { injection Hact as <- <-. now apply Hpress. }
  destruct (wParam =? WM_MBUTTONDOWN).
  { injection Hact as <- <-. now apply Hpress. }
  destruct ((wParam =? WM_XBUTTONDOWN) || (wParam =? WM_NCXBUTTONDOWN)).
  { destruct (HIWORD (ms_mouseData mshook) =? XBUTTON1).
    { injection Hact as <- <-. now apply Hpress. }
    destruct (HIWORD (ms_mouseData mshook) =? XBUTTON2); [| discriminate Hact].
    injection Hact as <- <-. now apply Hpress. }
  destruct (wParam =? WM_LBUTTONUP).
  { injection Hact as <- <-. now apply Hrelease. }
  destruct (wParam =? WM_RBUTTONUP).
  { injection Hact as <- <-. now apply Hrelease. }
  destruct (wParam =? WM_MBUTTONUP).
  { injection Hact as <- <-. now apply Hrelease. }
  destruct ((wParam =? WM_XBUTTONUP) || (wParam =? WM_NCXBUTTONUP)); [| discriminate Hact].
  destruct (HIWORD (ms_mouseData mshook) =? XBUTTON1).
  { injection Hact as <- <-. now apply Hrelease. }
  destruct (HIWORD (ms_mouseData mshook) =? XBUTTON2); [| discriminate Hact].
  injection Hact as <- <-. now apply Hrelease.
Qed.

End Hook.

(** C1, as stated, fails on the code: a press of the tracked button
    2^31 ms after the tracked press, a gap greater than the interval of 400,
    continues the streak of three with a count of 4 where the claim has the
    count reset to 1. *)
Lemma press_after_wrapped_gap_continues_streak :
  ms_time (mouse_at 10 10 2147483748) - click_time streak_of_three > 400
  /\ click_button streak_of_three = MOUSE_BUTTON1
  /\ click_count (process_button_pressed 400 passing_sink (mouse_at 10 10 2147483748)
                    MOUSE_BUTTON1 streak_of_three) = 4
  /\ click_count (process_button_pressed 400 passing_sink (mouse_at 10 10 2147483748)
                    MOUSE_BUTTON1 streak_of_three) <> 1.
Proof.
  repeat split; vm_compute; discriminate || reflexivity.
Qed.

Lemma process_button_pressed_click_count_witness :
  click_count (process_button_pressed 400 passing_sink (mouse_at 10 10 300)
                 MOUSE_BUTTON1 streak_of_three) = 4
  /\ click_count (process_button_pressed 400 passing_sink (mouse_at 10 10 300)
                    MOUSE_BUTTON2 streak_of_three) = 1.
Proof.
  split.
  - destruct (process_button_pressed_click_count 400 unit passing_sink
                (mouse_at 10 10 300) MOUSE_BUTTON1 streak_of_three)
      as (Hsame & _).
    destruct Hsame as (_ & Hc & _); [split; [reflexivity | vm_compute; discriminate] |].
    rewrite Hc; [reflexivity | vm_compute; split; discriminate].
  - destruct (process_button_pressed_click_count 400 unit passing_sink
                (mouse_at 10 10 300) MOUSE_BUTTON2 streak_of_three)
      as (_ & Hother & _).
    destruct Hother as (Hc & _); [left; vm_compute; discriminate |].
    exact Hc.
Defined.

(** C2, as stated, fails on the code: a release of the tracked button
    2^31 ms after its press, a gap greater than the interval of 400, keeps
    the click count of 3 where the claim has it reset to 0. *)
Lemma release_after_wrapped_gap_keeps_count :
  ms_time (mouse_at 10 10 2147483748) - click_time streak_of_three > 400
  /\ click_button streak_of_three = MOUSE_BUTTON1
  /\ click_count (process_button_released 400 passing_sink (mouse_at 10 10 2147483748)
                    MOUSE_BUTTON1 streak_of_three) = 3
  /\ click_count (process_button_released 400 passing_sink (mouse_at 10 10 2147483748)
                    MOUSE_BUTTON1 streak_of_three) <> 0.
Proof.
  repeat split; vm_compute; discriminate || reflexivity.
Qed.

Lemma process_button_released_events_witness :
  dispatched (process_button_released 400 passing_sink (mouse_at 10 10 110)
                MOUSE_BUTTON1 streak_of_three)
  = [ mouse_button_event EVENT_MOUSE_RELEASED (mouse_at 10 10 110) MOUSE_BUTTON1
        streak_of_three;
      mouse_button_event EVENT_MOUSE_CLICKED (mouse_at 10 10 110) MOUSE_BUTTON1
        streak_of_three ]
  /\ click_count (process_button_released 400 passing_sink (mouse_at 10 10 600)
                    MOUSE_BUTTON1 streak_of_three) = 0.
Proof.
  split.
  - destruct (process_button_released_events 400 unit passing_sink
                (mouse_at 10 10 110) MOUSE_BUTTON1 streak_of_three)
      as ((rest & Htrace & Hclick & _) & _).
    rewrite Htrace, Hclick; [reflexivity |].
    split; [vm_compute; discriminate | reflexivity].
  - destruct (process_button_released_events 400 unit passing_sink
                (mouse_at 10 10 600) MOUSE_BUTTON1 streak_of_three)
      as (_ & _ & _ & Hreset & _).
    apply Hreset; [reflexivity | vm_compute; reflexivity].
Defined.

(** C3, as stated, fails on the code: with a streak of three active, a move
    away from the click position 2^31 ms after the press, when the interval
    of 400 has elapsed, keeps the click count of 3 where the claim has it
    reset to 0. *)
Lemma move_after_wrapped_gap_keeps_count :
  ms_pt (mouse_at 11 10 2147483748) <> last_click streak_of_three
  /\ click_count streak_of_three <> 0
  /\ ms_time (mouse_at 11 10 2147483748) - click_time streak_of_three > 400
  /\ click_count (process_mouse_moved 400 passing_sink (mouse_at 11 10 2147483748)
                    streak_of_three) = 3
  /\ click_count (process_mouse_moved 400 passing_sink (mouse_at 11 10 2147483748)
                    streak_of_three) <> 0.
Proof.
  repeat split; vm_compute; discriminate || reflexivity.
Qed.

Lemma process_mouse_moved_events_witness :
  click_count (process_mouse_moved 400 passing_sink (mouse_at 11 10 600)
                 streak_of_three) = 0.
Proof.
  destruct (process_mouse_moved_events 400 unit passing_sink
              (mouse_at 11 10 600) streak_of_three) as (_ & Hmoved & _).
  destruct Hmoved as (_ & Hreset & _); [vm_compute; discriminate |].
  apply Hreset; vm_compute; [discriminate | reflexivity].
Defined.

(** C5, as stated, fails on the code: within the multi-click interval a move
    away from the last click position keeps the count of 3, and a wheel
    notification leaves the count at 1; neither resets it to 0.  A move away
    2^31 ms after the press keeps the count of 3 as well. *)
Lemma motion_and_wheel_do_not_zero_click_count :
  ms_pt (mouse_at 11 10 150) <> last_click streak_of_three
  /\ click_count (process_mouse_moved 400 passing_sink (mouse_at 11 10 150)
                    streak_of_three) = 3
  /\ click_count (process_mouse_moved 400 passing_sink (mouse_at 11 10 150)
                    streak_of_three) <> 0
  /\ click_count (process_mouse_wheel 3 passing_sink (mouse_at 10 10 150)
                    WHEEL_VERTICAL_DIRECTION streak_of_three) = 1
  /\ click_count (process_mouse_wheel 3 passing_sink (mouse_at 10 10 150)
                    WHEEL_VERTICAL_DIRECTION streak_of_three) <> 0
  /\ click_count (process_mouse_moved 400 passing_sink (mouse_at 11 10 2147483748)
                    streak_of_three) = 3.
Proof.
  repeat split; vm_compute; discriminate || reflexivity.
Qed.

Lemma motion_and_wheel_click_count_witness :
  click_count
    (process_button_pressed 400 passing_sink (mouse_at 10 10 160) MOUSE_BUTTON1
       (process_mouse_wheel 3 passing_sink (mouse_at 10 10 150)
          WHEEL_VERTICAL_DIRECTION streak_of_three)) = 1.
Proof.
  destruct (motion_and_wheel_click_count 400 3 unit passing_sink
              (mouse_at 10 10 150) WHEEL_VERTICAL_DIRECTION streak_of_three)
    as (_ & _ & _ & _ & Hpress).
  apply (Hpress (mouse_at 10 10 160) MOUSE_BUTTON1). vm_compute. discriminate.
Defined.

(** *** The extra-button paths of [mouse_hook_event_proc] *)

(** C4, at the failing inputs.  An X-button notification whose button
    number is 4 is dispatched as a press of button 4, and the mask gets the
    bit of the left meta key ([MOUSE_BUTTON4] is 4, the value of
    [MASK_META_L]) in place of the bit of button 4; for button number 5 it
    gets the bits of the left shift and the left meta key.  The release of
    button number 4 clears the left meta bit of a held left meta key. *)
Theorem extra_button_paths_touch_other_mask_bits :
  current_modifiers
    (fst (mouse_hook_event_proc 400 3 passing_sink 0 WM_XBUTTONDOWN
            (x_button_at 10 10 100 4) hook_loaded)) = MASK_META_L
  /\ Z.testbit
       (current_modifiers
          (fst (mouse_hook_event_proc 400 3 passing_sink 0 WM_XBUTTONDOWN
                  (x_button_at 10 10 100 4) hook_loaded))) 11 = false
  /\ dispatched
       (fst (mouse_hook_event_proc 400 3 passing_sink 0 WM_XBUTTONDOWN
               (x_button_at 10 10 100 4) hook_loaded))
     = [ {| type := EVENT_MOUSE_PRESSED; time := 100; mask := MASK_META_L;
            reserved := 0;
            data := mouse {| button := MOUSE_BUTTON4; clicks := 1; x := 10; y := 10 |} |} ]
  /\ current_modifiers
       (fst (mouse_hook_event_proc 400 3 passing_sink 0 WM_XBUTTONDOWN
               (x_button_at 10 10 100 5) hook_loaded))
     = Z.lor MASK_SHIFT_L MASK_META_L
  /\ current_modifiers
       (fst (mouse_hook_event_proc 400 3 passing_sink 0 WM_XBUTTONUP
               (x_button_at 10 10 100 4)
               (set_modifier_mask MASK_META_L hook_loaded))) = 0.
Proof.
  repeat split; vm_compute; reflexivity.
Qed.

Theorem click_streak_scenario :
  map type_and_clicks
    (dispatched
       (process_all 400 (fun _ _ => 0) (fun _ => []) 3 passing_sink
          five_notifications hook_loaded))
  = [ (EVENT_MOUSE_PRESSED, 1); (EVENT_MOUSE_RELEASED, 1); (EVENT_MOUSE_CLICKED, 1);
      (EVENT_MOUSE_PRESSED, 2); (EVENT_MOUSE_RELEASED, 2); (EVENT_MOUSE_CLICKED, 2);
      (EVENT_MOUSE_PRESSED, 1) ].
Proof. vm_compute. reflexivity. Qed.

Lemma modifier_mask_invariant_witness :
  forallb (fun n => negb (extra_button n)) shift_click = true
  /\ held SHIFT_L
       (process_all 400 (fun _ _ => 0) (fun _ => []) 3 passing_sink shift_click
          (initialize_modifiers (fun _ => 0) hook_loaded)) = false
  /\ held BUTTON1
       (process_all 400 (fun _ _ => 0) (fun _ => []) 3 passing_sink shift_click
          (initialize_modifiers (fun _ => 0) hook_loaded)) = true.
Proof.
  assert (Hstd : forallb (fun n => negb (extra_button n)) shift_click = true)
    by reflexivity.
  split; [exact Hstd |]. split.
  - rewrite (modifier_mask_invariant 400 (fun _ _ => 0) (fun _ => []) (fun _ => 0) 3
               unit passing_sink SHIFT_L shift_click hook_loaded Hstd).
    reflexivity.
  - rewrite (modifier_mask_invariant 400 (fun _ _ => 0) (fun _ => []) (fun _ => 0) 3
               unit passing_sink BUTTON1 shift_click hook_loaded Hstd).
    reflexivity.
Defined.

Lemma click_streak_continues_witness :
  forallb (within_streak 400 (ms_time (mouse_at 10 10 0)))
    [mouse_notification 0 WM_LBUTTONUP (mouse_at 10 10 10)] = true
  /\ elapsed (ms_time (mouse_at 10 10 200)) (ms_time (mouse_at 10 10 0)) <= 400
  /\ click_count
       (process_button_pressed 400 passing_sink (mouse_at 10 10 200) MOUSE_BUTTON1
          (process_all 400 (fun _ _ => 0) (fun _ => []) 3 passing_sink
             [mouse_notification 0 WM_LBUTTONUP (mouse_at 10 10 10)]
             (process_button_pressed 400 passing_sink (mouse_at 10 10 0) MOUSE_BUTTON1
                hook_loaded))) = 2.
Proof.
  assert (Hbetween : forallb (within_streak 400 (ms_time (mouse_at 10 10 0)))
                       [mouse_notification 0 WM_LBUTTONUP (mouse_at 10 10 10)] = true)
    by reflexivity.
  assert (Hsoon : elapsed (ms_time (mouse_at 10 10 200)) (ms_time (mouse_at 10 10 0))
                  <= 400)
    by (vm_compute; discriminate).
  split; [exact Hbetween |]. split; [exact Hsoon |].
  destruct (click_streak_continues 400 (fun _ _ => 0) (fun _ => []) 3 unit passing_sink
              (mouse_at 10 10 0) [mouse_notification 0 WM_LBUTTONUP (mouse_at 10 10 10)]
              (mouse_at 10 10 200) MOUSE_BUTTON1 hook_loaded Hbetween Hsoon)
    as (Hcount & _).
  rewrite Hcount. reflexivity.
Defined.

Lemma trackers_stay_in_range_witness :
  tracker_ranges unit streak_of_three
  /\ click_count
       (process_all 400 (fun _ _ => 0) (fun _ => []) 3 passing_sink five_notifications
          streak_of_three) <= USHRT_MAX.
Proof.
  assert (Hs : tracker_ranges unit streak_of_three)
    by (repeat split; vm_compute; discriminate).
  split; [exact Hs |].
  destruct (trackers_stay_in_range 400 (fun _ _ => 0) (fun _ => []) 3 unit passing_sink
              five_notifications streak_of_three Hs)
    as ((_ & Hcount) & _).
  exact Hcount.
Defined.

Lemma silent_notification_verdict_witness :
  silent unit (mouse_notification 0 WM_MOUSEMOVE (mouse_at 10 10 150)) streak_of_three
  = true
  /\ dispatched
       (hook_event_proc 400 (fun _ _ => 0) (fun _ => []) 3 unit passing_sink
          (mouse_notification 0 WM_MOUSEMOVE (mouse_at 10 10 150)) streak_of_three)
     = []
  /\ propagated 400 (fun _ _ => 0) (fun _ => []) 3 unit passing_sink
       (mouse_notification 0 WM_MOUSEMOVE (mouse_at 10 10 150)) streak_of_three
     = true.
Proof.
  assert (Hsilent : silent unit (mouse_notification 0 WM_MOUSEMOVE (mouse_at 10 10 150))
                      streak_of_three = true)
    by reflexivity.
  split; [exact Hsilent |].
  destruct (silent_notification_verdict 400 (fun _ _ => 0) (fun _ => []) 3 unit
              passing_sink (mouse_notification 0 WM_MOUSEMOVE (mouse_at 10 10 150))
              streak_of_three Hsilent)
    as (Htrace & _ & _ & _ & Hverdict).
  split; [rewrite Htrace | rewrite Hverdict]; reflexivity.
Defined.

Lemma unconsumed_events_are_passed_on_witness :
  (forall e d, reserved e = 0 -> not_consumed (sink_response passing_sink e d) = true)
  /\ not_consumed (event hook_loaded) = true
  /\ forallb (fun verdict => verdict)
       (propagations 400 (fun _ _ => 0) (fun _ => []) 3 unit passing_sink
          five_notifications hook_loaded) = true.
Proof.
  assert (Hsink : forall e d,
            reserved e = 0 -> not_consumed (sink_response passing_sink e d) = true).
  { intros e d He. cbn. unfold not_consumed. rewrite He. reflexivity. }
  assert (Hevent : not_consumed (event hook_loaded) = true) by reflexivity.
  split; [exact Hsink |]. split; [exact Hevent |].
  exact (unconsumed_events_are_passed_on 400 (fun _ _ => 0) (fun _ => []) 3 unit
           passing_sink five_notifications hook_loaded Hsink Hevent).
Defined.

Lemma extra_button_events_witness :
  HIWORD (ms_mouseData (x_button_at 10 10 100 7)) <> XBUTTON1
  /\ HIWORD (ms_mouseData (x_button_at 10 10 100 7)) <> XBUTTON2
  /\ exists e m,
       dispatched (fst (mouse_hook_event_proc 400 3 passing_sink 0 WM_XBUTTONDOWN
                          (x_button_at 10 10 100 7) hook_loaded))
       = dispatched hook_loaded ++ [e]
       /\ type e = EVENT_MOUSE_PRESSED /\ data e = mouse m /\ button m = 7.
Proof.
  assert (Hone : HIWORD (ms_mouseData (x_button_at 10 10 100 7)) <> XBUTTON1)
    by (vm_compute; discriminate).
  assert (Htwo : HIWORD (ms_mouseData (x_button_at 10 10 100 7)) <> XBUTTON2)
    by (vm_compute; discriminate).
  split; [exact Hone |]. split; [exact Htwo |].
  destruct (extra_button_events 400 3 unit passing_sink 0 WM_XBUTTONDOWN
              (x_button_at 10 10 100 7) hook_loaded Hone Htwo)
    as (Hpress & _).
  exact (Hpress eq_refl).
Defined.

End InputHookFacts.

Module HookThreadFacts.

Import CInt CIntFacts Win32 Uiohook UiohookFacts InputHook InputHookFacts HookThread.

(** *** The epoch clock *)

Lemma halves_join high low :
  0 <= low < 2 ^ 32 -> 0 <= high ->
  Z.lor (Z.shiftl high 32) low = high * 2 ^ 32 + low.
Proof.
  intros Hlow Hhigh.
  rewrite <- Z.shiftl_mul_pow2 by lia.
  assert (Hland : Z.land (Z.shiftl high 32) low = 0).
  { apply Z.bits_inj'. intros n Hn. rewrite Z.land_spec, Z.bits_0.
    destruct (Z_lt_le_dec n 32) as [Hlt | Hge].
    - rewrite Z.shiftl_spec_low by exact Hlt. reflexivity.
    - assert (Hbit : Z.testbit low n = false).
      { destruct (Z.eq_dec low 0) as [-> | Hnz]; [apply Z.bits_0 |].
        apply Z.bits_above_log2; [lia |].
        apply Z.lt_le_trans with 32; [| exact Hge].
        apply Z.log2_lt_pow2; lia. }
      rewrite Hbit. apply andb_false_r. }
  rewrite <- (Z.lxor_lor _ _ Hland). symmetry. apply Z.add_nocarry_lxor. exact Hland.
Qed.

(** For a system time at or after the first of January 1970,
    [get_unix_timestamp] is the number of whole milliseconds since then: the
    count of 100-nanosecond intervals since 1601 less the 116444736000000000
    of them that lie before 1970, divided by 10000. *)
Theorem get_unix_timestamp_epoch system_time :
  let ticks := dwHighDateTime system_time * 2 ^ 32 + dwLowDateTime system_time in
  0 <= dwLowDateTime system_time < 2 ^ 32 ->
  0 <= dwHighDateTime system_time < 2 ^ 32 ->
  116444736000000000 <= ticks ->
  get_unix_timestamp system_time = (ticks - 116444736000000000) / 10000.
Proof.
  intros ticks Hlow Hhigh Hepoch.
  unfold get_unix_timestamp, uint64_t, to_unsigned. cbv zeta.
  change (2 ^ 32) with 4294967296 in *. change (2 ^ 64) with 18446744073709551616.
  rewrite (Z.mod_small (dwHighDateTime system_time)) by lia.
  rewrite (Z.mod_small (dwLowDateTime system_time)) by lia.
  assert (Hshift : Z.shiftl (dwHighDateTime system_time) 32
                   = dwHighDateTime system_time * 4294967296).
  { rewrite Z.shiftl_mul_pow2 by lia. reflexivity. }
  rewrite (Z.mod_small (Z.shiftl _ 32)) by (rewrite Hshift; lia).
  rewrite halves_join by (change (2 ^ 32) with 4294967296; lia).
  change (2 ^ 32) with 4294967296. fold ticks.
  assert (Hticks : 0 <= ticks < 18446744073709551616) by (unfold ticks; lia).
  rewrite (Z.mod_small ticks) by exact Hticks.
  assert (Hdiv : ticks / 10000 - 11644473600000
                 = (ticks - 116444736000000000) / 10000).
  { replace (ticks - 116444736000000000)
      with (ticks + (- 11644473600000) * 10000) by lia.
    rewrite Z.div_add by lia. lia. }
  rewrite Hdiv. apply Z.mod_small. split.
  - apply Z.div_pos; lia.
  - apply Z.div_lt_upper_bound; lia.
Qed.

Section Thread.

Variable hook_get_multi_click_time : Z.
Variable keycode_to_scancode : Z -> Z -> Z.
Variable keycode_to_unicode : Z -> list Z.
Variable wheel_scroll_lines : Z.
Variable user_data : Type.

Local Abbreviation hook_globals := (@HookThread.hook_globals user_data).
Local Abbreviation with_hook_thread_id := (@HookThread.with_hook_thread_id user_data).
Local Abbreviation with_keyboard_event_hhook := (@HookThread.with_keyboard_event_hhook user_data).
Local Abbreviation with_mouse_event_hhook := (@HookThread.with_mouse_event_hhook user_data).
Local Abbreviation with_win_event_hhook := (@HookThread.with_win_event_hhook user_data).
Local Abbreviation with_invisible_win_hwnd := (@HookThread.with_invisible_win_hwnd user_data).
Local Abbreviation with_hInst := (@HookThread.with_hInst user_data).
Local Abbreviation with_dispatch := (@HookThread.with_dispatch user_data).
Local Abbreviation with_statics := (@HookThread.with_statics user_data).
Local Abbreviation call := (@HookThread.call user_data).
Local Abbreviation logger := (@HookThread.logger user_data).
Local Abbreviation unregister_running_hooks := (@HookThread.unregister_running_hooks user_data).
Local Abbreviation hook_start_proc := (@HookThread.hook_start_proc user_data).
Local Abbreviation hook_stop_proc := (@HookThread.hook_stop_proc user_data).
Local Abbreviation win_hook_event_proc := (@HookThread.win_hook_event_proc user_data).
Local Abbreviation WndProc := (@HookThread.WndProc user_data).
Local Abbreviation create_invisible_window := (@HookThread.create_invisible_window user_data).
Local Abbreviation deliver := (@HookThread.deliver hook_get_multi_click_time keycode_to_scancode keycode_to_unicode wheel_scroll_lines user_data).
Local Abbreviation message_loop := (@HookThread.message_loop hook_get_multi_click_time keycode_to_scancode keycode_to_unicode wheel_scroll_lines user_data).
Local Abbreviation hook_run := (@HookThread.hook_run hook_get_multi_click_time keycode_to_scancode keycode_to_unicode wheel_scroll_lines user_data).
Local Abbreviation holding := (@HookThread.holding user_data).
Local Abbreviation accounted := (@HookThread.accounted user_data).
Local Abbreviation click_tracking := (@HookThread.click_tracking user_data).
Local Abbreviation process_all := (@InputHook.process_all hook_get_multi_click_time keycode_to_scancode keycode_to_unicode wheel_scroll_lines user_data).
Local Abbreviation hook_event_proc := (@InputHook.hook_event_proc hook_get_multi_click_time keycode_to_scancode keycode_to_unicode wheel_scroll_lines user_data).

Ltac thread_frame :=
  cbn [hook_thread_id keyboard_event_hhook mouse_event_hhook win_event_hhook
       invisible_win_hwnd hInst HookThread.dispatch statics os_calls
       with_hook_thread_id with_keyboard_event_hhook with_mouse_event_hhook
       with_win_event_hhook with_invisible_win_hwnd with_hInst with_dispatch
       with_statics call logger].

(** *** The account of the installed hooks *)

Lemma hook_balance_app k h calls1 calls2 n :
  hook_balance k h (calls1 ++ calls2) n =
    match hook_balance k h calls1 n with
    | Some m => hook_balance k h calls2 m
    | None => None
    end.
Proof.
  revert n. induction calls1 as [| c calls1 IH]; intros n; [reflexivity |].
  cbn [app hook_balance]. destruct (n + hook_effect k h c <? 0); [reflexivity | apply IH].
Qed.

Lemma holding_nonneg k h (g : hook_globals) : 0 <= holding k h g.
Proof.
  unfold holding. destruct (h =? 0); [lia |].
  destruct k; repeat match goal with |- context [if ?c then _ else _] => destruct c end;
    lia.
Qed.

Lemma holding_handles k h (g g' : hook_globals) :
  keyboard_event_hhook g' = keyboard_event_hhook g ->
  mouse_event_hhook g' = mouse_event_hhook g ->
  win_event_hhook g' = win_event_hhook g ->
  holding k h g' = holding k h g.
Proof. unfold holding. intros -> -> ->. reflexivity. Qed.

Lemma accounted_refl (g : hook_globals) : accounted g g.
Proof. exists []. split; [now rewrite app_nil_r | reflexivity]. Qed.

Lemma accounted_trans (g1 g2 g3 : hook_globals) :
  accounted g1 g2 -> accounted g2 g3 -> accounted g1 g3.
Proof.
  intros (c1 & H1 & B1) (c2 & H2 & B2). exists (c1 ++ c2). split.
  - rewrite H2, H1, app_assoc. reflexivity.
  - intros k h. rewrite hook_balance_app, B1. apply B2.
Qed.

(** A step that makes no call and keeps the handles. *)
Lemma accounted_quiet (g g' : hook_globals) :
  os_calls g' = os_calls g ->
  keyboard_event_hhook g' = keyboard_event_hhook g ->
  mouse_event_hhook g' = mouse_event_hhook g ->
  win_event_hhook g' = win_event_hhook g ->
  accounted g g'.
Proof.
  intros Hc Hk Hm Hw. exists []. split; [now rewrite app_nil_r |].
  intros k h. cbn [hook_balance]. now rewrite (holding_handles k h g g').
Qed.

(** A call that is about no hook. *)
Lemma accounted_call c (g : hook_globals) :
  (forall k h, hook_effect k h c = 0) -> accounted g (call c g).
Proof.
  intros Hc. exists [c]. split; [reflexivity |].
  intros k h. cbn [hook_balance]. rewrite Hc, Z.add_0_r.
  pose proof (holding_nonneg k h g) as Hn.
  assert (E : (holding k h g <? 0) = false) by (apply Z.ltb_ge; exact Hn).
  rewrite E. reflexivity.
Qed.

Ltac holding_cases :=
  unfold HookThread.holding, hook_effect; thread_frame;
  repeat match goal with
         | |- context [?a =? ?b] =>
             destruct (Z.eqb_spec a b); try subst; try contradiction; try lia
         end;
  cbn [negb andb Z.add Z.ltb Z.compare Z.opp Pos.compare]; try reflexivity; try lia.

Lemma unhook_keyboard (g : hook_globals) :
  keyboard_event_hhook g <> 0 ->
  accounted g
    (with_keyboard_event_hhook 0 (call (UnhookWindowsHookEx (keyboard_event_hhook g)) g)).
Proof.
  intros Hk. eexists. split; [reflexivity |].
  intros k h. cbn [hook_balance]. destruct k; holding_cases.
Qed.

Lemma unhook_mouse (g : hook_globals) :
  mouse_event_hhook g <> 0 ->
  accounted g
    (with_mouse_event_hhook 0 (call (UnhookWindowsHookEx (mouse_event_hhook g)) g)).
Proof.
  intros Hm. eexists. split; [reflexivity |].
  intros k h. cbn [hook_balance]. destruct k; holding_cases.
Qed.

Lemma unhook_win_event (g : hook_globals) :
  win_event_hhook g <> 0 ->
  accounted g
    (with_win_event_hhook 0 (call (UnhookWinEvent (win_event_hhook g)) g)).
Proof.
  intros Hw. eexists. split; [reflexivity |].
  intros k h. cbn [hook_balance]. destruct k; holding_cases.
Qed.

Lemma unregister_running_hooks_accounted (g : hook_globals) :
  accounted g (unregister_running_hooks g).
Proof.
  unfold unregister_running_hooks. cbv zeta.
  eapply accounted_trans; [| eapply accounted_trans].
  - instantiate (1 := if negb (win_event_hhook g =? 0)
                      then with_win_event_hhook 0
                             (call (UnhookWinEvent (win_event_hhook g)) g)
                      else g).
    destruct (Z.eqb_spec (win_event_hhook g) 0); cbn [negb];
      [apply accounted_refl | now apply unhook_win_event].
  - match goal with
    | |- accounted ?t _ =>
        instantiate (1 := if negb (keyboard_event_hhook t =? 0)
                          then with_keyboard_event_hhook 0
                                 (call (UnhookWindowsHookEx (keyboard_event_hhook t)) t)
                          else t);
        destruct (Z.eqb_spec (keyboard_event_hhook t) 0); cbn [negb];
          [apply accounted_refl | now apply unhook_keyboard]
    end.
  - match goal with
    | |- accounted ?t _ =>
        destruct (Z.eqb_spec (mouse_event_hhook t) 0); cbn [negb];
          [apply accounted_refl | now apply unhook_mouse]
    end.
Qed.

Lemma unregister_running_hooks_handles (g : hook_globals) :
  keyboard_event_hhook (unregister_running_hooks g) = 0
  /\ mouse_event_hhook (unregister_running_hooks g) = 0
  /\ win_event_hhook (unregister_running_hooks g) = 0
  /\ statics (unregister_running_hooks g) = statics g
  /\ HookThread.dispatch (unregister_running_hooks g) = HookThread.dispatch g.
Proof.
  unfold unregister_running_hooks. cbv zeta.
  destruct (Z.eqb_spec (win_event_hhook g) 0) as [Hw | Hw];
    destruct (Z.eqb_spec (keyboard_event_hhook g) 0) as [Hk | Hk];
    destruct (Z.eqb_spec (mouse_event_hhook g) 0) as [Hm | Hm];
    cbn [negb]; thread_frame;
    rewrite ?Hw, ?Hk, ?Hm;
    repeat match goal with
           | |- context [?a =? 0] => destruct (Z.eqb_spec a 0); try contradiction
           end;
    cbn [negb]; thread_frame; repeat split; assumption || reflexivity.
Qed.

(** *** The restart on a window event *)

Lemma win_hook_event_proc_restart_state a (g : hook_globals) :
  let g' := win_hook_event_proc EVENT_OBJECT_NAMECHANGE a g in
  keyboard_event_hhook g' = keyboard_hook_again a
  /\ mouse_event_hhook g' = mouse_hook_again a
  /\ win_event_hhook g' = win_event_hhook g
  /\ hook_thread_id g' = hook_thread_id g
  /\ invisible_win_hwnd g' = invisible_win_hwnd g
  /\ HookThread.dispatch g' = HookThread.dispatch g
  /\ os_calls g' =
       os_calls g
       ++ (if negb (keyboard_event_hhook g =? 0)
           then [UnhookWindowsHookEx (keyboard_event_hhook g)] else [])
       ++ (if negb (mouse_event_hhook g =? 0)
           then [UnhookWindowsHookEx (mouse_event_hhook g)] else [])
       ++ [SetWindowsHookEx WH_KEYBOARD_LL (keyboard_hook_again a);
           SetWindowsHookEx WH_MOUSE_LL (mouse_hook_again a)]
  /\ statics g' =
       (let s := initialize_modifiers (GetKeyState_again a)
                   (InputHook.logger user_data LOG_LEVEL_DEBUG
                      "Restarting Windows input hook on window event: %#X." (statics g)) in
        if (keyboard_hook_again a =? 0) || (mouse_hook_again a =? 0)
        then InputHook.logger user_data LOG_LEVEL_ERROR
               "SetWindowsHookEx() failed! (%#lX)" s
        else s).
Proof.
  unfold win_hook_event_proc.
  change (EVENT_OBJECT_NAMECHANGE =? EVENT_OBJECT_NAMECHANGE) with true. cbv iota.
  generalize (initialize_modifiers (user_data := user_data) (GetKeyState_again a)).
  intros init. cbv zeta. thread_frame.
  destruct (keyboard_event_hhook g =? 0); cbn [negb]; thread_frame;
    destruct (mouse_event_hhook g =? 0); cbn [negb]; thread_frame;
    destruct ((keyboard_hook_again a =? 0) || (mouse_hook_again a =? 0));
    thread_frame; rewrite <- ?app_assoc; repeat split.
Qed.

Lemma win_hook_event_proc_restart a (g : hook_globals) :
  let g' := win_hook_event_proc EVENT_OBJECT_NAMECHANGE a g in
  keyboard_event_hhook g' = keyboard_hook_again a
  /\ mouse_event_hhook g' = mouse_hook_again a
  /\ win_event_hhook g' = win_event_hhook g
  /\ HookThread.dispatch g' = HookThread.dispatch g
  /\ os_calls g' =
       os_calls g
       ++ (if negb (keyboard_event_hhook g =? 0)
           then [UnhookWindowsHookEx (keyboard_event_hhook g)] else [])
       ++ (if negb (mouse_event_hhook g =? 0)
           then [UnhookWindowsHookEx (mouse_event_hhook g)] else [])
       ++ [SetWindowsHookEx WH_KEYBOARD_LL (keyboard_hook_again a);
           SetWindowsHookEx WH_MOUSE_LL (mouse_hook_again a)]
  /\ dispatched (statics g') = dispatched (statics g)
  /\ event (statics g') = event (statics g)
  /\ click_tracking g' = click_tracking g
  /\ dispatch_data (statics g') = dispatch_data (statics g)
  /\ forall k, held k (statics g') = (GetKeyState_again a (virtual_key k) <? 0).
Proof.
  destruct (win_hook_event_proc_restart_state a g)
    as (Hk & Hm & Hw & _ & _ & Hdisp & Hcalls & Hstatics).
  cbv zeta in *. unfold HookThread.click_tracking. rewrite Hstatics.
  split; [exact Hk |]. split; [exact Hm |]. split; [exact Hw |].
  split; [exact Hdisp |]. split; [exact Hcalls |].
  set (s0 := InputHook.logger user_data LOG_LEVEL_DEBUG
               "Restarting Windows input hook on window event: %#X." (statics g)).
  destruct (initialize_modifiers_frame (GetKeyState_again a) user_data s0)
    as (Hd & He & Ht & Hu & _).
  destruct (tracked_click_eq user_data _ _ Ht) as (Hc1 & Hc2 & Hc3 & Hc4).
  pose proof (initialize_modifiers_held (GetKeyState_again a) user_data) as Hheld.
  assert (Hlog : forall (b : bool) (t : hook_state user_data),
            let t' := if b then InputHook.logger user_data LOG_LEVEL_ERROR
                                  "SetWindowsHookEx() failed! (%#lX)" t
                      else t in
            dispatched t' = dispatched t /\ event t' = event t
            /\ click_count t' = click_count t /\ click_time t' = click_time t
            /\ click_button t' = click_button t /\ last_click t' = last_click t
            /\ dispatch_data t' = dispatch_data t
            /\ forall k, held k t' = held k t)
    by (intros [] t; repeat split).
  destruct (Hlog ((keyboard_hook_again a =? 0) || (mouse_hook_again a =? 0))
              (initialize_modifiers (GetKeyState_again a) s0))
    as (-> & -> & -> & -> & -> & -> & -> & Hheld0).
  rewrite Hd, He, Hu, Hc1, Hc2, Hc3, Hc4.
  repeat split. intros k. rewrite Hheld0. apply Hheld.
Qed.

Lemma win_hook_event_proc_accounted event a (g : hook_globals) :
  accounted g (win_hook_event_proc event a g).
Proof.
  destruct (Z.eqb_spec event EVENT_OBJECT_NAMECHANGE) as [-> | Hother].
  - destruct (win_hook_event_proc_restart a g) as (Hk & Hm & Hw & _ & Hcalls & _).
    eexists. split; [exact Hcalls |].
    intros k h. unfold HookThread.holding. rewrite Hk, Hm, Hw.
    destruct (Z.eqb_spec (keyboard_event_hhook g) 0) as [Ek | Ek];
      destruct (Z.eqb_spec (mouse_event_hhook g) 0) as [Em | Em];
      cbn [negb app hook_balance]; destruct k; unfold hook_effect;
      rewrite ?Ek, ?Em;
      repeat match goal with
             | |- context [?x =? ?y] =>
                 destruct (Z.eqb_spec x y); try subst; try contradiction; try lia
             end;
      cbn [negb andb Z.add Z.ltb Z.compare Z.opp Pos.compare]; try reflexivity; try lia.
  - unfold win_hook_event_proc.
    apply Z.eqb_neq in Hother. rewrite Hother.
    apply accounted_quiet; reflexivity.
Qed.

(** *** The message loop *)

Lemma WndProc_frame hwnd message wParam lParam result (g : hook_globals) :
  let g' := snd (WndProc hwnd message wParam lParam result g) in
  statics g' = statics g
  /\ HookThread.dispatch g' = HookThread.dispatch g
  /\ accounted g g'.
Proof.
  unfold WndProc.
  destruct (message =? WM_CLOSE); [| destruct (message =? WM_DESTROY);
    [| destruct (message =? WM_DISPLAYCHANGE)]];
    cbn [snd]; (split; [reflexivity |]); (split; [reflexivity |]);
    apply accounted_call; intros [] h; reflexivity.
Qed.

Lemma win_hook_event_proc_dispatch event a (g : hook_globals) :
  HookThread.dispatch (win_hook_event_proc event a g) = HookThread.dispatch g.
Proof.
  destruct (Z.eqb_spec event EVENT_OBJECT_NAMECHANGE) as [-> | Hother].
  - apply win_hook_event_proc_restart.
  - unfold win_hook_event_proc. apply Z.eqb_neq in Hother. rewrite Hother. reflexivity.
Qed.

(** A window event dispatches nothing and leaves the static event and the
    click tracker as they are. *)
Lemma win_hook_event_proc_frame event a (g : hook_globals) :
  dispatched (statics (win_hook_event_proc event a g)) = dispatched (statics g)
  /\ InputHook.event (statics (win_hook_event_proc event a g)) = InputHook.event (statics g)
  /\ click_tracking (win_hook_event_proc event a g) = click_tracking g.
Proof.
  destruct (Z.eqb_spec event EVENT_OBJECT_NAMECHANGE) as [-> | Hother].
  - destruct (win_hook_event_proc_restart a g) as (_ & _ & _ & _ & _ & Hd & He & Hc & _).
    now repeat split.
  - unfold win_hook_event_proc. apply Z.eqb_neq in Hother. rewrite Hother.
    repeat split.
Qed.

Lemma deliver_dispatch d (g : hook_globals) :
  HookThread.dispatch (deliver g d) = HookThread.dispatch g.
Proof.
  destruct d as [n | event a | hwnd message wParam lParam result]; cbn [HookThread.deliver].
  - reflexivity.
  - apply win_hook_event_proc_dispatch.
  - apply WndProc_frame.
Qed.

Lemma deliver_accounted d (g : hook_globals) : accounted g (deliver g d).
Proof.
  destruct d as [n | event a | hwnd message wParam lParam result]; cbn [HookThread.deliver].
  - apply accounted_quiet; reflexivity.
  - apply win_hook_event_proc_accounted.
  - apply WndProc_frame.
Qed.

Lemma deliver_input_events d (g : hook_globals) :
  exists evs,
    dispatched (statics (deliver g d)) = dispatched (statics g) ++ evs
    /\ forallb input_event evs = true.
Proof.
  destruct d as [n | event a | hwnd message wParam lParam result]; cbn [HookThread.deliver].
  - thread_frame. apply hook_event_proc_input_events.
  - destruct (win_hook_event_proc_frame event a g) as (-> & _).
    exists []. now rewrite app_nil_r.
  - destruct (WndProc_frame hwnd message wParam lParam result g) as (-> & _).
    exists []. now rewrite app_nil_r.
Qed.

Lemma message_loop_dispatch ds (g : hook_globals) :
  HookThread.dispatch (message_loop ds g) = HookThread.dispatch g.
Proof.
  revert g. induction ds as [| d ds IH]; intros g; [reflexivity |].
  unfold HookThread.message_loop. cbn [fold_left].
  fold (message_loop ds (deliver g d)). rewrite IH. apply deliver_dispatch.
Qed.

Lemma message_loop_accounted ds (g : hook_globals) : accounted g (message_loop ds g).
Proof.
  revert g. induction ds as [| d ds IH]; intros g; [apply accounted_refl |].
  unfold HookThread.message_loop. cbn [fold_left].
  fold (message_loop ds (deliver g d)).
  eapply accounted_trans; [apply deliver_accounted | apply IH].
Qed.

Lemma message_loop_input_events ds (g : hook_globals) :
  exists evs,
    dispatched (statics (message_loop ds g)) = dispatched (statics g) ++ evs
    /\ forallb input_event evs = true.
Proof.
  revert g. induction ds as [| d ds IH]; intros g.
  - exists []. now rewrite app_nil_r.
  - unfold HookThread.message_loop. cbn [fold_left].
    fold (message_loop ds (deliver g d)).
    destruct (IH (deliver g d)) as (evs2 & -> & H2).
    destruct (deliver_input_events d g) as (evs1 & -> & H1).
    exists (evs1 ++ evs2). rewrite app_assoc. split; [reflexivity |].
    rewrite forallb_app, H1, H2. reflexivity.
Qed.

(** The loop over notifications alone is the run of the hook procedures on
    the variables of the hook. *)
Lemma message_loop_notifications ns (g : hook_globals) :
  statics (message_loop (map to_hook ns) g)
  = process_all (HookThread.dispatch g) ns (statics g).
Proof.
  revert g. induction ns as [| n ns IH]; intros g; [reflexivity |].
  unfold HookThread.message_loop. cbn [map fold_left].
  fold (message_loop (map to_hook ns) (deliver g (to_hook n))).
  rewrite IH. reflexivity.
Qed.

Lemma message_loop_app ds1 ds2 (g : hook_globals) :
  message_loop (ds1 ++ ds2) g = message_loop ds2 (message_loop ds1 g).
Proof. unfold HookThread.message_loop. apply fold_left_app. Qed.

(** *** [hook_run] *)

(** [hook_run] in three steps: the set-up, which leaves the answers of the
    three installations in the handle variables and dispatches nothing; the
    message loop between the two events of the life cycle, when both low-level
    hooks were obtained; the removal of the hooks and the stop event. *)
Lemma hook_run_steps a ds (g : hook_globals) :
  exists g3 : hook_globals,
    hook_run a ds g =
      (if hooks_installed a then UIOHOOK_SUCCESS
       else UIOHOOK_ERROR_SET_WINDOWS_HOOK_EX,
       hook_stop_proc (stop_time a)
         (unregister_running_hooks
            (if hooks_installed a then
               message_loop ds
                 (hook_start_proc (start_time a)
                    (with_statics
                       (initialize_modifiers (GetKeyState_at_start a) (statics g3)) g3))
             else g3)))
    /\ keyboard_event_hhook g3 = keyboard_hook_result a
    /\ mouse_event_hhook g3 = mouse_hook_result a
    /\ win_event_hhook g3 = SetWinEventHook_result a
    /\ HookThread.dispatch g3 = HookThread.dispatch g
    /\ dispatched (statics g3) = dispatched (statics g)
    /\ click_tracking g3 = click_tracking g
    /\ hook_thread_id g3 = GetCurrentThreadId_result a
    /\ invisible_win_hwnd g3 =
         (if RegisterClassEx_result a =? 0 then invisible_win_hwnd g
          else CreateWindowEx_result a)
    /\ exists calls,
         os_calls g3 = os_calls g ++ calls
         /\ forall k h, hook_balance k h calls 0 = Some (holding k h g3).
Proof.
  unfold HookThread.hook_run, hooks_installed, HookThread.create_invisible_window.
  generalize (initialize_modifiers (user_data := user_data) (GetKeyState_at_start a)).
  intros init. cbv zeta. thread_frame.
  destruct (hInst g =? 0); [destruct (GetModuleHandle_result a =? 0) |];
    cbn [negb]; thread_frame;
    (destruct (RegisterClassEx_result a =? 0);
     [| destruct (CreateWindowEx_result a =? 0) eqn:Ewindow]);
    cbn [negb orb Z.eqb]; thread_frame; rewrite ?Ewindow;
    cbn [negb orb Z.eqb]; thread_frame;
    (destruct (negb (keyboard_hook_result a =? 0) && negb (mouse_hook_result a =? 0));
     [destruct (SetWinEventHook_result a =? 0) |]);
    thread_frame;
    match goal with
    | |- exists g3, (_, hook_stop_proc _
                          (unregister_running_hooks
                             (message_loop _
                                (hook_start_proc _ (with_statics _ ?G))))) = _ /\ _ =>
        exists G
    | |- exists g3, (_, hook_stop_proc _ (unregister_running_hooks ?G)) = _ /\ _ =>
        exists G
    end;
    (split; [reflexivity |]);
    unfold HookThread.click_tracking; thread_frame;
    cbn [InputHook.logger dispatched click_count click_time click_button last_click];
    (split; [reflexivity |]); (split; [reflexivity |]); (split; [reflexivity |]);
    (split; [reflexivity |]); (split; [reflexivity |]); (split; [reflexivity |]);
    (split; [reflexivity |]); (split; [reflexivity |]);
    (eexists; split; [rewrite <- ?app_assoc; reflexivity |]);
    intros k h; cbn [app hook_balance]; destruct k; holding_cases.
Qed.

Lemma hook_start_proc_frame timestamp (g : hook_globals) :
  let g' := hook_start_proc timestamp g in
  (exists enabled,
     dispatched (statics g') = dispatched (statics g) ++ [enabled]
     /\ lifecycle_event EVENT_HOOK_ENABLED timestamp enabled)
  /\ click_tracking g' = click_tracking g
  /\ (forall k, held k (statics g') = held k (statics g))
  /\ HookThread.dispatch g' = HookThread.dispatch g
  /\ hook_thread_id g' = hook_thread_id g
  /\ invisible_win_hwnd g' = invisible_win_hwnd g
  /\ accounted g g'.
Proof.
  unfold HookThread.hook_start_proc, InputHook.hook_start_proc, HookThread.click_tracking,
    held.
  cbv zeta. thread_frame.
  rewrite dispatch_event_dispatched, dispatch_event_click_count, dispatch_event_click_time,
    dispatch_event_click_button, dispatch_event_last_click,
    dispatch_event_current_modifiers.
  cbn [dispatched event click_count click_time click_button last_click current_modifiers
       InputHook.with_event].
  split; [eexists; split; [reflexivity | repeat split] |].
  repeat split.
  eapply accounted_trans;
    [apply (accounted_call load_input_helper); intros [] h; reflexivity
    | apply accounted_quiet; reflexivity].
Qed.

Lemma hook_stop_proc_frame timestamp (g : hook_globals) :
  let g' := hook_stop_proc timestamp g in
  (exists disabled,
     dispatched (statics g') = dispatched (statics g) ++ [disabled]
     /\ lifecycle_event EVENT_HOOK_DISABLED timestamp disabled)
  /\ click_tracking g' = click_tracking g
  /\ (forall k, held k (statics g') = held k (statics g))
  /\ HookThread.dispatch g' = HookThread.dispatch g
  /\ hook_thread_id g' = hook_thread_id g
  /\ invisible_win_hwnd g' = invisible_win_hwnd g
  /\ keyboard_event_hhook g' = keyboard_event_hhook g
  /\ mouse_event_hhook g' = mouse_event_hhook g
  /\ win_event_hhook g' = win_event_hhook g
  /\ accounted g g'.
Proof.
  unfold HookThread.hook_stop_proc, InputHook.hook_stop_proc, HookThread.click_tracking,
    held.
  cbv zeta. thread_frame.
  rewrite dispatch_event_dispatched, dispatch_event_click_count, dispatch_event_click_time,
    dispatch_event_click_button, dispatch_event_last_click,
    dispatch_event_current_modifiers.
  cbn [dispatched event click_count click_time click_button last_click current_modifiers
       InputHook.with_event].
  split; [eexists; split; [reflexivity | repeat split] |].
  repeat split.
  eapply accounted_trans;
    [| apply (accounted_call unload_input_helper); intros [] h; reflexivity].
  apply accounted_quiet; reflexivity.
Qed.

(** The status of [hook_run] says whether the two low-level hooks were
    obtained, and nothing else: a failure to find the module handle or to
    create the window is logged, and its status is overwritten. *)
Theorem hook_run_status a ds (g : hook_globals) :
  fst (hook_run a ds g) =
    (if hooks_installed a then UIOHOOK_SUCCESS else UIOHOOK_ERROR_SET_WINDOWS_HOOK_EX)
  /\ fst (hook_run a ds g) <> UIOHOOK_FAILURE
  /\ fst (hook_run a ds g) <> UIOHOOK_ERROR_GET_MODULE_HANDLE
  /\ fst (hook_run a ds g) <> UIOHOOK_ERROR_CREATE_INVISIBLE_WINDOW.
Proof.
  destruct (hook_run_steps a ds g) as (g3 & -> & _). cbn [fst].
  destruct (hooks_installed a); repeat split; discriminate.
Qed.

(** The events of one run: when both hooks are obtained, the hook-enabled
    event first, then events of the keyboard and of the mouse only, then the
    hook-disabled event; when one of the hooks is refused, the hook-disabled
    event alone, with no hook-enabled event before it. *)
Theorem hook_run_events a ds (g : hook_globals) :
  let g' := snd (hook_run a ds g) in
  exists disabled,
    lifecycle_event EVENT_HOOK_DISABLED (stop_time a) disabled
    /\ if hooks_installed a then
         exists enabled middle,
           dispatched (statics g') =
             dispatched (statics g) ++ enabled :: middle ++ [disabled]
           /\ lifecycle_event EVENT_HOOK_ENABLED (start_time a) enabled
           /\ forallb input_event middle = true
       else dispatched (statics g') = dispatched (statics g) ++ [disabled].
Proof.
  destruct (hook_run_steps a ds g) as (g3 & -> & _ & _ & _ & _ & Hd & _). cbn [snd].
  match goal with
  | |- context [hook_stop_proc ?t ?u] =>
      destruct (hook_stop_proc_frame t u) as ((disabled & Hstop & Hdisabled) & _);
      cbv zeta in Hstop
  end.
  exists disabled. split; [exact Hdisabled |].
  rewrite Hstop.
  destruct (unregister_running_hooks_handles
              (if hooks_installed a then
                 message_loop ds
                   (hook_start_proc (start_time a)
                      (with_statics
                         (initialize_modifiers (GetKeyState_at_start a) (statics g3)) g3))
               else g3)) as (_ & _ & _ & -> & _).
  destruct (hooks_installed a); [| now rewrite Hd].
  match goal with
  | |- context [message_loop ds ?u] =>
      destruct (message_loop_input_events ds u) as (middle & -> & Hmiddle)
  end.
  match goal with
  | |- context [hook_start_proc ?t ?u] =>
      destruct (hook_start_proc_frame t u) as ((enabled & Hstart & Henabled) & _);
      cbv zeta in Hstart
  end.
  rewrite Hstart. thread_frame.
  destruct (initialize_modifiers_frame (GetKeyState_at_start a) user_data (statics g3))
    as (-> & _).
  rewrite Hd. exists enabled, middle.
  split; [rewrite <- !app_assoc; reflexivity |]. split; assumption.
Qed.

(** One run installs and removes its hooks in pairs: every handle that
    [SetWindowsHookEx] or [SetWinEventHook] returned, at the start or at a
    restart, is handed to the matching removal exactly once, no removal is
    made of a handle that is not installed (none of [NULL]), and when
    [hook_run] returns the three handle variables are [NULL]. *)
Theorem hook_run_releases_hooks a ds (g : hook_globals) :
  let g' := snd (hook_run a ds g) in
  keyboard_event_hhook g' = 0 /\ mouse_event_hhook g' = 0 /\ win_event_hhook g' = 0
  /\ exists calls,
       os_calls g' = os_calls g ++ calls
       /\ forall k h, hook_balance k h calls 0 = Some 0.
Proof.
  destruct (hook_run_steps a ds g)
    as (g3 & -> & _ & _ & _ & _ & _ & _ & _ & _ & calls1 & Hcalls1 & Hbalance1).
  cbn [snd].
  set (g4 := if hooks_installed a then
               message_loop ds
                 (hook_start_proc (start_time a)
                    (with_statics
                       (initialize_modifiers (GetKeyState_at_start a) (statics g3)) g3))
             else g3).
  destruct (hook_stop_proc_frame (stop_time a) (unregister_running_hooks g4))
    as (_ & _ & _ & _ & _ & _ & Hk & Hm & Hw & Hstop).
  cbv zeta in Hk, Hm, Hw, Hstop.
  destruct (unregister_running_hooks_handles g4) as (Hk0 & Hm0 & Hw0 & _).
  rewrite Hk, Hm, Hw, Hk0, Hm0, Hw0.
  split; [reflexivity |]. split; [reflexivity |]. split; [reflexivity |].
  assert (Hloop : accounted g3 g4).
  { unfold g4. destruct (hooks_installed a); [| apply accounted_refl].
    eapply accounted_trans; [| apply message_loop_accounted].
    eapply accounted_trans; [| apply hook_start_proc_frame].
    apply accounted_quiet; reflexivity. }
  assert (Hall : accounted g3 (hook_stop_proc (stop_time a) (unregister_running_hooks g4))).
  { eapply accounted_trans; [exact Hloop |].
    eapply accounted_trans; [apply unregister_running_hooks_accounted | exact Hstop]. }
  destruct Hall as (calls2 & Hcalls2 & Hbalance2).
  exists (calls1 ++ calls2). split.
  - rewrite Hcalls2, Hcalls1, app_assoc. reflexivity.
  - intros k h. rewrite hook_balance_app, Hbalance1, Hbalance2.
    unfold HookThread.holding. rewrite Hk, Hm, Hw, Hk0, Hm0, Hw0.
    destruct (h =? 0) eqn:E; [reflexivity |]. rewrite Z.eqb_sym, E.
    destruct k; reflexivity.
Qed.

(** *** The mask and the click tracker across the life cycle *)

(** The modifier mask starts afresh at every start and at every restart:
    after [hook_run] has started on the notifications [ns], and after a window
    event [EVENT_OBJECT_NAMECHANGE] followed by [ns], the bit of each tracked
    key says whether the last notification about it among [ns] was a press,
    or, if there was none, whether [GetKeyState] reported the key down at that
    start or restart; what the mask held before does not matter.  (The
    notifications are off the extra-button branches.) *)
Theorem modifier_mask_starts_afresh k a before again ns (g : hook_globals) :
  forallb (fun n => negb (extra_button n)) ns = true ->
  (hooks_installed a = true ->
   held k (statics (snd (hook_run a (map to_hook ns) g)))
   = pressed_last k ns (GetKeyState_at_start a (virtual_key k) <? 0))
  /\ held k (statics
               (message_loop
                  (before ++ to_win_hook EVENT_OBJECT_NAMECHANGE again :: map to_hook ns)
                  g))
     = pressed_last k ns (GetKeyState_again again (virtual_key k) <? 0).
Proof.
  intros Hstd. split.
  - intros Hinstalled.
    destruct (hook_run_steps a (map to_hook ns) g) as (g3 & -> & _). cbn [snd].
    rewrite Hinstalled.
    match goal with
    | |- context [hook_stop_proc ?t ?u] =>
        destruct (hook_stop_proc_frame t u) as (_ & _ & Hheld & _);
        cbv zeta in Hheld; rewrite Hheld; clear Hheld
    end.
    match goal with
    | |- context [unregister_running_hooks ?u] =>
        destruct (unregister_running_hooks_handles u) as (_ & _ & _ & -> & _)
    end.
    rewrite message_loop_notifications.
    rewrite (modifier_mask_tracks_keys _ _ _ _ _ _ k ns _ Hstd).
    f_equal.
    match goal with
    | |- context [hook_start_proc ?t ?u] =>
        destruct (hook_start_proc_frame t u) as (_ & _ & Hheld & _);
        cbv zeta in Hheld; rewrite Hheld; clear Hheld
    end.
    thread_frame. apply initialize_modifiers_held.
  - rewrite message_loop_app.
    unfold HookThread.message_loop at 1. cbn [fold_left HookThread.deliver].
    fold (message_loop (map to_hook ns)
            (win_hook_event_proc EVENT_OBJECT_NAMECHANGE again (message_loop before g))).
    rewrite message_loop_notifications.
    rewrite (modifier_mask_tracks_keys _ _ _ _ _ _ k ns _ Hstd).
    f_equal. apply win_hook_event_proc_restart.
Qed.

(** Neither the start and the stop of the hook nor a restart touches the
    click tracker: the count, the time stamp, the button and the position of
    the last press are carried over from one run of the hook into the next. *)
Theorem life_cycle_keeps_click_tracking a event again (g : hook_globals) :
  click_tracking (snd (hook_run a [] g)) = click_tracking g
  /\ click_tracking (win_hook_event_proc event again g) = click_tracking g.
Proof.
  split; [| apply win_hook_event_proc_frame].
  destruct (hook_run_steps a [] g) as (g3 & -> & _ & _ & _ & _ & _ & Hc & _). cbn [snd].
  match goal with
  | |- context [hook_stop_proc ?t ?u] =>
      destruct (hook_stop_proc_frame t u) as (_ & -> & _)
  end.
  assert (Hun : forall u : hook_globals,
            click_tracking (unregister_running_hooks u) = click_tracking u).
  { intros u. unfold HookThread.click_tracking.
    destruct (unregister_running_hooks_handles u) as (_ & _ & _ & -> & _). reflexivity. }
  rewrite Hun. destruct (hooks_installed a); [| exact Hc].
  unfold HookThread.message_loop. cbn [fold_left].
  match goal with
  | |- context [hook_start_proc ?t ?u] =>
      destruct (hook_start_proc_frame t u) as (_ & -> & _)
  end.
  unfold HookThread.click_tracking in *. thread_frame.
  destruct (initialize_modifiers_frame (GetKeyState_at_start a) user_data (statics g3))
    as (_ & _ & Ht & _).
  destruct (tracked_click_eq user_data _ _ Ht) as (-> & -> & -> & ->). exact Hc.
Qed.

(** *** The callback and the stop request *)

(** Once the callback has been cleared with [hook_set_dispatch_proc] and the
    hook has started, the hook procedures withhold no notification from the
    next hook, whatever had been consumed before. *)
Theorem cleared_callback_withholds_nothing data timestamp ns (g : hook_globals) :
  let g' := hook_start_proc timestamp (hook_set_dispatch_proc None data g) in
  HookThread.dispatch g' = None
  /\ dispatch_data (statics g') = data
  /\ forallb (fun verdict => verdict)
       (propagations hook_get_multi_click_time keycode_to_scancode keycode_to_unicode
          wheel_scroll_lines user_data None ns (statics g')) = true.
Proof.
  cbv zeta. split; [reflexivity |]. split; [reflexivity |].
  apply propagations_unconsumed.
  - intros e d He. unfold InputHook.sink_response, not_consumed. rewrite He. reflexivity.
  - reflexivity.
Qed.

Lemma deliver_addresses d (g : hook_globals) :
  hook_thread_id (deliver g d) = hook_thread_id g
  /\ invisible_win_hwnd (deliver g d) = invisible_win_hwnd g.
Proof.
  destruct d as [n | event a | hwnd message wParam lParam result]; cbn [HookThread.deliver].
  - split; reflexivity.
  - destruct (Z.eqb_spec event EVENT_OBJECT_NAMECHANGE) as [-> | Hother].
    + destruct (win_hook_event_proc_restart_state a g) as (_ & _ & _ & Ht & Hw & _).
      now split.
    + unfold win_hook_event_proc. apply Z.eqb_neq in Hother. rewrite Hother.
      split; reflexivity.
  - unfold WndProc.
    destruct (message =? WM_CLOSE); [| destruct (message =? WM_DESTROY);
      [| destruct (message =? WM_DISPLAYCHANGE)]]; split; reflexivity.
Qed.

Lemma message_loop_addresses ds (g : hook_globals) :
  hook_thread_id (message_loop ds g) = hook_thread_id g
  /\ invisible_win_hwnd (message_loop ds g) = invisible_win_hwnd g.
Proof.
  revert g. induction ds as [| d ds IH]; intros g; [split; reflexivity |].
  unfold HookThread.message_loop. cbn [fold_left].
  fold (message_loop ds (deliver g d)).
  destruct (IH (deliver g d)) as [-> ->]. apply deliver_addresses.
Qed.

Lemma unregister_running_hooks_addresses (g : hook_globals) :
  hook_thread_id (unregister_running_hooks g) = hook_thread_id g
  /\ invisible_win_hwnd (unregister_running_hooks g) = invisible_win_hwnd g.
Proof.
  unfold unregister_running_hooks. cbv zeta.
  destruct (negb (win_event_hhook g =? 0)); thread_frame;
    destruct (negb (keyboard_event_hhook g =? 0)); thread_frame;
    destruct (negb (mouse_event_hhook g =? 0)); thread_frame; split; reflexivity.
Qed.

(** [hook_stop] addresses the last run: it posts [WM_CLOSE] to the window
    that run created (to the window an earlier run left in
    [invisible_win_hwnd], when [RegisterClassEx] failed in the last one) and,
    only when that request was posted, [WM_QUIT] to the thread of the run;
    its status is [UIOHOOK_SUCCESS] exactly when both were posted. *)
Theorem hook_stop_addresses_last_run a ds posted signalled (g : hook_globals) :
  let g' := snd (hook_run a ds g) in
  let window := if RegisterClassEx_result a =? 0 then invisible_win_hwnd g
                else CreateWindowEx_result a in
  fst (hook_stop posted signalled g') =
    (if negb (posted =? 0) && negb (signalled =? 0) then UIOHOOK_SUCCESS
     else UIOHOOK_FAILURE)
  /\ os_calls (snd (hook_stop posted signalled g')) =
       os_calls g'
       ++ PostMessage window WM_CLOSE posted
          :: (if posted =? 0 then []
              else [PostThreadMessage (GetCurrentThreadId_result a) WM_QUIT signalled]).
Proof.
  intros g' window.
  assert (Haddr : hook_thread_id g' = GetCurrentThreadId_result a
                  /\ invisible_win_hwnd g' = window).
  { unfold g', window.
    destruct (hook_run_steps a ds g)
      as (g3 & -> & _ & _ & _ & _ & _ & _ & Htid & Hwnd & _).
    cbn [snd].
    match goal with
    | |- context [hook_stop_proc ?t ?u] =>
        destruct (hook_stop_proc_frame t u) as (_ & _ & _ & _ & -> & -> & _)
    end.
    match goal with
    | |- context [unregister_running_hooks ?u] =>
        destruct (unregister_running_hooks_addresses u) as [-> ->]
    end.
    destruct (hooks_installed a); [| now split].
    match goal with
    | |- context [message_loop ds ?u] =>
        destruct (message_loop_addresses ds u) as [-> ->]
    end.
    match goal with
    | |- context [hook_start_proc ?t ?u] =>
        destruct (hook_start_proc_frame t u) as (_ & _ & _ & _ & -> & -> & _)
    end.
    now split. }
  destruct Haddr as [Htid Hwnd].
  unfold HookThread.hook_stop. cbv zeta. thread_frame. rewrite Htid, Hwnd.
  destruct (posted =? 0); cbn [negb andb fst snd]; thread_frame;
    [split; reflexivity |].
  destruct (signalled =? 0); cbn [negb fst snd]; thread_frame;
    rewrite <- app_assoc; split; reflexivity.
Qed.

End Thread.

Lemma get_unix_timestamp_epoch_witness :
  0 <= dwLowDateTime new_year_2020 < 2 ^ 32
  /\ 0 <= dwHighDateTime new_year_2020 < 2 ^ 32
  /\ 116444736000000000
     <= dwHighDateTime new_year_2020 * 2 ^ 32 + dwLowDateTime new_year_2020
  /\ get_unix_timestamp new_year_2020 = 1577836800000.
Proof.
  assert (Hlow : 0 <= dwLowDateTime new_year_2020 < 2 ^ 32)
    by (split; [vm_compute; discriminate | reflexivity]).
  assert (Hhigh : 0 <= dwHighDateTime new_year_2020 < 2 ^ 32)
    by (split; [vm_compute; discriminate | reflexivity]).
  assert (Hafter : 116444736000000000
                   <= dwHighDateTime new_year_2020 * 2 ^ 32
                      + dwLowDateTime new_year_2020)
    by (vm_compute; discriminate).
  split; [exact Hlow |]. split; [exact Hhigh |]. split; [exact Hafter |].
  rewrite (get_unix_timestamp_epoch new_year_2020 Hlow Hhigh Hafter). reflexivity.
Defined.

Lemma modifier_mask_starts_afresh_witness :
  forallb (fun n => negb (extra_button n)) shift_click = true
  /\ hooks_installed every_request_granted = true
  /\ held BUTTON1
       (statics
          (snd (hook_run 400 (fun _ _ => 0) (fun _ => []) 3 every_request_granted
                  (map to_hook shift_click) before_first_run))) = true
  /\ held SHIFT_L
       (statics
          (message_loop 400 (fun _ _ => 0) (fun _ => []) 3
             (to_win_hook EVENT_OBJECT_NAMECHANGE left_shift_down_again :: map to_hook [])
             before_first_run)) = true.
Proof.
  assert (Hstd : forallb (fun n => negb (extra_button n)) shift_click = true)
    by reflexivity.
  assert (Hnone : forallb (fun n => negb (extra_button n)) [] = true) by reflexivity.
  assert (Hgranted : hooks_installed every_request_granted = true) by reflexivity.
  split; [exact Hstd |]. split; [exact Hgranted |]. split.
  - destruct (modifier_mask_starts_afresh 400 (fun _ _ => 0) (fun _ => []) 3 unit BUTTON1
                every_request_granted [] left_shift_down_again shift_click
                before_first_run Hstd)
      as (Hstart & _).
    rewrite (Hstart Hgranted). reflexivity.
  - destruct (modifier_mask_starts_afresh 400 (fun _ _ => 0) (fun _ => []) 3 unit SHIFT_L
                every_request_granted [] left_shift_down_again [] before_first_run Hnone)
      as (_ & Hagain).
    exact Hagain.
Defined.

End HookThreadFacts.

Module PostEventFacts.

Import CInt CIntFacts Win32 Uiohook UiohookFacts PostEvent.

Section Composer.

Variable scancode_to_keycode : Z -> Z.
Variable MapVirtualKeyW : Z -> Z -> Z.
Variable GetSystemMetrics : Z -> Z.
Variable get_largest_negative_coordinates : LARGESTNEGATIVECOORDINATES.
Variable calloc_succeeds : world -> bool.
Variable SendInput : world -> INPUT -> Z.
Variable keyboard_overlay : event_data -> keyboard_event_data.
Variable mouse_overlay : event_data -> mouse_event_data.
Variable wheel_overlay : event_data -> mouse_wheel_event_data.

(** The functions of [post_event.c] at these services. *)
Local Abbreviation data_keyboard := (@PostEvent.data_keyboard keyboard_overlay).
Local Abbreviation data_mouse := (@PostEvent.data_mouse mouse_overlay).
Local Abbreviation data_wheel := (@PostEvent.data_wheel wheel_overlay).
Local Abbreviation map_keyboard_event := (@PostEvent.map_keyboard_event scancode_to_keycode MapVirtualKeyW keyboard_overlay).
Local Abbreviation map_mouse_event := (@PostEvent.map_mouse_event GetSystemMetrics get_largest_negative_coordinates mouse_overlay wheel_overlay).
Local Abbreviation do_hook_post_event_body := (@PostEvent.do_hook_post_event_body scancode_to_keycode MapVirtualKeyW GetSystemMetrics get_largest_negative_coordinates calloc_succeeds SendInput keyboard_overlay mouse_overlay wheel_overlay).
Local Abbreviation do_hook_post_event := (@PostEvent.do_hook_post_event scancode_to_keycode MapVirtualKeyW GetSystemMetrics get_largest_negative_coordinates calloc_succeeds SendInput keyboard_overlay mouse_overlay wheel_overlay).
Local Abbreviation hook_post_event := (@PostEvent.hook_post_event scancode_to_keycode MapVirtualKeyW GetSystemMetrics get_largest_negative_coordinates calloc_succeeds SendInput keyboard_overlay mouse_overlay wheel_overlay).
Local Abbreviation hook_post_event_dont_move_mouse := (@PostEvent.hook_post_event_dont_move_mouse scancode_to_keycode MapVirtualKeyW GetSystemMetrics get_largest_negative_coordinates calloc_succeeds SendInput keyboard_overlay mouse_overlay wheel_overlay).
Local Abbreviation checked_injection := (@PostEvent.checked_injection SendInput).
Local Abbreviation target_position := (@PostEvent.target_position GetSystemMetrics get_largest_negative_coordinates mouse_overlay).
Local Abbreviation move_request := (@PostEvent.move_request GetSystemMetrics get_largest_negative_coordinates mouse_overlay).
Local Abbreviation button_request := (@PostEvent.button_request GetSystemMetrics get_largest_negative_coordinates mouse_overlay).
Local Abbreviation positioned_INPUT := (@PostEvent.positioned_INPUT GetSystemMetrics get_largest_negative_coordinates mouse_overlay).
Local Abbreviation moves_first := (@PostEvent.moves_first mouse_overlay).
Local Abbreviation preliminary_move := (@PostEvent.preliminary_move GetSystemMetrics get_largest_negative_coordinates calloc_succeeds SendInput mouse_overlay).
Local Abbreviation unsupported_event := (@PostEvent.unsupported_event mouse_overlay).
Local Abbreviation key_request_of := (@PostEvent.key_request_of scancode_to_keycode MapVirtualKeyW keyboard_overlay).
Local Abbreviation button_request_in_place := (@PostEvent.button_request_in_place mouse_overlay).
Local Abbreviation wheel_request_in_place := (@PostEvent.wheel_request_in_place wheel_overlay).

Lemma checked_injection_injected input w :
  injected (snd (checked_injection input w)) = injected w ++ [input].
Proof. unfold checked_injection. destruct (SendInput w input =? 0); reflexivity. Qed.

Lemma checked_injection_status input w :
  (fst (checked_injection input w) = UIOHOOK_FAILURE <-> SendInput w input = 0)
  /\ (fst (checked_injection input w) = UIOHOOK_SUCCESS <-> SendInput w input <> 0).
Proof.
  unfold checked_injection.
  destruct (SendInput w input =? 0) eqn:E; cbn [fst].
  - apply Z.eqb_eq in E. split; split; intros H; trivial; try discriminate.
    contradiction.
  - apply Z.eqb_neq in E. split; split; intros H; trivial; try discriminate.
    contradiction.
Qed.

Lemma checked_injection_logged input w :
  SendInput w input = 0 ->
  In (LOG_LEVEL_ERROR, "SendInput() failed! (%#lX)"%string)
     (logged (snd (checked_injection input w))).
Proof.
  intros H. unfold checked_injection. rewrite H. cbn.
  apply in_or_app. right. now left.
Qed.

Lemma checked_injection_keeps_log input w entry :
  In entry (logged w) -> In entry (logged (snd (checked_injection input w))).
Proof.
  intros H. unfold checked_injection.
  destruct (SendInput w input =? 0); cbn; trivial.
  apply in_or_app. now left.
Qed.

Lemma map_button_pressed event :
  type event = EVENT_MOUSE_PRESSED ->
  map_button (button (data_mouse event))
    MOUSEEVENTF_LEFTDOWN MOUSEEVENTF_RIGHTDOWN MOUSEEVENTF_MIDDLEDOWN MOUSEEVENTF_XDOWN
    (positioned_INPUT event)
  = button_request event.
Proof.
  intros Ht. unfold button_request, button_flag, button_data, map_button. rewrite Ht.
  destruct (button (data_mouse event) =? MOUSE_BUTTON1); [reflexivity |].
  destruct (button (data_mouse event) =? MOUSE_BUTTON2); [reflexivity |].
  destruct (button (data_mouse event) =? MOUSE_BUTTON3); [reflexivity |].
  destruct (button (data_mouse event) =? MOUSE_BUTTON4); [reflexivity |].
  destruct (button (data_mouse event) =? MOUSE_BUTTON5); reflexivity.
Qed.

Lemma map_button_released event :
  type event = EVENT_MOUSE_RELEASED ->
  map_button (button (data_mouse event))
    MOUSEEVENTF_LEFTUP MOUSEEVENTF_RIGHTUP MOUSEEVENTF_MIDDLEUP MOUSEEVENTF_XUP
    (positioned_INPUT event)
  = button_request event.
Proof.
  intros Ht. unfold button_request, button_flag, button_data, map_button. rewrite Ht.
  destruct (button (data_mouse event) =? MOUSE_BUTTON1); [reflexivity |].
  destruct (button (data_mouse event) =? MOUSE_BUTTON2); [reflexivity |].
  destruct (button (data_mouse event) =? MOUSE_BUTTON3); [reflexivity |].
  destruct (button (data_mouse event) =? MOUSE_BUTTON4); [reflexivity |].
  destruct (button (data_mouse event) =? MOUSE_BUTTON5); reflexivity.
Qed.

(** *** The nested calls *)

Lemma do_hook_post_event_S depth event move_mouse w :
  do_hook_post_event (S depth) event move_mouse w =
  do_hook_post_event_body (fun e w => do_hook_post_event depth e true w)
    event move_mouse w.
Proof. reflexivity. Qed.

Lemma post_move depth event w :
  calloc_succeeds w = true ->
  type event = EVENT_MOUSE_MOVED \/ type event = EVENT_MOUSE_DRAGGED ->
  do_hook_post_event (S depth) event true w =
    Some (fst (checked_injection (move_request event) (allocate w)), event,
          snd (checked_injection (move_request event) (allocate w))).
Proof.
  intros Hmem Ht. cbn [do_hook_post_event]. unfold do_hook_post_event_body. cbv zeta.
  rewrite Hmem. cbn [negb].
  unfold map_mouse_event, checked_injection.
  fold (target_position event).
  generalize (allocate w). intros v.
  destruct Ht as [-> | ->]; cbn;
    match goal with
    | |- context [SendInput v ?i] => change i with (move_request event)
    end;
    destruct (SendInput v (move_request event) =? 0); reflexivity.
Qed.

(** The nested call for the preliminary move, whether its allocation
    succeeds or not. *)
Lemma post_preliminary_move depth event w :
  exists status,
    do_hook_post_event (S depth) (set_type EVENT_MOUSE_MOVED event) true w =
      Some (status, set_type EVENT_MOUSE_MOVED event, preliminary_move event w).
Proof.
  unfold preliminary_move. destruct (calloc_succeeds w) eqn:Hmem.
  - rewrite (post_move depth (set_type EVENT_MOUSE_MOVED event) w Hmem
               (or_introl eq_refl)).
    eexists. reflexivity.
  - cbn [do_hook_post_event]. unfold do_hook_post_event_body. cbv zeta.
    rewrite Hmem. cbn [negb]. eexists. reflexivity.
Qed.

Lemma post_button_moved depth event w :
  calloc_succeeds w = true ->
  type event = EVENT_MOUSE_PRESSED \/ type event = EVENT_MOUSE_RELEASED ->
  button (data_mouse event) <> MOUSE_NOBUTTON ->
  let w1 := preliminary_move event (allocate w) in
  do_hook_post_event (S (S depth)) event true w =
    Some (fst (checked_injection (button_request event) w1),
          set_type EVENT_MOUSE_PRESSED event,
          snd (checked_injection (button_request event) w1)).
Proof.
  intros Hmem Ht Hb w1.
  apply Z.eqb_neq in Hb.
  rewrite do_hook_post_event_S. unfold do_hook_post_event_body. cbv zeta.
  rewrite Hmem. cbn [negb].
  destruct (post_preliminary_move depth event (allocate w)) as (moved & Hmove).
  fold w1 in Hmove.
  unfold map_mouse_event. fold (target_position event).
  fold (positioned_INPUT event).
  destruct Ht as [Ht | Ht]; rewrite Ht, Hb, Hmove.
  - rewrite (map_button_pressed event Ht). cbn [Z.eqb UIOHOOK_SUCCESS].
    unfold checked_injection.
    destruct (SendInput w1 (button_request event) =? 0); reflexivity.
  - rewrite (map_button_released event Ht). cbn [Z.eqb UIOHOOK_SUCCESS].
    unfold checked_injection.
    destruct (SendInput w1 (button_request event) =? 0); reflexivity.
Qed.

Lemma post_button depth event w :
  (forall w', calloc_succeeds w' = true) ->
  type event = EVENT_MOUSE_PRESSED \/ type event = EVENT_MOUSE_RELEASED ->
  button (data_mouse event) <> MOUSE_NOBUTTON ->
  let w1 := snd (checked_injection (move_request event) (allocate (allocate w))) in
  do_hook_post_event (S (S depth)) event true w =
    Some (fst (checked_injection (button_request event) w1),
          set_type EVENT_MOUSE_PRESSED event,
          snd (checked_injection (button_request event) w1)).
Proof.
  intros Hmem Ht Hb w1.
  rewrite (post_button_moved depth event w (Hmem w) Ht Hb).
  unfold preliminary_move. rewrite (Hmem (allocate w)). reflexivity.
Qed.

Lemma moves_first_cases event move_mouse :
  moves_first event move_mouse = true ->
  move_mouse = true
  /\ (type event = EVENT_MOUSE_PRESSED \/ type event = EVENT_MOUSE_RELEASED)
  /\ button (data_mouse event) <> MOUSE_NOBUTTON.
Proof.
  unfold moves_first. intros H.
  apply andb_true_iff in H. destruct H as [H Hb].
  apply andb_true_iff in H. destruct H as [Hm Ht].
  split; [exact Hm |]. split.
  - destruct (type event); cbn in Ht; try discriminate; [left | right]; reflexivity.
  - apply Z.eqb_neq. destruct (button (data_mouse event) =? MOUSE_NOBUTTON);
      [discriminate | reflexivity].
Qed.

Lemma preliminary_move_injected event w :
  injected (preliminary_move event w) =
    injected w ++ (if calloc_succeeds w then [move_request event] else []).
Proof.
  unfold preliminary_move. destruct (calloc_succeeds w).
  - rewrite checked_injection_injected. reflexivity.
  - cbn. now rewrite app_nil_r.
Qed.

(** *** Termination and the caller's event *)

(** A move event is mapped without a nested call. *)
Lemma post_moved_depth depth event move_mouse w :
  type event = EVENT_MOUSE_MOVED ->
  do_hook_post_event (S depth) event move_mouse w =
  do_hook_post_event 1 event move_mouse w.
Proof.
  intros Ht. cbn [do_hook_post_event]. unfold do_hook_post_event_body.
  rewrite Ht. unfold map_mouse_event. rewrite Ht. reflexivity.
Qed.

Lemma post_moved_returns event move_mouse w :
  type event = EVENT_MOUSE_MOVED ->
  exists status w',
    do_hook_post_event 1 event move_mouse w = Some (status, event, w').
Proof.
  intros Ht. cbn [do_hook_post_event]. unfold do_hook_post_event_body. cbv zeta.
  rewrite Ht. unfold map_mouse_event. rewrite Ht.
  destruct (calloc_succeeds w); cbn [negb]; [| eauto].
  cbn [Z.eqb UIOHOOK_SUCCESS].
  match goal with |- context [SendInput ?v ?i =? 0] => destruct (SendInput v i =? 0) end;
    eauto.
Qed.

(** Two levels of calls are enough for every event: deeper bounds give the
    same result. *)
Lemma do_hook_post_event_depth depth event move_mouse w :
  do_hook_post_event (S (S depth)) event move_mouse w =
  do_hook_post_event call_depth event move_mouse w.
Proof.
  unfold call_depth. rewrite !do_hook_post_event_S.
  unfold do_hook_post_event_body. cbv zeta.
  destruct (negb (calloc_succeeds w)); [reflexivity |].
  unfold map_mouse_event. cbv beta.
  rewrite (post_moved_depth depth (set_type EVENT_MOUSE_MOVED event) true (allocate w)
             eq_refl).
  reflexivity.
Qed.

(** Every post returns.  The event handed back is the caller's event, with
    its type set to [EVENT_MOUSE_PRESSED] when the preliminary move was made. *)
Lemma do_hook_post_event_returns event move_mouse w :
  exists status w',
    do_hook_post_event call_depth event move_mouse w =
      Some (status,
            (if calloc_succeeds w && moves_first event move_mouse
             then set_type EVENT_MOUSE_PRESSED event else event),
            w').
Proof.
  unfold call_depth, moves_first. rewrite do_hook_post_event_S.
  unfold do_hook_post_event_body. cbv zeta.
  destruct (calloc_succeeds w); cbn [negb andb]; [| eauto].
  generalize (allocate w). clear w. intros w.
  destruct (type event) eqn:Ht; cbn [event_type_eqb orb andb];
    rewrite ?andb_false_r; cbn [andb];
    try solve [cbn; eauto];
    try solve [destruct (map_keyboard_event event zeroed_INPUT w) as [[status input] w0];
               destruct (status =? UIOHOOK_SUCCESS); [| eauto];
               cbv zeta; destruct (SendInput w0 input =? 0); eauto];
    unfold map_mouse_event; rewrite Ht; rewrite ?andb_true_r;
    try solve [cbn [Z.eqb UIOHOOK_SUCCESS]; cbv zeta;
               match goal with
               | |- context [SendInput ?v ?i =? 0] => destruct (SendInput v i =? 0)
               end; destruct move_mouse; eauto].
  - destruct (button (data_mouse event) =? MOUSE_NOBUTTON);
      [rewrite andb_false_r; cbn; eauto |].
    rewrite andb_true_r.
    destruct move_mouse.
    + destruct (post_moved_returns (set_type EVENT_MOUSE_MOVED event) true w eq_refl)
        as (st1 & w1 & Hmove).
      rewrite Hmove. cbn [Z.eqb UIOHOOK_SUCCESS]. cbv zeta.
      match goal with
      | |- context [SendInput ?v ?i =? 0] => destruct (SendInput v i =? 0)
      end; eauto.
    + cbn [Z.eqb UIOHOOK_SUCCESS]. cbv zeta.
      match goal with
      | |- context [SendInput ?v ?i =? 0] => destruct (SendInput v i =? 0)
      end; eauto.
  - destruct (button (data_mouse event) =? MOUSE_NOBUTTON);
      [rewrite andb_false_r; cbn; eauto |].
    rewrite andb_true_r.
    destruct move_mouse.
    + destruct (post_moved_returns (set_type EVENT_MOUSE_MOVED event) true w eq_refl)
        as (st1 & w1 & Hmove).
      rewrite Hmove. cbn [Z.eqb UIOHOOK_SUCCESS]. cbv zeta.
      match goal with
      | |- context [SendInput ?v ?i =? 0] => destruct (SendInput v i =? 0)
      end; eauto.
    + cbn [Z.eqb UIOHOOK_SUCCESS]. cbv zeta.
      match goal with
      | |- context [SendInput ?v ?i =? 0] => destruct (SendInput v i =? 0)
      end; eauto.
Qed.

(** *** The composer's contracts *)


Lemma unsupported_event_body post event move_mouse w :
  unsupported_event event ->
  calloc_succeeds w = true ->
  do_hook_post_event_body post event move_mouse w =
    Some (UIOHOOK_FAILURE, event,
          {| injected := injected w; logged := logged w ++ [refusal event];
             calloc_calls := S (calloc_calls w) |}).
Proof.
  intros Hun Hmem. unfold do_hook_post_event_body, refusal. cbv zeta.
  rewrite Hmem. cbn [negb].
  destruct Hun as [[Ht Hb] | [Ht | [Ht | [Ht | Ht]]]]; try (rewrite Ht; reflexivity).
  apply Z.eqb_eq in Hb.
  destruct Ht as [Ht | Ht]; rewrite Ht; unfold map_mouse_event; rewrite Ht, Hb;
    reflexivity.
Qed.

(** C8. Posting a press or a release whose button is [MOUSE_NOBUTTON], or an
    event of type hook-enabled, hook-disabled, key-typed or mouse-clicked,
    through either entry point: the status is not [UIOHOOK_SUCCESS] (it is
    [UIOHOOK_FAILURE], the status of every refusal, whenever the request
    could be allocated), the refusal is logged, nothing is handed to
    [SendInput] and the event is unchanged. *)
Theorem unsupported_event_not_injected event move_mouse w :
  unsupported_event event ->
  exists status w',
    do_hook_post_event call_depth event move_mouse w = Some (status, event, w')
    /\ status <> UIOHOOK_SUCCESS
    /\ injected w' = injected w
    /\ (calloc_succeeds w = true ->
        status = UIOHOOK_FAILURE /\ logged w' = logged w ++ [refusal event]).
Proof.
  intros Hun. unfold call_depth. rewrite do_hook_post_event_S.
  destruct (calloc_succeeds w) eqn:Hmem.
  - rewrite (unsupported_event_body _ event move_mouse w Hun Hmem).
    eexists _, _. split; [reflexivity |]. repeat split. discriminate.
  - unfold do_hook_post_event_body. cbv zeta. rewrite Hmem. cbn [negb].
    eexists _, _. split; [reflexivity |]. repeat split; discriminate.
Qed.

(** A release posted with the preliminary move comes back typed as a
    press. *)
Lemma release_post_event_type event w :
  (forall w', calloc_succeeds w' = true) ->
  type event = EVENT_MOUSE_RELEASED ->
  button (data_mouse event) <> MOUSE_NOBUTTON ->
  exists status event' w',
    hook_post_event event w = Some (status, event', w')
    /\ type event' = EVENT_MOUSE_PRESSED.
Proof.
  intros Hmem Ht Hb. unfold hook_post_event, call_depth.
  rewrite (post_button 0 event w Hmem (or_intror Ht) Hb).
  eexists _, _, _. split; reflexivity.
Qed.

(** The loop over [extend_key_table] goes past index 0 only for [VK_UP], and
    stops at index 1: the flag is set for [VK_UP] and for no other key. *)
Lemma extend_key_loop_table wVk dwFlags :
  extend_key_loop extend_key_table wVk dwFlags =
    if wVk =? VK_UP then Z.lor dwFlags KEYEVENTF_EXTENDEDKEY else dwFlags.
Proof.
  unfold extend_key_table. cbn [extend_key_loop].
  destruct (wVk =? VK_UP) eqn:E; [| reflexivity].
  apply Z.eqb_eq in E. subst wVk. reflexivity.
Qed.

Lemma MulDiv_int a b c : fits_signed 32 (MulDiv a b c).
Proof.
  unfold MulDiv, fits_signed. change (2 ^ (32 - 1)) with 2147483648.
  destruct (c =? 0) eqn:Ec; [lia |].
  apply Z.eqb_neq in Ec.
  set (q := (Z.abs (a * b) + Z.abs c / 2) / Z.abs c).
  assert (Hq : 0 <= q).
  { apply Z.div_pos; [| lia].
    pose proof (Z.div_pos (Z.abs c) 2). lia. }
  destruct (q >? INT_MAX) eqn:E; [lia |].
  assert (q <= INT_MAX) by (rewrite Z.gtb_ltb in E; apply Z.ltb_ge in E; exact E).
  unfold INT_MAX in *.
  destruct (Z.sgn (a * b) * Z.sgn c <? 0); lia.
Qed.

(** [MulDiv] by a positive denominator gives the integer nearest to the
    quotient, as long as that integer fits an [int]. *)
Lemma MulDiv_nearest a b c :
  0 < c ->
  Z.abs (a * b) <= INT_MAX * c ->
  2 * Z.abs (MulDiv a b c * c - a * b) <= c.
Proof.
  intros Hc Hfit. unfold MulDiv.
  assert (Ec : (c =? 0) = false) by (apply Z.eqb_neq; lia). rewrite Ec.
  rewrite (Z.abs_eq c) by lia. rewrite (Z.sgn_pos c) by lia.
  generalize dependent (a * b). intros p Hfit.
  pose proof (Z.div_mod (Z.abs p + c / 2) c ltac:(lia)) as Hdm.
  pose proof (Z.mod_pos_bound (Z.abs p + c / 2) c Hc) as Hmod.
  pose proof (Z.div_mod c 2 ltac:(lia)) as Hhalf.
  pose proof (Z.mod_pos_bound c 2 ltac:(lia)) as Hhalfmod.
  revert Hdm Hmod.
  generalize ((Z.abs p + c / 2) mod c) as m.
  generalize ((Z.abs p + c / 2) / c) as q.
  intros q m Hdm Hmod.
  assert (Hq : q <= INT_MAX).
  { assert (c * q < (INT_MAX + 1) * c) by lia.
    apply Z.lt_succ_r. apply (Z.mul_lt_mono_pos_r c); lia. }
  assert (Eq : (q >? INT_MAX) = false)
    by (rewrite Z.gtb_ltb; apply Z.ltb_ge; exact Hq).
  rewrite Eq. rewrite Z.mul_1_r.
  destruct (Z.sgn p <? 0) eqn:Es.
  - apply Z.ltb_lt in Es. apply Z.sgn_neg_iff in Es. lia.
  - apply Z.ltb_ge in Es. apply Z.sgn_nonneg in Es. lia.
Qed.

Lemma normalize_coordinates_steps x y screen_width screen_height lnc :
  Z.abs (x + Z.abs (left lnc)) < INT_MAX ->
  Z.abs (y + Z.abs (top lnc)) < INT_MAX ->
  normalize_coordinates x y screen_width screen_height lnc =
    {| nc_x := normalized x (left lnc) screen_width;
       nc_y := normalized y (top lnc) screen_height |}.
Proof.
  intros Hx Hy. unfold normalize_coordinates, normalized, away_from_zero,
    get_absolute_coordinate, LONG, int_, INT_MAX in *.
  assert (Hid : forall v, Z.abs v <= 2147483647 -> to_signed 32 v = v).
  { intros v Hv. apply to_signed_exact; [lia |].
    unfold fits_signed. change (2 ^ (32 - 1)) with 2147483648. lia. }
  rewrite (Hid (x + Z.abs (left lnc))), (Hid (y + Z.abs (top lnc))) by lia.
  assert (Hx' : to_signed 32 ((if x + Z.abs (left lnc) =? 0
                               then to_signed 32 (x + Z.abs (left lnc) + 1)
                               else x + Z.abs (left lnc)))
                = if x + Z.abs (left lnc) =? 0 then x + Z.abs (left lnc) + 1
                  else x + Z.abs (left lnc)).
  { destruct (x + Z.abs (left lnc) =? 0);
      [rewrite !(Hid (x + Z.abs (left lnc) + 1)) by lia | rewrite Hid by lia];
      reflexivity. }
  assert (Hy' : to_signed 32 ((if y + Z.abs (top lnc) =? 0
                               then to_signed 32 (y + Z.abs (top lnc) + 1)
                               else y + Z.abs (top lnc)))
                = if y + Z.abs (top lnc) =? 0 then y + Z.abs (top lnc) + 1
                  else y + Z.abs (top lnc)).
  { destruct (y + Z.abs (top lnc) =? 0);
      [rewrite !(Hid (y + Z.abs (top lnc) + 1)) by lia | rewrite Hid by lia];
      reflexivity. }
  rewrite Hx', Hy'.
  rewrite !(to_signed_exact 32 (MulDiv _ _ _)) by (try lia; apply MulDiv_int).
  reflexivity.
Qed.

(** C9, as the code has it.  What [hook_post_event] injects with absolute
    positioning (a move or drag event, and the preliminary move it makes for
    a press or release of a real button) goes to coordinates computed in
    three steps, in this order: the absolute value of the largest negative
    coordinate of the displays is added to the logical coordinate; a result
    of exactly 0 is raised to 1; the result is scaled by
    [MAX_WINDOWS_COORD_VALUE = 2^16] over the screen dimension, [MulDiv]
    giving the integer nearest to [logical * 2^16 / screen_dimension].  That
    request comes first, and no request after it is absolute. *)
Theorem absolute_move_coordinates event w :
  let width := uint16_t (GetSystemMetrics SM_CXVIRTUALSCREEN) in
  let height := uint16_t (GetSystemMetrics SM_CYVIRTUALSCREEN) in
  let lnc := get_largest_negative_coordinates in
  let lx := x (data_mouse event) + Z.abs (left lnc) in
  let ly := y (data_mouse event) + Z.abs (top lnc) in
  calloc_succeeds w = true ->
  type event = EVENT_MOUSE_MOVED \/ type event = EVENT_MOUSE_DRAGGED
  \/ (moves_first event true = true /\ calloc_succeeds (allocate w) = true) ->
  0 < width -> 0 < height ->
  Z.abs lx <= 32767 * width -> Z.abs ly <= 32767 * height ->
  exists status event' w' request rest,
    hook_post_event event w = Some (status, event', w')
    /\ injected w' = injected w ++ request :: rest
    /\ mi_dwFlags (mi request) =
         Z.lor MOUSEEVENTF_ABSOLUTE (Z.lor MOUSEEVENTF_MOVE MOUSEEVENTF_VIRTUALDESK)
    /\ (forall later,
          In later rest -> Z.land (mi_dwFlags (mi later)) MOUSEEVENTF_ABSOLUTE = 0)
    /\ dx (mi request) = MulDiv (away_from_zero lx) MAX_WINDOWS_COORD_VALUE width
    /\ dy (mi request) = MulDiv (away_from_zero ly) MAX_WINDOWS_COORD_VALUE height
    /\ MAX_WINDOWS_COORD_VALUE = 2 ^ 16
    /\ 2 * Z.abs (dx (mi request) * width - away_from_zero lx * 2 ^ 16) <= width
    /\ 2 * Z.abs (dy (mi request) * height - away_from_zero ly * 2 ^ 16) <= height.
Proof.
  intros width height lnc lx ly Hmem Ht Hw Hh Hx Hy.
  assert (Hwmax : width < 65536).
  { unfold width, uint16_t, to_unsigned. apply Z.mod_pos_bound. reflexivity. }
  assert (Hhmax : height < 65536).
  { unfold height, uint16_t, to_unsigned. apply Z.mod_pos_bound. reflexivity. }
  assert (Hsteps : target_position event =
                   {| nc_x := normalized (x (data_mouse event)) (left lnc) width;
                      nc_y := normalized (y (data_mouse event)) (top lnc) height |}).
  { unfold target_position. apply normalize_coordinates_steps.
    - change (Z.abs lx < INT_MAX). clearbody lx width. unfold INT_MAX. lia.
    - change (Z.abs ly < INT_MAX). clearbody ly height. unfold INT_MAX. lia. }
  assert (Hnear : forall v d, 0 < d -> Z.abs v <= 32767 * d ->
            2 * Z.abs (MulDiv (away_from_zero v) MAX_WINDOWS_COORD_VALUE d * d
                       - away_from_zero v * 2 ^ 16) <= d).
  { intros v d Hd Hv. change (2 ^ 16) with MAX_WINDOWS_COORD_VALUE.
    apply MulDiv_nearest; [exact Hd |].
    change MAX_WINDOWS_COORD_VALUE with 65536. unfold INT_MAX, away_from_zero.
    destruct (v =? 0) eqn:E.
    - apply Z.eqb_eq in E. subst v. lia.
    - rewrite Z.abs_mul. change (Z.abs 65536) with 65536. lia. }
  assert (Hcoordinates :
            dx (mi (move_request event))
              = MulDiv (away_from_zero lx) MAX_WINDOWS_COORD_VALUE width
            /\ dy (mi (move_request event))
                 = MulDiv (away_from_zero ly) MAX_WINDOWS_COORD_VALUE height
            /\ MAX_WINDOWS_COORD_VALUE = 2 ^ 16
            /\ 2 * Z.abs (dx (mi (move_request event)) * width
                          - away_from_zero lx * 2 ^ 16) <= width
            /\ 2 * Z.abs (dy (mi (move_request event)) * height
                          - away_from_zero ly * 2 ^ 16) <= height).
  { cbn [move_request mi dx dy]. rewrite Hsteps. cbn [nc_x nc_y].
    unfold normalized. fold lx ly.
    split; [reflexivity |]. split; [reflexivity |]. split; [reflexivity |].
    split; apply Hnear; assumption. }
  assert (Hmoved : type event = EVENT_MOUSE_MOVED \/ type event = EVENT_MOUSE_DRAGGED ->
            exists status event' w' request rest,
              hook_post_event event w = Some (status, event', w')
              /\ injected w' = injected w ++ request :: rest
              /\ mi_dwFlags (mi request) =
                   Z.lor MOUSEEVENTF_ABSOLUTE
                     (Z.lor MOUSEEVENTF_MOVE MOUSEEVENTF_VIRTUALDESK)
              /\ (forall later,
                    In later rest ->
                    Z.land (mi_dwFlags (mi later)) MOUSEEVENTF_ABSOLUTE = 0)
              /\ dx (mi request) = MulDiv (away_from_zero lx) MAX_WINDOWS_COORD_VALUE width
              /\ dy (mi request)
                   = MulDiv (away_from_zero ly) MAX_WINDOWS_COORD_VALUE height
              /\ MAX_WINDOWS_COORD_VALUE = 2 ^ 16
              /\ 2 * Z.abs (dx (mi request) * width - away_from_zero lx * 2 ^ 16)
                 <= width
              /\ 2 * Z.abs (dy (mi request) * height - away_from_zero ly * 2 ^ 16)
                 <= height).
  { intros Hmove.
    exists (fst (checked_injection (move_request event) (allocate w))), event,
           (snd (checked_injection (move_request event) (allocate w))),
           (move_request event), [].
    split; [apply (post_move 1 event w Hmem Hmove) |].
    split; [rewrite checked_injection_injected; reflexivity |].
    split; [reflexivity |]. split; [intros later []|]. exact Hcoordinates. }
  destruct Ht as [Ht | [Ht | [Hfirst Hnested]]];
    [apply Hmoved; left; exact Ht | apply Hmoved; right; exact Ht |].
  destruct (moves_first_cases event true Hfirst) as (_ & Hbutton & Hb).
  exists (fst (checked_injection (button_request event)
                 (preliminary_move event (allocate w)))),
         (set_type EVENT_MOUSE_PRESSED event),
         (snd (checked_injection (button_request event)
                 (preliminary_move event (allocate w)))),
         (move_request event), [button_request event].
  split; [apply (post_button_moved 0 event w Hmem Hbutton Hb) |].
  split.
  { rewrite checked_injection_injected, preliminary_move_injected, Hnested,
      <- app_assoc. reflexivity. }
  split; [reflexivity |].
  split; [| exact Hcoordinates].
  intros later [<- | []]. cbn [button_request mi mi_dwFlags]. unfold button_flag.
  destruct (type event);
    repeat match goal with
           | |- context [if ?c then _ else _] => destruct c
           end; reflexivity.
Qed.

Lemma map_keyboard_event_request event w :
  type event = EVENT_KEY_PRESSED \/ type event = EVENT_KEY_RELEASED ->
  WORD (scancode_to_keycode (keycode (data_keyboard event))) <> 0 ->
  map_keyboard_event event zeroed_INPUT w = (UIOHOOK_SUCCESS, key_request_of event, w).
Proof.
  intros Ht Hvk. apply Z.eqb_neq in Hvk.
  unfold map_keyboard_event, key_request_of. cbv zeta.
  destruct Ht as [Ht | Ht]; rewrite Ht;
    cbn [with_ki with_wVk with_ki_dwFlags with_wScan with_input_type ki wVk ki_dwFlags
         zeroed_INPUT mi input_type];
    rewrite Hvk;
    destruct (negb (Z.land (mask event) MASK_SHIFT =? 0)); cbn [andb];
    rewrite ?extend_key_loop_table;
    try reflexivity;
    destruct (WORD (scancode_to_keycode (keycode (data_keyboard event))) =? VK_UP);
    reflexivity.
Qed.

Lemma post_key depth event move_mouse w :
  calloc_succeeds w = true ->
  type event = EVENT_KEY_PRESSED \/ type event = EVENT_KEY_RELEASED ->
  WORD (scancode_to_keycode (keycode (data_keyboard event))) <> 0 ->
  do_hook_post_event (S depth) event move_mouse w =
    Some (fst (checked_injection (key_request_of event) (allocate w)), event,
          snd (checked_injection (key_request_of event) (allocate w))).
Proof.
  intros Hmem Ht Hvk.
  rewrite do_hook_post_event_S. unfold do_hook_post_event_body. cbv zeta.
  rewrite Hmem. cbn [negb].
  assert (Hmap := map_keyboard_event_request event (allocate w) Ht Hvk).
  unfold checked_injection.
  destruct Ht as [Ht | Ht]; rewrite Ht, Hmap; cbn [Z.eqb UIOHOOK_SUCCESS]; cbv zeta;
    destruct (SendInput (allocate w) (key_request_of event) =? 0); reflexivity.
Qed.

Lemma key_without_mapping_lookup event move_mouse w :
  type event = EVENT_KEY_PRESSED \/ type event = EVENT_KEY_RELEASED ->
  WORD (scancode_to_keycode (keycode (data_keyboard event))) = 0 ->
  calloc_succeeds w = true ->
  do_hook_post_event call_depth event move_mouse w =
    Some (UIOHOOK_FAILURE, event,
          {| injected := injected w;
             logged := logged w ++ [(LOG_LEVEL_WARN, "Unable to lookup scancode: %li"%string)];
             calloc_calls := S (calloc_calls w) |}).
Proof.
  intros Ht Hvk Hmem. apply Z.eqb_eq in Hvk.
  unfold call_depth. rewrite do_hook_post_event_S. unfold do_hook_post_event_body.
  cbv zeta. rewrite Hmem. cbn [negb]. unfold map_keyboard_event.
  destruct Ht as [Ht | Ht]; rewrite Ht;
    cbn [with_ki with_wVk with_ki_dwFlags with_input_type ki wVk zeroed_INPUT];
    rewrite Hvk; reflexivity.
Qed.

(** A key event whose code has no native key is refused: the failure is
    logged and returned, and nothing is injected. *)
Theorem key_without_mapping_not_injected event move_mouse w :
  type event = EVENT_KEY_PRESSED \/ type event = EVENT_KEY_RELEASED ->
  WORD (scancode_to_keycode (keycode (data_keyboard event))) = 0 ->
  calloc_succeeds w = true ->
  do_hook_post_event call_depth event move_mouse w =
    Some (UIOHOOK_FAILURE, event,
          {| injected := injected w;
             logged := logged w ++ [(LOG_LEVEL_WARN, "Unable to lookup scancode: %li"%string)];
             calloc_calls := S (calloc_calls w) |}).
Proof. apply key_without_mapping_lookup. Qed.

(** A key event whose code has a native key is injected in one call to
    [SendInput]; when that call fails the failure is logged and returned, and
    no second call is made. *)
Theorem key_post_injects_once event move_mouse w :
  type event = EVENT_KEY_PRESSED \/ type event = EVENT_KEY_RELEASED ->
  WORD (scancode_to_keycode (keycode (data_keyboard event))) <> 0 ->
  calloc_succeeds w = true ->
  exists status w',
    do_hook_post_event call_depth event move_mouse w = Some (status, event, w')
    /\ injected w' = injected w ++ [key_request_of event]
    /\ (status = UIOHOOK_FAILURE <-> SendInput (allocate w) (key_request_of event) = 0)
    /\ (status = UIOHOOK_SUCCESS <-> SendInput (allocate w) (key_request_of event) <> 0)
    /\ (SendInput (allocate w) (key_request_of event) = 0 ->
        logged w' = logged w ++ [(LOG_LEVEL_ERROR, "SendInput() failed! (%#lX)"%string)]).
Proof.
  intros Ht Hvk Hmem.
  exists (fst (checked_injection (key_request_of event) (allocate w))),
         (snd (checked_injection (key_request_of event) (allocate w))).
  split.
  - apply (post_key 1 event move_mouse w Hmem Ht Hvk).
  - split; [rewrite checked_injection_injected; reflexivity |].
    split; [apply checked_injection_status |].
    split; [apply checked_injection_status |].
    intros Hfail. unfold checked_injection. rewrite Hfail. reflexivity.
Qed.

(** A wheel event is injected as a wheel request whose [mouseData] is the
    product of the amount and the rotation. *)
Theorem wheel_post_request event w :
  type event = EVENT_MOUSE_WHEEL ->
  calloc_succeeds w = true ->
  exists status w' request,
    hook_post_event_dont_move_mouse event w = Some (status, event, w')
    /\ injected w' = injected w ++ [request]
    /\ input_type request = INPUT_MOUSE
    /\ mi_dwFlags (mi request) = MOUSEEVENTF_WHEEL
    /\ mouseData (mi request) =
         DWORD (int_ (amount (data_wheel event) * rotation (data_wheel event)))
    /\ dx (mi request) = 0 /\ dy (mi request) = 0.
Proof.
  intros Ht Hmem.
  unfold hook_post_event_dont_move_mouse, call_depth.
  rewrite do_hook_post_event_S. unfold do_hook_post_event_body. cbv zeta.
  rewrite Hmem, Ht. cbn [negb]. unfold map_mouse_event. rewrite Ht.
  cbn [Z.eqb UIOHOOK_SUCCESS]. cbv zeta.
  match goal with
  | |- context [SendInput ?v ?i =? 0] =>
      destruct (SendInput v i =? 0); eexists _, _, i;
        (split; [reflexivity |]); repeat split
  end.
Qed.

(** Every post returns, at any bound of two or more on the nesting; the
    event handed back is the caller's event, retyped as a press when the
    preliminary move was made. *)
Theorem hook_post_event_returns depth event move_mouse w :
  exists status w',
    do_hook_post_event (S (S depth)) event move_mouse w =
      Some (status,
            (if calloc_succeeds w && moves_first event move_mouse
             then set_type EVENT_MOUSE_PRESSED event else event),
            w').
Proof.
  rewrite do_hook_post_event_depth. apply do_hook_post_event_returns.
Qed.

(** *** Allocation failure and the posts that leave the cursor alone *)

(** When [calloc] fails, a post returns [UIOHOOK_ERROR_OUT_OF_MEMORY] for
    every event, whatever its type: the failure is logged, nothing is handed
    to [SendInput] and the event is untouched. *)
Theorem post_out_of_memory event move_mouse w :
  calloc_succeeds w = false ->
  do_hook_post_event call_depth event move_mouse w =
    Some (UIOHOOK_ERROR_OUT_OF_MEMORY, event,
          {| injected := injected w;
             logged := logged w
                       ++ [(LOG_LEVEL_ERROR, "failed to allocate memory: calloc!"%string)];
             calloc_calls := S (calloc_calls w) |}).
Proof.
  intros Hmem. unfold call_depth. rewrite do_hook_post_event_S.
  unfold do_hook_post_event_body. cbv zeta. rewrite Hmem. reflexivity.
Qed.

Lemma map_button_in_place event :
  map_button (button (data_mouse event))
    (button_flag (type event) MOUSE_BUTTON1) (button_flag (type event) MOUSE_BUTTON2)
    (button_flag (type event) MOUSE_BUTTON3) (button_flag (type event) MOUSE_BUTTON4)
    (with_mi with_mi_reset (with_input_type INPUT_MOUSE zeroed_INPUT))
  = button_request_in_place event.
Proof.
  unfold button_request_in_place, button_flag, button_data, map_button.
  destruct (type event);
    (destruct (button (data_mouse event) =? MOUSE_BUTTON1); [reflexivity |]);
    (destruct (button (data_mouse event) =? MOUSE_BUTTON2); [reflexivity |]);
    (destruct (button (data_mouse event) =? MOUSE_BUTTON3); [reflexivity |]);
    (destruct (button (data_mouse event) =? MOUSE_BUTTON4); [reflexivity |]);
    destruct (button (data_mouse event) =? MOUSE_BUTTON5); reflexivity.
Qed.

Lemma post_button_in_place depth event w :
  calloc_succeeds w = true ->
  type event = EVENT_MOUSE_PRESSED \/ type event = EVENT_MOUSE_RELEASED ->
  button (data_mouse event) <> MOUSE_NOBUTTON ->
  do_hook_post_event (S depth) event false w =
    Some (fst (checked_injection (button_request_in_place event) (allocate w)), event,
          snd (checked_injection (button_request_in_place event) (allocate w))).
Proof.
  intros Hmem Ht Hb. apply Z.eqb_neq in Hb.
  rewrite do_hook_post_event_S. unfold do_hook_post_event_body. cbv zeta.
  rewrite Hmem. cbn [negb]. unfold map_mouse_event.
  pose proof (map_button_in_place event) as Hmap.
  destruct Ht as [Ht | Ht]; rewrite Ht in *; rewrite Hb;
    cbn [button_flag Z.eqb Pos.eqb MOUSE_BUTTON1 MOUSE_BUTTON2 MOUSE_BUTTON3 MOUSE_BUTTON4]
      in Hmap;
    rewrite Hmap; cbn [Z.eqb UIOHOOK_SUCCESS]; unfold checked_injection;
    destruct (SendInput (allocate w) (button_request_in_place event) =? 0); reflexivity.
Qed.

(** A press or release of a real button posted through
    [hook_post_event_dont_move_mouse] makes one call to [SendInput] and no
    move: the request carries the flag and the data of the button and no
    coordinates, and the event comes back as it was handed over, its type
    included. *)
Theorem button_post_in_place event w :
  calloc_succeeds w = true ->
  type event = EVENT_MOUSE_PRESSED \/ type event = EVENT_MOUSE_RELEASED ->
  button (data_mouse event) <> MOUSE_NOBUTTON ->
  exists status w' request,
    hook_post_event_dont_move_mouse event w = Some (status, event, w')
    /\ injected w' = injected w ++ [request]
    /\ input_type request = INPUT_MOUSE
    /\ mi_dwFlags (mi request) = button_flag (type event) (button (data_mouse event))
    /\ mouseData (mi request) = button_data (button (data_mouse event))
    /\ dx (mi request) = 0 /\ dy (mi request) = 0
    /\ (status = UIOHOOK_FAILURE <-> SendInput (allocate w) request = 0)
    /\ (status = UIOHOOK_SUCCESS <-> SendInput (allocate w) request <> 0).
Proof.
  intros Hmem Ht Hb.
  exists (fst (checked_injection (button_request_in_place event) (allocate w))),
         (snd (checked_injection (button_request_in_place event) (allocate w))),
         (button_request_in_place event).
  split; [apply (post_button_in_place 1 event w Hmem Ht Hb) |].
  split; [rewrite checked_injection_injected; reflexivity |].
  split; [reflexivity |]. split; [reflexivity |]. split; [reflexivity |].
  split; [reflexivity |]. split; [reflexivity |].
  apply checked_injection_status.
Qed.

Lemma post_move_in_place depth event w :
  calloc_succeeds w = true ->
  type event = EVENT_MOUSE_MOVED \/ type event = EVENT_MOUSE_DRAGGED ->
  do_hook_post_event (S depth) event false w =
    Some (fst (checked_injection move_request_in_place (allocate w)), event,
          snd (checked_injection move_request_in_place (allocate w))).
Proof.
  intros Hmem Ht. rewrite do_hook_post_event_S. unfold do_hook_post_event_body.
  cbv zeta. rewrite Hmem. cbn [negb]. unfold map_mouse_event, checked_injection.
  generalize (allocate w). intros v.
  destruct Ht as [-> | ->]; cbn;
    match goal with
    | |- context [SendInput v ?i] => change i with move_request_in_place
    end;
    destruct (SendInput v move_request_in_place =? 0); reflexivity.
Qed.

(** A move or drag event posted through [hook_post_event_dont_move_mouse]
    is still injected as an absolute move on the virtual desktop, with the
    coordinates (0, 0) whatever the position of the event. *)
Theorem move_post_in_place event w :
  calloc_succeeds w = true ->
  type event = EVENT_MOUSE_MOVED \/ type event = EVENT_MOUSE_DRAGGED ->
  exists status w' request,
    hook_post_event_dont_move_mouse event w = Some (status, event, w')
    /\ injected w' = injected w ++ [request]
    /\ mi_dwFlags (mi request) =
         Z.lor MOUSEEVENTF_ABSOLUTE (Z.lor MOUSEEVENTF_MOVE MOUSEEVENTF_VIRTUALDESK)
    /\ dx (mi request) = 0 /\ dy (mi request) = 0.
Proof.
  intros Hmem Ht.
  exists (fst (checked_injection move_request_in_place (allocate w))),
         (snd (checked_injection move_request_in_place (allocate w))),
         move_request_in_place.
  split; [apply (post_move_in_place 1 event w Hmem Ht) |].
  split; [rewrite checked_injection_injected; reflexivity |]. repeat split.
Qed.

Lemma post_wheel_in_place depth event w :
  calloc_succeeds w = true ->
  type event = EVENT_MOUSE_WHEEL ->
  do_hook_post_event (S depth) event false w =
    Some (fst (checked_injection (wheel_request_in_place event) (allocate w)), event,
          snd (checked_injection (wheel_request_in_place event) (allocate w))).
Proof.
  intros Hmem Ht. rewrite do_hook_post_event_S. unfold do_hook_post_event_body.
  cbv zeta. rewrite Hmem, Ht. cbn [negb]. unfold map_mouse_event, checked_injection.
  rewrite Ht. cbn [Z.eqb UIOHOOK_SUCCESS]. cbv zeta.
  generalize (allocate w). intros v.
  match goal with
  | |- context [SendInput v ?i] => change i with (wheel_request_in_place event)
  end.
  destruct (SendInput v (wheel_request_in_place event) =? 0); reflexivity.
Qed.

(** *** The range and the order of the absolute coordinates *)

Lemma MulDiv_positive_denominator a b c :
  0 < c ->
  Z.abs (a * b) <= INT_MAX * c ->
  MulDiv a b c =
    if a * b <? 0 then - ((- (a * b) + c / 2) / c) else (a * b + c / 2) / c.
Proof.
  intros Hc Hfit. unfold MulDiv.
  assert (Ec : (c =? 0) = false) by (apply Z.eqb_neq; lia). rewrite Ec.
  rewrite (Z.abs_eq c) by lia. rewrite (Z.sgn_pos c) by lia. cbv zeta.
  generalize dependent (a * b). intros p Hfit.
  assert (Hq : (Z.abs p + c / 2) / c <= INT_MAX).
  { pose proof (Z.div_mod (Z.abs p + c / 2) c ltac:(lia)) as Hdm.
    pose proof (Z.mod_pos_bound (Z.abs p + c / 2) c Hc) as Hmod.
    pose proof (Z.div_mod c 2 ltac:(lia)) as Hhalf.
    pose proof (Z.mod_pos_bound c 2 ltac:(lia)) as Hhalfmod.
    revert Hdm Hmod.
    generalize ((Z.abs p + c / 2) mod c) as m.
    generalize ((Z.abs p + c / 2) / c) as q.
    intros q m Hdm Hmod.
    assert (c * q < (INT_MAX + 1) * c) by lia.
    apply Z.lt_succ_r. apply (Z.mul_lt_mono_pos_r c); lia. }
  assert (Eq : ((Z.abs p + c / 2) / c >? INT_MAX) = false)
    by (rewrite Z.gtb_ltb; apply Z.ltb_ge; exact Hq).
  rewrite Eq, Z.mul_1_r.
  destruct (p <? 0) eqn:Ep.
  - apply Z.ltb_lt in Ep.
    assert (Es : (Z.sgn p <? 0) = true) by (rewrite Z.sgn_neg by lia; reflexivity).
    rewrite Es, (Z.abs_neq p) by lia. reflexivity.
  - apply Z.ltb_ge in Ep.
    assert (Es : (Z.sgn p <? 0) = false) by (apply Z.ltb_ge; now apply Z.sgn_nonneg).
    rewrite Es, (Z.abs_eq p) by lia. reflexivity.
Qed.

Lemma normalized_on_screen logical offset screen_size :
  2 <= screen_size <= USHRT_MAX ->
  0 <= logical + Z.abs offset < screen_size ->
  1 <= normalized logical offset screen_size <= USHRT_MAX.
Proof.
  intros Hsize Hv. unfold normalized, away_from_zero, USHRT_MAX in *.
  change MAX_WINDOWS_COORD_VALUE with 65536.
  set (v := logical + Z.abs offset) in *.
  assert (Hv' : 1 <= (if v =? 0 then v + 1 else v) < screen_size).
  { destruct (Z.eqb_spec v 0); lia. }
  revert Hv'. generalize (if v =? 0 then v + 1 else v). intros v' Hv'.
  rewrite MulDiv_positive_denominator by (unfold INT_MAX; rewrite ?Z.abs_eq; nia).
  assert (Epos : (v' * 65536 <? 0) = false) by (apply Z.ltb_ge; lia).
  rewrite Epos.
  pose proof (Z.div_mod screen_size 2 ltac:(lia)) as Hhalf.
  pose proof (Z.mod_pos_bound screen_size 2 ltac:(lia)) as Hhalfmod.
  split.
  - apply Z.div_le_lower_bound; lia.
  - apply Z.lt_succ_r. apply Z.div_lt_upper_bound; lia.
Qed.

(** A point on the virtual screen is injected at coordinates between 1 and
    65535: never at 0, never past the end of the range. *)
Theorem normalize_coordinates_on_screen x y screen_width screen_height lnc :
  2 <= screen_width <= USHRT_MAX ->
  2 <= screen_height <= USHRT_MAX ->
  0 <= x + Z.abs (left lnc) < screen_width ->
  0 <= y + Z.abs (top lnc) < screen_height ->
  let nc := normalize_coordinates x y screen_width screen_height lnc in
  1 <= nc_x nc <= USHRT_MAX /\ 1 <= nc_y nc <= USHRT_MAX.
Proof.
  intros Hw Hh Hx Hy nc. unfold nc.
  rewrite normalize_coordinates_steps by (unfold INT_MAX, USHRT_MAX in *; lia).
  cbn [nc_x nc_y]. split; apply normalized_on_screen; assumption.
Qed.

Lemma normalized_monotone logical logical' offset screen_size :
  0 < screen_size ->
  Z.abs (logical + Z.abs offset) <= 32767 * screen_size ->
  Z.abs (logical' + Z.abs offset) <= 32767 * screen_size ->
  logical <= logical' ->
  normalized logical offset screen_size <= normalized logical' offset screen_size.
Proof.
  intros Hsize Hfit Hfit' Hle. unfold normalized.
  change MAX_WINDOWS_COORD_VALUE with 65536.
  assert (Hafz : forall v, Z.abs v <= 32767 * screen_size ->
            Z.abs (away_from_zero v * 65536) <= INT_MAX * screen_size).
  { intros v Hv. unfold away_from_zero, INT_MAX.
    destruct (Z.eqb_spec v 0);
      [subst; change (Z.abs ((0 + 1) * 65536)) with 65536; lia |].
    rewrite Z.abs_mul. change (Z.abs 65536) with 65536. lia. }
  rewrite !MulDiv_positive_denominator by (try exact Hsize; apply Hafz; assumption).
  assert (Hmono : away_from_zero (logical + Z.abs offset)
                  <= away_from_zero (logical' + Z.abs offset)).
  { unfold away_from_zero.
    destruct (Z.eqb_spec (logical + Z.abs offset) 0);
      destruct (Z.eqb_spec (logical' + Z.abs offset) 0); lia. }
  revert Hmono.
  generalize (away_from_zero (logical + Z.abs offset)) as v.
  generalize (away_from_zero (logical' + Z.abs offset)) as v'.
  intros v' v Hmono.
  assert (Hhalf : 0 <= screen_size / 2) by (apply Z.div_pos; lia).
  destruct (v * 65536 <? 0) eqn:E; destruct (v' * 65536 <? 0) eqn:E'.
  - apply Z.ltb_lt in E. apply Z.ltb_lt in E'.
    apply Z.opp_le_mono. rewrite !Z.opp_involutive.
    apply Z.div_le_mono; lia.
  - apply Z.ltb_lt in E. apply Z.ltb_ge in E'.
    assert (0 <= (- (v * 65536) + screen_size / 2) / screen_size)
      by (apply Z.div_pos; lia).
    assert (0 <= (v' * 65536 + screen_size / 2) / screen_size)
      by (apply Z.div_pos; lia).
    lia.
  - apply Z.ltb_ge in E. apply Z.ltb_lt in E'. lia.
  - apply Z.ltb_ge in E. apply Z.ltb_ge in E'. apply Z.div_le_mono; lia.
Qed.

(** The absolute coordinates keep the order of the logical ones: of two
    points the one further right is never injected further left, and the one
    further down never further up. *)
Theorem normalize_coordinates_monotone x x' y y' screen_width screen_height lnc :
  0 < screen_width -> 0 < screen_height ->
  Z.abs (x + Z.abs (left lnc)) <= 32767 * screen_width ->
  Z.abs (x' + Z.abs (left lnc)) <= 32767 * screen_width ->
  Z.abs (y + Z.abs (top lnc)) <= 32767 * screen_height ->
  Z.abs (y' + Z.abs (top lnc)) <= 32767 * screen_height ->
  screen_width <= USHRT_MAX -> screen_height <= USHRT_MAX ->
  let nc := normalize_coordinates x y screen_width screen_height lnc in
  let nc' := normalize_coordinates x' y' screen_width screen_height lnc in
  (x <= x' -> nc_x nc <= nc_x nc') /\ (y <= y' -> nc_y nc <= nc_y nc').
Proof.
  intros Hw Hh Hx Hx' Hy Hy' Hwmax Hhmax nc nc'. unfold nc, nc'.
  rewrite !normalize_coordinates_steps by (unfold INT_MAX, USHRT_MAX in *; nia).
  cbn [nc_x nc_y]. split; intros Hle; apply normalized_monotone; assumption.
Qed.

(** *** The status of a post *)

(** What a post can answer, by what it did last: it made one checked call
    to [SendInput] after [before] requests of its own, or it stopped with a
    failure having injected nothing. *)
Lemma post_outcome event move_mouse w :
  calloc_succeeds w = true ->
  exists status event' w',
    do_hook_post_event call_depth event move_mouse w = Some (status, event', w')
    /\ ((exists request w0 before,
           status = fst (checked_injection request w0)
           /\ w' = snd (checked_injection request w0)
           /\ injected w0 = injected w ++ before /\ (List.length before <= 1)%nat)
        \/ (status = UIOHOOK_FAILURE /\ injected w' = injected w)).
Proof.
  intros Hmem.
  assert (Hsent : forall request w0 (before : list INPUT) (e : uiohook_event),
            injected w0 = injected w ++ before -> (List.length before <= 1)%nat ->
            exists status event' w',
              Some (fst (checked_injection request w0), e,
                    snd (checked_injection request w0)) = Some (status, event', w')
              /\ ((exists request w0 before,
                     status = fst (checked_injection request w0)
                     /\ w' = snd (checked_injection request w0)
                     /\ injected w0 = injected w ++ before /\ (List.length before <= 1)%nat)
                  \/ (status = UIOHOOK_FAILURE /\ injected w' = injected w))).
  { intros request w0 before e Hw0 Hlen. eexists _, _, _. split; [reflexivity |].
    left. exists request, w0, before. repeat split; assumption. }
  assert (Hself : injected (allocate w) = injected w ++ [])
    by (cbn; now rewrite app_nil_r).
  assert (Hrefused : forall post,
            unsupported_event event ->
            exists status event' w',
              do_hook_post_event_body post event move_mouse w = Some (status, event', w')
              /\ ((exists request w0 before,
                     status = fst (checked_injection request w0)
                     /\ w' = snd (checked_injection request w0)
                     /\ injected w0 = injected w ++ before /\ (List.length before <= 1)%nat)
                  \/ (status = UIOHOOK_FAILURE /\ injected w' = injected w))).
  { intros post Hun. rewrite (unsupported_event_body post event move_mouse w Hun Hmem).
    eexists _, _, _. split; [reflexivity |]. right. split; reflexivity. }
  assert (Hkey : type event = EVENT_KEY_PRESSED \/ type event = EVENT_KEY_RELEASED ->
            exists status event' w',
              do_hook_post_event 2 event move_mouse w = Some (status, event', w')
              /\ ((exists request w0 before,
                     status = fst (checked_injection request w0)
                     /\ w' = snd (checked_injection request w0)
                     /\ injected w0 = injected w ++ before /\ (List.length before <= 1)%nat)
                  \/ (status = UIOHOOK_FAILURE /\ injected w' = injected w))).
  { intros Ht.
    destruct (Z.eqb_spec (WORD (scancode_to_keycode (keycode (data_keyboard event)))) 0)
      as [Hvk | Hvk].
    - pose proof (key_without_mapping_lookup event move_mouse w Ht Hvk Hmem) as Hpost.
      unfold call_depth in Hpost. rewrite Hpost.
      eexists _, _, _. split; [reflexivity |]. right. split; reflexivity.
    - rewrite (post_key 1 event move_mouse w Hmem Ht Hvk).
      apply (Hsent _ _ [] _ Hself). apply Nat.le_0_l. }
  assert (Hbutton : type event = EVENT_MOUSE_PRESSED \/ type event = EVENT_MOUSE_RELEASED ->
            exists status event' w',
              do_hook_post_event 2 event move_mouse w = Some (status, event', w')
              /\ ((exists request w0 before,
                     status = fst (checked_injection request w0)
                     /\ w' = snd (checked_injection request w0)
                     /\ injected w0 = injected w ++ before /\ (List.length before <= 1)%nat)
                  \/ (status = UIOHOOK_FAILURE /\ injected w' = injected w))).
  { intros Ht.
    destruct (Z.eq_dec (button (data_mouse event)) MOUSE_NOBUTTON) as [Hb | Hb].
    - rewrite do_hook_post_event_S. apply Hrefused. left. split; assumption.
    - destruct move_mouse.
      + rewrite (post_button_moved 0 event w Hmem Ht Hb).
        apply (Hsent _ _ (if calloc_succeeds (allocate w)
                          then [move_request event] else [])).
        * rewrite preliminary_move_injected. reflexivity.
        * destruct (calloc_succeeds (allocate w)); cbn; lia.
      + rewrite (post_button_in_place 1 event w Hmem Ht Hb).
        apply (Hsent _ _ [] _ Hself). apply Nat.le_0_l. }
  assert (Hmove : type event = EVENT_MOUSE_MOVED \/ type event = EVENT_MOUSE_DRAGGED ->
            exists status event' w',
              do_hook_post_event 2 event move_mouse w = Some (status, event', w')
              /\ ((exists request w0 before,
                     status = fst (checked_injection request w0)
                     /\ w' = snd (checked_injection request w0)
                     /\ injected w0 = injected w ++ before /\ (List.length before <= 1)%nat)
                  \/ (status = UIOHOOK_FAILURE /\ injected w' = injected w))).
  { intros Ht. destruct move_mouse.
    - rewrite (post_move 1 event w Hmem Ht).
      apply (Hsent _ _ [] _ Hself). apply Nat.le_0_l.
    - rewrite (post_move_in_place 1 event w Hmem Ht).
      apply (Hsent _ _ [] _ Hself). apply Nat.le_0_l. }
  unfold call_depth.
  destruct (type event) eqn:Ht.
  - rewrite do_hook_post_event_S. apply Hrefused. right. left. exact Ht.
  - rewrite do_hook_post_event_S. apply Hrefused. right. right. left. exact Ht.
  - rewrite do_hook_post_event_S. apply Hrefused. right. right. right. left. exact Ht.
  - apply Hkey. left. reflexivity.
  - apply Hkey. right. reflexivity.
  - rewrite do_hook_post_event_S. apply Hrefused. right. right. right. right. exact Ht.
  - apply Hbutton. left. reflexivity.
  - apply Hbutton. right. reflexivity.
  - apply Hmove. left. reflexivity.
  - apply Hmove. right. reflexivity.
  - rewrite do_hook_post_event_S. unfold do_hook_post_event_body. cbv zeta.
    rewrite Hmem, Ht. cbn [negb]. unfold map_mouse_event. rewrite Ht.
    cbn [Z.eqb UIOHOOK_SUCCESS]. cbv zeta.
    match goal with
    | |- context [SendInput ?v ?i =? 0] =>
        fold (inject i v);
        assert (Hshape : forall e : uiohook_event,
                  (if SendInput v i =? 0
                   then Some (UIOHOOK_FAILURE, e,
                              logger LOG_LEVEL_ERROR "SendInput() failed! (%#lX)"
                                (inject i v))
                   else Some (UIOHOOK_SUCCESS, e, inject i v))
                  = Some (fst (checked_injection i v), e, snd (checked_injection i v)))
          by (intros e; unfold checked_injection; destruct (SendInput v i =? 0);
              reflexivity);
        rewrite Hshape
    end.
    apply (Hsent _ _ [] _ Hself). apply Nat.le_0_l.
Qed.

(** The status of a post is one of three: [UIOHOOK_ERROR_OUT_OF_MEMORY]
    exactly when the allocation of the call itself fails; [UIOHOOK_SUCCESS]
    only when the last thing the post did was a call to [SendInput] that was
    accepted; and [UIOHOOK_FAILURE] otherwise.  A post hands at most two
    requests to [SendInput], after those handed over before.  The status of
    the nested call for the preliminary move is dropped: when its allocation
    fails where that of the call succeeded, the failure is logged, the move
    is not made, and the button request alone is injected and decides the
    status. *)
Theorem post_status_contract event move_mouse w :
  exists status event' w',
    do_hook_post_event call_depth event move_mouse w = Some (status, event', w')
    /\ (status = UIOHOOK_SUCCESS \/ status = UIOHOOK_FAILURE
        \/ status = UIOHOOK_ERROR_OUT_OF_MEMORY)
    /\ (status = UIOHOOK_ERROR_OUT_OF_MEMORY <-> calloc_succeeds w = false)
    /\ (status = UIOHOOK_SUCCESS ->
        exists request w0, w' = inject request w0 /\ SendInput w0 request <> 0)
    /\ (exists requests,
          injected w' = injected w ++ requests /\ (List.length requests <= 2)%nat)
    /\ (calloc_succeeds w = true ->
        moves_first event move_mouse = true ->
        calloc_succeeds (allocate w) = false ->
        let w1 := logger LOG_LEVEL_ERROR "failed to allocate memory: calloc!"
                    (allocate (allocate w)) in
        injected w' = injected w ++ [button_request event]
        /\ In (LOG_LEVEL_ERROR, "failed to allocate memory: calloc!"%string) (logged w')
        /\ (status = UIOHOOK_SUCCESS <-> SendInput w1 (button_request event) <> 0)
        /\ (status = UIOHOOK_FAILURE <-> SendInput w1 (button_request event) = 0)).
Proof.
  destruct (calloc_succeeds w) eqn:Hmem.
  - destruct (post_outcome event move_mouse w Hmem)
      as (status & event' & w' & Hpost & Hdone).
    exists status, event', w'. split; [exact Hpost |].
    assert (Hnested : moves_first event move_mouse = true ->
              calloc_succeeds (allocate w) = false ->
              let w1 := logger LOG_LEVEL_ERROR "failed to allocate memory: calloc!"
                          (allocate (allocate w)) in
              injected w' = injected w ++ [button_request event]
              /\ In (LOG_LEVEL_ERROR, "failed to allocate memory: calloc!"%string)
                   (logged w')
              /\ (status = UIOHOOK_SUCCESS <-> SendInput w1 (button_request event) <> 0)
              /\ (status = UIOHOOK_FAILURE <-> SendInput w1 (button_request event) = 0)).
    { intros Hfirst Hnone w1.
      destruct (moves_first_cases event move_mouse Hfirst) as (-> & Ht & Hb).
      pose proof (post_button_moved 0 event w Hmem Ht Hb) as Hmoved.
      cbv zeta in Hmoved. unfold preliminary_move in Hmoved.
      rewrite Hnone in Hmoved. fold w1 in Hmoved.
      unfold call_depth in Hpost. rewrite Hmoved in Hpost.
      injection Hpost as Hstatus _ Hw'. subst status w'.
      split; [rewrite checked_injection_injected; reflexivity |].
      split.
      { apply checked_injection_keeps_log. cbn. apply in_or_app. right. now left. }
      destruct (checked_injection_status (button_request event) w1) as [Hf Hs].
      split; assumption. }
    destruct Hdone as [Hsent | [Hfail Hsame]].
    + destruct Hsent as (request & w0 & before & Hstatus & Hw' & Hw0 & Hlen).
      revert Hnested. subst status w'. unfold checked_injection.
      destruct (SendInput w0 request =? 0) eqn:E; cbn [fst snd]; intros Hnested.
      * split; [right; left; reflexivity |].
        split; [split; discriminate |]. split; [discriminate |].
        split; [| intros _; exact Hnested].
        exists (before ++ [request]). cbn. rewrite Hw0, <- app_assoc.
        split; [reflexivity |]. rewrite length_app. cbn. lia.
      * split; [left; reflexivity |].
        split; [split; discriminate |].
        split; [intros _; exists request, w0; split;
                [reflexivity | now apply Z.eqb_neq] |].
        split; [| intros _; exact Hnested].
        exists (before ++ [request]). cbn. rewrite Hw0, <- app_assoc.
        split; [reflexivity |]. rewrite length_app. cbn. lia.
    + subst status.
      split; [right; left; reflexivity |].
      split; [split; discriminate |]. split; [discriminate |].
      split; [| intros _; exact Hnested].
      exists []. rewrite app_nil_r. split; [exact Hsame | cbn; lia].
  - unfold call_depth. rewrite do_hook_post_event_S. unfold do_hook_post_event_body.
    cbv zeta. rewrite Hmem. cbn [negb].
    eexists _, _, _. split; [reflexivity |].
    split; [right; right; reflexivity |].
    split; [split; reflexivity |]. split; [discriminate |].
    split; [| discriminate].
    exists []. cbn. rewrite app_nil_r. split; [reflexivity | lia].
Qed.

End Composer.

(** C7, at the failing input.  With the left shift bit in the mask, the
    request composed for the down arrow carries no extended-key flag; the one
    for the up arrow does.  Of the ten keys of [extend_key_table] only the
    first can get the flag: the loop never goes on past a key other than
    [VK_UP]. *)
Theorem shift_down_arrow_not_extended :
  post (key_event EVENT_KEY_PRESSED MASK_SHIFT_L VC_DOWN) nothing_done
    = Some (UIOHOOK_SUCCESS, key_event EVENT_KEY_PRESSED MASK_SHIFT_L VC_DOWN,
            {| injected := [key_request VK_DOWN 0x50 KEYEVENTF_KEYDOWN];
               logged := []; calloc_calls := 1 |})
  /\ post (key_event EVENT_KEY_PRESSED MASK_SHIFT_L VC_UP) nothing_done
    = Some (UIOHOOK_SUCCESS, key_event EVENT_KEY_PRESSED MASK_SHIFT_L VC_UP,
            {| injected := [key_request VK_UP 0x48 KEYEVENTF_EXTENDEDKEY];
               logged := []; calloc_calls := 1 |})
  /\ In VK_DOWN extend_key_table
  /\ (forall wVk dwFlags,
        wVk <> VK_UP -> extend_key_loop extend_key_table wVk dwFlags = dwFlags).
Proof.
  split; [reflexivity |]. split; [reflexivity |].
  split; [right; left; reflexivity |].
  intros wVk dwFlags Hvk. rewrite extend_key_loop_table.
  apply Z.eqb_neq in Hvk. rewrite Hvk. reflexivity.
Qed.

(** C10, at the failing input.  A release of button 1 posted through
    [hook_post_event] succeeds, injects the move and the release, and hands
    the event back with its type changed to [EVENT_MOUSE_PRESSED]; the same
    release posted without the move comes back unchanged, and so does a
    press. *)
Theorem release_post_retypes_event :
  post (button_event EVENT_MOUSE_RELEASED MOUSE_BUTTON1 100 200) nothing_done
    = Some (UIOHOOK_SUCCESS,
            button_event EVENT_MOUSE_PRESSED MOUSE_BUTTON1 100 200,
            {| injected :=
                 [ move_request one_display at_origin no_mouse
                     (button_event EVENT_MOUSE_RELEASED MOUSE_BUTTON1 100 200);
                   button_request one_display at_origin no_mouse
                     (button_event EVENT_MOUSE_RELEASED MOUSE_BUTTON1 100 200) ];
               logged := []; calloc_calls := 2 |})
  /\ button_event EVENT_MOUSE_PRESSED MOUSE_BUTTON1 100 200
     <> button_event EVENT_MOUSE_RELEASED MOUSE_BUTTON1 100 200
  /\ (exists w,
        post_dont_move (button_event EVENT_MOUSE_RELEASED MOUSE_BUTTON1 100 200)
          nothing_done
        = Some (UIOHOOK_SUCCESS,
                button_event EVENT_MOUSE_RELEASED MOUSE_BUTTON1 100 200, w))
  /\ (exists w,
        post (button_event EVENT_MOUSE_PRESSED MOUSE_BUTTON1 100 200) nothing_done
        = Some (UIOHOOK_SUCCESS,
                button_event EVENT_MOUSE_PRESSED MOUSE_BUTTON1 100 200, w)).
Proof.
  split; [reflexivity |]. split; [discriminate |].
  split; eexists; reflexivity.
Qed.


Lemma unsupported_event_not_injected_witness :
  unsupported_event no_mouse (button_event EVENT_MOUSE_PRESSED MOUSE_NOBUTTON 100 200)
  /\ exists w',
       post (button_event EVENT_MOUSE_PRESSED MOUSE_NOBUTTON 100 200) nothing_done
         = Some (UIOHOOK_FAILURE,
                 button_event EVENT_MOUSE_PRESSED MOUSE_NOBUTTON 100 200, w')
       /\ injected w' = [].
Proof.
  assert (Hun : unsupported_event no_mouse
                  (button_event EVENT_MOUSE_PRESSED MOUSE_NOBUTTON 100 200)).
  { left. split; [left; reflexivity | reflexivity]. }
  split; [exact Hun |].
  destruct (unsupported_event_not_injected arrows_to_keycode arrows_to_scan one_display
              at_origin always_allocates always_injects no_keyboard no_mouse no_wheel
              (button_event EVENT_MOUSE_PRESSED MOUSE_NOBUTTON 100 200) true nothing_done
              Hun)
    as (status & w' & Hpost & _ & Hinjected & Hstatus).
  destruct (Hstatus eq_refl) as [-> _].
  exists w'. split; [exact Hpost | exact Hinjected].
Defined.

(** C9, as stated, fails on the code: a move event posted through
    [hook_post_event_dont_move_mouse] is injected with absolute positioning as
    well, at the coordinates (0, 0) where the three steps give (3413, 12136)
    for its position (100, 200). *)
Lemma move_in_place_not_normalized :
  post_dont_move (button_event EVENT_MOUSE_MOVED MOUSE_NOBUTTON 100 200) nothing_done
  = Some (UIOHOOK_SUCCESS, button_event EVENT_MOUSE_MOVED MOUSE_NOBUTTON 100 200,
          {| injected := [move_request_in_place]; logged := []; calloc_calls := 1 |})
  /\ Z.land (mi_dwFlags (mi move_request_in_place)) MOUSEEVENTF_ABSOLUTE
     = MOUSEEVENTF_ABSOLUTE
  /\ dx (mi move_request_in_place) = 0
  /\ dy (mi move_request_in_place) = 0
  /\ MulDiv (away_from_zero (100 + Z.abs (left at_origin))) MAX_WINDOWS_COORD_VALUE
       (uint16_t (one_display SM_CXVIRTUALSCREEN)) = 3413
  /\ MulDiv (away_from_zero (200 + Z.abs (top at_origin))) MAX_WINDOWS_COORD_VALUE
       (uint16_t (one_display SM_CYVIRTUALSCREEN)) = 12136.
Proof.
  repeat split.
Qed.

Lemma absolute_move_coordinates_witness :
  Z.abs (100 + Z.abs (left at_origin)) <= 32767 * uint16_t (one_display SM_CXVIRTUALSCREEN)
  /\ Z.abs (200 + Z.abs (top at_origin)) <= 32767 * uint16_t (one_display SM_CYVIRTUALSCREEN)
  /\ (exists status event' w' request rest,
        post (button_event EVENT_MOUSE_MOVED MOUSE_NOBUTTON 100 200) nothing_done
          = Some (status, event', w')
        /\ injected w' = request :: rest
        /\ dx (mi request) = 3413
        /\ dy (mi request) = 12136)
  /\ (exists status event' w' request rest,
        post (button_event EVENT_MOUSE_PRESSED MOUSE_BUTTON1 100 200) nothing_done
          = Some (status, event', w')
        /\ injected w' = request :: rest
        /\ dx (mi request) = 3413
        /\ dy (mi request) = 12136).
Proof.
  assert (Hx : Z.abs (100 + Z.abs (left at_origin))
               <= 32767 * uint16_t (one_display SM_CXVIRTUALSCREEN))
    by (vm_compute; discriminate).
  assert (Hy : Z.abs (200 + Z.abs (top at_origin))
               <= 32767 * uint16_t (one_display SM_CYVIRTUALSCREEN))
    by (vm_compute; discriminate).
  split; [exact Hx |]. split; [exact Hy |]. split.
  - destruct (absolute_move_coordinates arrows_to_keycode arrows_to_scan one_display
                at_origin always_allocates always_injects no_keyboard no_mouse no_wheel
                (button_event EVENT_MOUSE_MOVED MOUSE_NOBUTTON 100 200) nothing_done
                eq_refl (or_introl eq_refl) eq_refl eq_refl Hx Hy)
      as (status & event' & w' & request & rest & Hpost & Hinjected & _ & _
          & Hdx & Hdy & _).
    exists status, event', w', request, rest.
    split; [exact Hpost |]. split; [exact Hinjected |].
    split; [rewrite Hdx | rewrite Hdy]; reflexivity.
  - destruct (absolute_move_coordinates arrows_to_keycode arrows_to_scan one_display
                at_origin always_allocates always_injects no_keyboard no_mouse no_wheel
                (button_event EVENT_MOUSE_PRESSED MOUSE_BUTTON1 100 200) nothing_done
                eq_refl (or_intror (or_intror (conj eq_refl eq_refl)))
                eq_refl eq_refl Hx Hy)
      as (status & event' & w' & request & rest & Hpost & Hinjected & _ & _
          & Hdx & Hdy & _).
    exists status, event', w', request, rest.
    split; [exact Hpost |]. split; [exact Hinjected |].
    split; [rewrite Hdx | rewrite Hdy]; reflexivity.
Defined.

Lemma key_without_mapping_not_injected_witness :
  WORD (arrows_to_keycode (keycode (data_keyboard no_keyboard
                                      (key_event EVENT_KEY_PRESSED 0 0x001E)))) = 0
  /\ post (key_event EVENT_KEY_PRESSED 0 0x001E) nothing_done
     = Some (UIOHOOK_FAILURE, key_event EVENT_KEY_PRESSED 0 0x001E,
             {| injected := [];
                logged := [(LOG_LEVEL_WARN, "Unable to lookup scancode: %li"%string)];
                calloc_calls := 1 |}).
Proof.
  split; [reflexivity |].
  apply (key_without_mapping_not_injected arrows_to_keycode arrows_to_scan one_display
           at_origin always_allocates always_injects no_keyboard no_mouse no_wheel
           (key_event EVENT_KEY_PRESSED 0 0x001E) true nothing_done
           (or_introl eq_refl) eq_refl eq_refl).
Defined.

Lemma key_post_injects_once_witness :
  WORD (arrows_to_keycode (keycode (data_keyboard no_keyboard
                                      (key_event EVENT_KEY_RELEASED 0 VC_UP)))) <> 0
  /\ exists status w',
       post (key_event EVENT_KEY_RELEASED 0 VC_UP) nothing_done
         = Some (status, key_event EVENT_KEY_RELEASED 0 VC_UP, w')
       /\ injected w' = [key_request VK_UP 0x48 KEYEVENTF_KEYUP].
Proof.
  assert (Hvk : WORD (arrows_to_keycode
                        (keycode (data_keyboard no_keyboard
                                    (key_event EVENT_KEY_RELEASED 0 VC_UP)))) <> 0)
    by (vm_compute; discriminate).
  split; [exact Hvk |].
  destruct (key_post_injects_once arrows_to_keycode arrows_to_scan one_display
              at_origin always_allocates always_injects no_keyboard no_mouse no_wheel
              (key_event EVENT_KEY_RELEASED 0 VC_UP) true nothing_done
              (or_intror eq_refl) Hvk eq_refl)
    as (status & w' & Hpost & Hinjected & _).
  exists status, w'. split; [exact Hpost | exact Hinjected].
Defined.

Lemma wheel_post_request_witness :
  exists status w' request,
    post_dont_move
      {| type := EVENT_MOUSE_WHEEL; time := 0; mask := 0; reserved := 0;
         data := wheel {| wheel_clicks := 1; wheel_x := 0; wheel_y := 0;
                          wheel_type := WHEEL_UNIT_SCROLL; amount := 3; rotation := -120;
                          direction := WHEEL_VERTICAL_DIRECTION |} |}
      nothing_done
    = Some (status,
            {| type := EVENT_MOUSE_WHEEL; time := 0; mask := 0; reserved := 0;
               data := wheel {| wheel_clicks := 1; wheel_x := 0; wheel_y := 0;
                                wheel_type := WHEEL_UNIT_SCROLL; amount := 3;
                                rotation := -120;
                                direction := WHEEL_VERTICAL_DIRECTION |} |},
            w')
    /\ injected w' = [request]
    /\ mouseData (mi request) = 4294966936.
Proof.
  destruct (wheel_post_request arrows_to_keycode arrows_to_scan one_display
              at_origin always_allocates always_injects no_keyboard no_mouse no_wheel
              {| type := EVENT_MOUSE_WHEEL; time := 0; mask := 0; reserved := 0;
                 data := wheel {| wheel_clicks := 1; wheel_x := 0; wheel_y := 0;
                                  wheel_type := WHEEL_UNIT_SCROLL; amount := 3;
                                  rotation := -120;
                                  direction := WHEEL_VERTICAL_DIRECTION |} |}
              nothing_done eq_refl eq_refl)
    as (status & w' & request & Hpost & Hinjected & _ & _ & Hdata & _).
  exists status, w', request.
  split; [exact Hpost |]. split; [exact Hinjected |].
  rewrite Hdata. reflexivity.
Defined.

Lemma post_out_of_memory_witness :
  never_allocates nothing_done = false
  /\ hook_post_event arrows_to_keycode arrows_to_scan one_display at_origin
       never_allocates always_injects no_keyboard no_mouse no_wheel
       (key_event EVENT_KEY_PRESSED 0 VC_UP) nothing_done
     = Some (UIOHOOK_ERROR_OUT_OF_MEMORY, key_event EVENT_KEY_PRESSED 0 VC_UP,
             {| injected := [];
                logged := [(LOG_LEVEL_ERROR, "failed to allocate memory: calloc!"%string)];
                calloc_calls := 1 |}).
Proof.
  split; [reflexivity |].
  exact (post_out_of_memory arrows_to_keycode arrows_to_scan one_display at_origin
           never_allocates always_injects no_keyboard no_mouse no_wheel
           (key_event EVENT_KEY_PRESSED 0 VC_UP) true nothing_done eq_refl).
Defined.

Lemma button_post_in_place_witness :
  button (data_mouse no_mouse (button_event EVENT_MOUSE_RELEASED MOUSE_BUTTON1 100 200))
  <> MOUSE_NOBUTTON
  /\ exists status w' request,
       post_dont_move (button_event EVENT_MOUSE_RELEASED MOUSE_BUTTON1 100 200)
         nothing_done
       = Some (status, button_event EVENT_MOUSE_RELEASED MOUSE_BUTTON1 100 200, w')
       /\ injected w' = [request]
       /\ mi_dwFlags (mi request) = MOUSEEVENTF_LEFTUP
       /\ dx (mi request) = 0 /\ dy (mi request) = 0.
Proof.
  assert (Hb : button (data_mouse no_mouse
                         (button_event EVENT_MOUSE_RELEASED MOUSE_BUTTON1 100 200))
               <> MOUSE_NOBUTTON) by (vm_compute; discriminate).
  split; [exact Hb |].
  destruct (button_post_in_place arrows_to_keycode arrows_to_scan one_display at_origin
              always_allocates always_injects no_keyboard no_mouse no_wheel
              (button_event EVENT_MOUSE_RELEASED MOUSE_BUTTON1 100 200) nothing_done
              eq_refl (or_intror eq_refl) Hb)
    as (status & w' & request & Hpost & Hinjected & _ & Hflag & _ & Hdx & Hdy & _).
  exists status, w', request.
  split; [exact Hpost |]. split; [exact Hinjected |]. split; [exact Hflag |].
  split; [exact Hdx | exact Hdy].
Defined.

Lemma move_post_in_place_witness :
  exists status w' request,
    post_dont_move (button_event EVENT_MOUSE_MOVED MOUSE_NOBUTTON 100 200) nothing_done
    = Some (status, button_event EVENT_MOUSE_MOVED MOUSE_NOBUTTON 100 200, w')
    /\ injected w' = [request]
    /\ dx (mi request) = 0 /\ dy (mi request) = 0.
Proof.
  destruct (move_post_in_place arrows_to_keycode arrows_to_scan one_display at_origin
              always_allocates always_injects no_keyboard no_mouse no_wheel
              (button_event EVENT_MOUSE_MOVED MOUSE_NOBUTTON 100 200) nothing_done
              eq_refl (or_introl eq_refl))
    as (status & w' & request & Hpost & Hinjected & _ & Hdx & Hdy).
  exists status, w', request.
  split; [exact Hpost |]. split; [exact Hinjected |]. split; [exact Hdx | exact Hdy].
Defined.

Lemma normalize_coordinates_on_screen_witness :
  2 <= 1920 <= USHRT_MAX
  /\ 2 <= 1080 <= USHRT_MAX
  /\ 0 <= 0 + Z.abs (left at_origin) < 1920
  /\ 0 <= 1079 + Z.abs (top at_origin) < 1080
  /\ 1 <= nc_x (normalize_coordinates 0 1079 1920 1080 at_origin) <= USHRT_MAX
  /\ 1 <= nc_y (normalize_coordinates 0 1079 1920 1080 at_origin) <= USHRT_MAX.
Proof.
  assert (Hwidth : 2 <= 1920 <= USHRT_MAX) by (split; vm_compute; discriminate).
  assert (Hheight : 2 <= 1080 <= USHRT_MAX) by (split; vm_compute; discriminate).
  assert (Hx : 0 <= 0 + Z.abs (left at_origin) < 1920)
    by (split; [vm_compute; discriminate | reflexivity]).
  assert (Hy : 0 <= 1079 + Z.abs (top at_origin) < 1080)
    by (split; [vm_compute; discriminate | reflexivity]).
  split; [exact Hwidth |]. split; [exact Hheight |]. split; [exact Hx |].
  split; [exact Hy |].
  exact (normalize_coordinates_on_screen 0 1079 1920 1080 at_origin Hwidth Hheight Hx Hy).
Defined.

Lemma normalize_coordinates_monotone_witness :
  nc_x (normalize_coordinates 100 200 1920 1080 at_origin)
  <= nc_x (normalize_coordinates 101 200 1920 1080 at_origin).
Proof.
  assert (Hbound : forall v, 0 <= v <= 1080 -> Z.abs (v + Z.abs 0) <= 32767 * 1080)
    by (intros v Hv; rewrite Z.abs_0, Z.add_0_r, Z.abs_eq; lia).
  assert (Hwide : forall v, 0 <= v <= 1080 -> Z.abs (v + Z.abs 0) <= 32767 * 1920)
    by (intros v Hv; rewrite Z.abs_0, Z.add_0_r, Z.abs_eq; lia).
  destruct (normalize_coordinates_monotone 100 101 200 200 1920 1080 at_origin
              eq_refl eq_refl
              (Hwide 100 ltac:(lia)) (Hwide 101 ltac:(lia))
              (Hbound 200 ltac:(lia)) (Hbound 200 ltac:(lia))
              ltac:(vm_compute; discriminate) ltac:(vm_compute; discriminate))
    as (Hx & _).
  apply Hx. vm_compute. discriminate.
Defined.

Lemma post_status_contract_witness :
  allocates_once nothing_done = true
  /\ allocates_once (allocate nothing_done) = false
  /\ exists status event' w',
       hook_post_event arrows_to_keycode arrows_to_scan one_display at_origin
         allocates_once always_injects no_keyboard no_mouse no_wheel
         (button_event EVENT_MOUSE_PRESSED MOUSE_BUTTON1 100 200) nothing_done
       = Some (status, event', w')
       /\ status = UIOHOOK_SUCCESS
       /\ injected w' =
            [button_request one_display at_origin no_mouse
               (button_event EVENT_MOUSE_PRESSED MOUSE_BUTTON1 100 200)]
       /\ In (LOG_LEVEL_ERROR, "failed to allocate memory: calloc!"%string) (logged w').
Proof.
  split; [reflexivity |]. split; [reflexivity |].
  destruct (post_status_contract arrows_to_keycode arrows_to_scan one_display at_origin
              allocates_once always_injects no_keyboard no_mouse no_wheel
              (button_event EVENT_MOUSE_PRESSED MOUSE_BUTTON1 100 200) true nothing_done)
    as (status & event' & w' & Hpost & _ & _ & _ & _ & Hnested).
  destruct (Hnested eq_refl eq_refl eq_refl) as (Hinjected & Hlogged & Hsuccess & _).
  exists status, event', w'.
  split; [exact Hpost |]. split; [| split; [exact Hinjected | exact Hlogged]].
  apply Hsuccess. vm_compute. discriminate.
Defined.

End PostEventFacts.

Module ReplayFacts.

Import CInt CIntFacts Win32 Uiohook UiohookFacts.

Section Replay.

Variable hook_get_multi_click_time : Z.
Variable keycode_to_scancode : Z -> Z -> Z.
Variable keycode_to_unicode : Z -> list Z.
Variable wheel_scroll_lines : Z.
Variable user_data : Type.
Variable dispatch : option (uiohook_event -> user_data -> uiohook_event * user_data).

Variable scancode_to_keycode : Z -> Z.
Variable MapVirtualKeyW : Z -> Z -> Z.
Variable GetSystemMetrics : Z -> Z.
Variable get_largest_negative_coordinates : PostEvent.LARGESTNEGATIVECOORDINATES.
Variable calloc_succeeds : PostEvent.world -> bool.
Variable SendInput : PostEvent.world -> PostEvent.INPUT -> Z.
Variable keyboard_overlay : event_data -> keyboard_event_data.
Variable mouse_overlay : event_data -> mouse_event_data.
Variable wheel_overlay : event_data -> mouse_wheel_event_data.

Local Abbreviation hook_state := (@InputHook.hook_state user_data).
Local Abbreviation dispatched := (@InputHook.dispatched user_data).
Local Abbreviation process_key_pressed := (@InputHook.process_key_pressed keycode_to_scancode keycode_to_unicode user_data dispatch).
Local Abbreviation process_key_released := (@InputHook.process_key_released keycode_to_scancode user_data dispatch).
Local Abbreviation process_mouse_wheel := (@InputHook.process_mouse_wheel wheel_scroll_lines user_data dispatch).
Local Abbreviation mouse_hook_event_proc := (@InputHook.mouse_hook_event_proc hook_get_multi_click_time wheel_scroll_lines user_data dispatch).
Local Abbreviation hook_post_event_dont_move_mouse := (@PostEvent.hook_post_event_dont_move_mouse scancode_to_keycode MapVirtualKeyW GetSystemMetrics get_largest_negative_coordinates calloc_succeeds SendInput keyboard_overlay mouse_overlay wheel_overlay).
Local Abbreviation hook_post_event := (@PostEvent.hook_post_event scancode_to_keycode MapVirtualKeyW GetSystemMetrics get_largest_negative_coordinates calloc_succeeds SendInput keyboard_overlay mouse_overlay wheel_overlay).

(** An event the hook dispatched for one of the five buttons of the mask,
    posted back through [hook_post_event_dont_move_mouse], is injected as the
    request of that same button in that same direction: the numbering of the
    buttons is the same on the way in and on the way out. *)
Theorem hooked_button_posted_back nCode wParam mshook k press (s : hook_state) w :
  calloc_succeeds w = true ->
  InputHook.key_action (InputHook.mouse_notification nCode wParam mshook)
  = Some (k, press) ->
  exists e rest flag data status w' request,
    dispatched (fst (mouse_hook_event_proc nCode wParam mshook s))
    = dispatched s ++ e :: rest
    /\ Replay.button_request_of k press = Some (flag, data)
    /\ hook_post_event_dont_move_mouse e w = Some (status, e, w')
    /\ PostEvent.injected w' = PostEvent.injected w ++ [request]
    /\ PostEvent.mi_dwFlags (PostEvent.mi request) = flag
    /\ PostEvent.mouseData (PostEvent.mi request) = data.
Proof.
  intros Hmem Hact.
  destruct (InputHookFacts.button_notification_event hook_get_multi_click_time
              wheel_scroll_lines user_data dispatch nCode wParam mshook k press s Hact)
    as (e & m & rest & Hd & Ht & Hm & Hb).
  assert (Hbutton : PostEvent.data_mouse mouse_overlay e = m)
    by (unfold PostEvent.data_mouse; now rewrite Hm).
  assert (Hk : exists flag data,
            Replay.button_request_of k press = Some (flag, data)
            /\ PostEvent.button_flag (type e) (button m) = flag
            /\ PostEvent.button_data (button m) = data
            /\ button m <> MOUSE_NOBUTTON).
  { rewrite Ht, Hb. unfold InputHook.key_action in Hact.
    destruct k; destruct press;
      try (eexists _, _; split; [reflexivity |]; repeat split; discriminate);
      exfalso;
      repeat match type of Hact with
             | (if ?c then _ else _) = _ => destruct c
             | option_map _ (if ?c then _ else _) = _ => destruct c
             end; cbn in Hact; discriminate Hact. }
  destruct Hk as (flag & data & Hreq & Hflag & Hdata & Hreal).
  exists e, rest, flag, data,
    (fst (PostEvent.checked_injection SendInput
            (PostEvent.button_request_in_place mouse_overlay e) (PostEvent.allocate w))),
    (snd (PostEvent.checked_injection SendInput
            (PostEvent.button_request_in_place mouse_overlay e) (PostEvent.allocate w))),
    (PostEvent.button_request_in_place mouse_overlay e).
  split; [exact Hd |]. split; [exact Hreq |].
  split.
  { apply (PostEventFacts.post_button_in_place scancode_to_keycode MapVirtualKeyW
             GetSystemMetrics get_largest_negative_coordinates calloc_succeeds SendInput
             keyboard_overlay mouse_overlay wheel_overlay 1 e w Hmem).
    - rewrite Ht. destruct press; [left | right]; reflexivity.
    - rewrite Hbutton. exact Hreal. }
  split; [rewrite PostEventFacts.checked_injection_injected; reflexivity |].
  cbn [PostEvent.button_request_in_place PostEvent.mi PostEvent.mi_dwFlags
       PostEvent.mouseData].
  rewrite Hbutton. split; assumption.
Qed.

(** A wheel event the hook dispatched, posted back, is injected as a
    vertical wheel request whatever its direction, and its amount is the
    number of lines of the event times its rotation: for the vertical wheel,
    whose rotation the hook has negated, the opposite of the turn that was
    hooked, multiplied by the number of lines. *)
Theorem hooked_wheel_posted_back mshook direction (s : hook_state) w :
  calloc_succeeds w = true ->
  let delta := int16_t (HIWORD (ms_mouseData mshook)) in
  let turned := if direction =? WHEEL_VERTICAL_DIRECTION then int16_t (- delta)
                else delta in
  let lines := if wheel_scroll_lines =? WHEEL_PAGESCROLL then 1
               else uint16_t wheel_scroll_lines in
  exists e status w' request,
    dispatched (process_mouse_wheel mshook direction s) = dispatched s ++ [e]
    /\ hook_post_event_dont_move_mouse e w = Some (status, e, w')
    /\ PostEvent.injected w' = PostEvent.injected w ++ [request]
    /\ PostEvent.mi_dwFlags (PostEvent.mi request) = MOUSEEVENTF_WHEEL
    /\ PostEvent.mouseData (PostEvent.mi request)
       = PostEvent.DWORD (int_ (lines * turned)).
Proof.
  intros Hmem delta turned lines.
  unfold InputHook.process_mouse_wheel. cbv zeta.
  rewrite InputHookFacts.dispatch_event_dispatched.
  cbn [InputHook.dispatched InputHook.event InputHook.with_event InputHook.logger
       InputHook.with_click_count InputHook.with_click_button].
  eexists _, _, _, _. split; [reflexivity |].
  split.
  { apply (PostEventFacts.post_wheel_in_place scancode_to_keycode MapVirtualKeyW
             GetSystemMetrics get_largest_negative_coordinates calloc_succeeds SendInput
             keyboard_overlay mouse_overlay wheel_overlay 1 _ w Hmem). reflexivity. }
  split; [rewrite PostEventFacts.checked_injection_injected; reflexivity |].
  split; [reflexivity |].
  cbn [PostEvent.wheel_request_in_place PostEvent.mi PostEvent.mouseData
       PostEvent.data_wheel data amount rotation].
  unfold InputHook.get_scroll_wheel_amount. fold delta lines.
  unfold turned. destruct (direction =? WHEEL_VERTICAL_DIRECTION); [| reflexivity].
  replace (delta * -1) with (- delta) by lia. reflexivity.
Qed.

(** When the two key tables of [input_helper.h] agree on a key, the pressed
    and the released event the hook dispatched for it, posted back, are
    injected as requests for that same virtual key, going down and going up. *)
Theorem hooked_key_posted_back kbhook (s : hook_state) w :
  calloc_succeeds w = true ->
  let vk := kb_vkCode kbhook in
  0 < vk < 2 ^ 16 ->
  scancode_to_keycode (keycode_to_scancode vk (kb_flags kbhook)) = vk ->
  (exists e rest status w' request,
     dispatched (process_key_pressed kbhook s) = dispatched s ++ e :: rest
     /\ hook_post_event e w = Some (status, e, w')
     /\ PostEvent.injected w' = PostEvent.injected w ++ [request]
     /\ PostEvent.input_type request = INPUT_KEYBOARD
     /\ PostEvent.wVk (PostEvent.ki request) = vk
     /\ Z.testbit (PostEvent.ki_dwFlags (PostEvent.ki request)) 1 = false)
  /\ (exists e status w' request,
        dispatched (process_key_released kbhook s) = dispatched s ++ [e]
        /\ hook_post_event e w = Some (status, e, w')
        /\ PostEvent.injected w' = PostEvent.injected w ++ [request]
        /\ PostEvent.input_type request = INPUT_KEYBOARD
        /\ PostEvent.wVk (PostEvent.ki request) = vk
        /\ Z.testbit (PostEvent.ki_dwFlags (PostEvent.ki request)) 1 = true).
Proof.
  intros Hmem vk Hvk Htables.
  assert (Hword : PostEvent.WORD vk = vk).
  { unfold PostEvent.WORD, to_unsigned. apply Z.mod_small. lia. }
  assert (Hpost : forall t modifiers,
            t = EVENT_KEY_PRESSED \/ t = EVENT_KEY_RELEASED ->
            let e := InputHook.key_event keycode_to_scancode t kbhook modifiers in
            hook_post_event e w =
              Some (fst (PostEvent.checked_injection SendInput
                           (PostEvent.key_request_of scancode_to_keycode MapVirtualKeyW
                              keyboard_overlay e) (PostEvent.allocate w)), e,
                    snd (PostEvent.checked_injection SendInput
                           (PostEvent.key_request_of scancode_to_keycode MapVirtualKeyW
                              keyboard_overlay e) (PostEvent.allocate w)))
            /\ PostEvent.wVk
                 (PostEvent.ki
                    (PostEvent.key_request_of scancode_to_keycode MapVirtualKeyW
                       keyboard_overlay e)) = vk).
  { intros t modifiers Ht e.
    assert (Hcode : PostEvent.WORD
                      (scancode_to_keycode
                         (keycode (PostEvent.data_keyboard keyboard_overlay e))) = vk).
    { unfold e. cbn [PostEvent.data_keyboard InputHook.key_event data keycode].
      fold vk. now rewrite Htables. }
    split.
    - apply (PostEventFacts.post_key scancode_to_keycode MapVirtualKeyW
               GetSystemMetrics get_largest_negative_coordinates calloc_succeeds SendInput
               keyboard_overlay mouse_overlay wheel_overlay 1 e true w Hmem).
      + exact Ht.
      + rewrite Hcode. lia.
    - unfold PostEvent.key_request_of. cbn [PostEvent.ki PostEvent.wVk]. exact Hcode. }
  assert (Hflag : forall (c : bool) base,
            Z.testbit (if c then Z.lor base KEYEVENTF_EXTENDEDKEY else base) 1
            = Z.testbit base 1).
  { intros [] base; [| reflexivity].
    rewrite Z.lor_spec. change (Z.testbit KEYEVENTF_EXTENDEDKEY 1) with false.
    apply orb_false_r. }
  split.
  - pose proof (InputHookFacts.process_key_pressed_trace keycode_to_scancode
                  keycode_to_unicode user_data dispatch kbhook s) as Htrace.
    cbv zeta in Htrace.
    destruct (Hpost EVENT_KEY_PRESSED
                (InputHook.pressed_modifiers user_data (kb_vkCode kbhook) s)
                (or_introl eq_refl)) as [Hp Hv].
    eexists _, _, _, _, _. split; [exact Htrace |]. split; [exact Hp |].
    split; [rewrite PostEventFacts.checked_injection_injected; reflexivity |].
    split; [reflexivity |]. split; [exact Hv |].
    unfold PostEvent.key_request_of.
    cbn [PostEvent.ki PostEvent.ki_dwFlags InputHook.key_event type].
    rewrite Hflag. reflexivity.
  - pose proof (InputHookFacts.process_key_released_trace keycode_to_scancode
                  user_data dispatch kbhook s) as Htrace.
    destruct (Hpost EVENT_KEY_RELEASED
                (InputHook.released_modifiers user_data (kb_vkCode kbhook) s)
                (or_intror eq_refl)) as [Hp Hv].
    eexists _, _, _, _. split; [exact Htrace |]. split; [exact Hp |].
    split; [rewrite PostEventFacts.checked_injection_injected; reflexivity |].
    split; [reflexivity |]. split; [exact Hv |].
    unfold PostEvent.key_request_of.
    cbn [PostEvent.ki PostEvent.ki_dwFlags InputHook.key_event type].
    rewrite Hflag. reflexivity.
Qed.

End Replay.

Lemma hooked_button_posted_back_witness :
  InputHook.key_action
    (InputHook.mouse_notification 0 WM_RBUTTONDOWN (InputHook.mouse_at 10 10 100))
  = Some (InputHook.BUTTON2, true)
  /\ exists e rest status w' request,
       InputHook.dispatched
         (fst (InputHook.mouse_hook_event_proc 400 3 InputHook.passing_sink 0
                 WM_RBUTTONDOWN (InputHook.mouse_at 10 10 100) InputHook.hook_loaded))
       = e :: rest
       /\ PostEvent.post_dont_move e PostEvent.nothing_done = Some (status, e, w')
       /\ PostEvent.injected w' = [request]
       /\ PostEvent.mi_dwFlags (PostEvent.mi request) = MOUSEEVENTF_RIGHTDOWN.
Proof.
  split; [reflexivity |].
  destruct (hooked_button_posted_back 400 3 unit InputHook.passing_sink
              PostEvent.arrows_to_keycode PostEvent.arrows_to_scan PostEvent.one_display
              PostEvent.at_origin PostEvent.always_allocates PostEvent.always_injects
              PostEvent.no_keyboard PostEvent.no_mouse PostEvent.no_wheel
              0 WM_RBUTTONDOWN (InputHook.mouse_at 10 10 100) InputHook.BUTTON2 true
              InputHook.hook_loaded PostEvent.nothing_done eq_refl eq_refl)
    as (e & rest & flag & data & status & w' & request
        & Htrace & Hrequest & Hpost & Hinjected & Hflag & _).
  exists e, rest, status, w', request.
  split; [exact Htrace |]. split; [exact Hpost |]. split; [exact Hinjected |].
  rewrite Hflag. injection Hrequest as Hf _. symmetry. exact Hf.
Defined.

Lemma hooked_wheel_posted_back_witness :
  exists e status w' request,
    InputHook.dispatched
      (InputHook.process_mouse_wheel 3 InputHook.passing_sink
         (InputHook.x_button_at 10 10 100 120) WHEEL_VERTICAL_DIRECTION
         InputHook.hook_loaded)
    = [e]
    /\ PostEvent.post_dont_move e PostEvent.nothing_done = Some (status, e, w')
    /\ PostEvent.injected w' = [request]
    /\ PostEvent.mouseData (PostEvent.mi request) = 4294966936.
Proof.
  destruct (hooked_wheel_posted_back 3 unit InputHook.passing_sink
              PostEvent.arrows_to_keycode PostEvent.arrows_to_scan PostEvent.one_display
              PostEvent.at_origin PostEvent.always_allocates PostEvent.always_injects
              PostEvent.no_keyboard PostEvent.no_mouse PostEvent.no_wheel
              (InputHook.x_button_at 10 10 100 120) WHEEL_VERTICAL_DIRECTION
              InputHook.hook_loaded PostEvent.nothing_done eq_refl)
    as (e & status & w' & request & Htrace & Hpost & Hinjected & _ & Hdata).
  exists e, status, w', request.
  split; [exact Htrace |]. split; [exact Hpost |]. split; [exact Hinjected |].
  rewrite Hdata. reflexivity.
Defined.

Lemma hooked_key_posted_back_witness :
  PostEvent.arrows_to_keycode (if VK_UP =? VK_UP then PostEvent.VC_UP else 0) = VK_UP
  /\ exists e rest status w' request,
       InputHook.dispatched
         (InputHook.process_key_pressed
            (fun vk _ => if vk =? VK_UP then PostEvent.VC_UP else 0) (fun _ => [])
            InputHook.passing_sink
            {| kb_vkCode := VK_UP; kb_scanCode := 0x48; kb_flags := 0; kb_time := 0 |}
            InputHook.hook_loaded)
       = e :: rest
       /\ PostEvent.post e PostEvent.nothing_done = Some (status, e, w')
       /\ PostEvent.injected w' = [request]
       /\ PostEvent.wVk (PostEvent.ki request) = VK_UP.
Proof.
  split; [reflexivity |].
  destruct (hooked_key_posted_back
              (fun vk _ => if vk =? VK_UP then PostEvent.VC_UP else 0) (fun _ => [])
              unit InputHook.passing_sink
              PostEvent.arrows_to_keycode PostEvent.arrows_to_scan PostEvent.one_display
              PostEvent.at_origin PostEvent.always_allocates PostEvent.always_injects
              PostEvent.no_keyboard PostEvent.no_mouse PostEvent.no_wheel
              {| kb_vkCode := VK_UP; kb_scanCode := 0x48; kb_flags := 0; kb_time := 0 |}
              InputHook.hook_loaded PostEvent.nothing_done
              eq_refl (conj eq_refl eq_refl) eq_refl)
    as ((e & rest & status & w' & request & Htrace & Hpost & Hinjected & _ & Hvk & _) & _).
  exists e, rest, status, w', request.
  split; [exact Htrace |]. split; [exact Hpost |]. split; [exact Hinjected | exact Hvk].
Defined.

End ReplayFacts.
